(** * Physiotherapy coach: limb detection and repetition counting

    A shallow embedding of the pose-tracking component
    ([PhysiotherapyCoach], the variant with [hasReachedPeakRef] and
    [lastRepTimeRef]): its per-frame analysis, its handlers and its
    drawing; of the load-time correction of the exercise recommendation
    route ([validateAndCorrectExercise]); and of the curated videos of
    the search route.

    JavaScript numbers that carry measurements (coordinates, angles,
    thresholds) are idealised as real numbers, so rounding, [NaN] and
    signed zeros are outside the model; [Date.now()] and landmark
    indices are integers; counters are natural numbers; strings are
    strings of bytes, with [toLowerCase] on the ASCII letters.  The React
    state that the closures of an effect run have captured is one record
    ([Render]), read only; the refs and the state behind the setters are
    another ([Session]), which each function takes and returns.
    [Date.now()] is an argument of the analysis of a frame.  [onResults]
    is modelled without its drawing, which [drawPose] gives on its own
    as the list of what it draws; logging is left out. *)

From Stdlib Require Import Reals Lra Lia ZArith List Bool.
From Stdlib Require Import String Ascii DecimalString.
From Stdlib Require Import Machin.
Import ListNotations.

Open Scope R_scope.

(** ** Comparisons of JavaScript numbers, as booleans *)

Definition num_lt (a b : R) : bool := if Rlt_dec a b then true else false.
Definition num_le (a b : R) : bool := if Rle_dec a b then true else false.
Definition num_gt (a b : R) : bool := num_lt b a.
Definition num_ge (a b : R) : bool := num_le b a.

(** ** Landmarks *)

(** One pose landmark as the pose estimator delivers it. *)
Record Landmark : Type := mkLandmark {
  lm_x : R;
  lm_y : R;
  visibility : R
}.

(** ** calculateAngle *)

(** [Math.atan2 y x] on real numbers (signed zeros are not modelled). *)
Definition atan2 (y x : R) : R :=
  if Rlt_dec 0 x then atan (y / x)
  else if Rlt_dec x 0 then
    if Rle_dec 0 y then atan (y / x) + PI else atan (y / x) - PI
  else if Rlt_dec 0 y then PI / 2
  else if Rlt_dec y 0 then - (PI / 2)
  else 0.

(** Over the real numbers: a value that is exact here is exact in the
    code up to the rounding of [Math.atan2] and of the arithmetic. *)
Definition calculateAngle (a b c : Landmark) : R :=
  let radians :=
    atan2 (lm_y c - lm_y b) (lm_x c - lm_x b)
    - atan2 (lm_y a - lm_y b) (lm_x a - lm_x b) in
  let angle := Rabs (radians * 180 / PI) in
  if num_gt angle 180 then 360 - angle else angle.

(** ** Strings *)

Open Scope string_scope.

(** [s.toLowerCase()] on the ASCII letters. *)
Definition lower_ascii (c : ascii) : ascii :=
  let n := nat_of_ascii c in
  if andb (Nat.leb 65 n) (Nat.leb n 90) then ascii_of_nat (n + 32) else c.

Fixpoint toLowerCase (s : string) : string :=
  match s with
  | EmptyString => EmptyString
  | String c s' => String (lower_ascii c) (toLowerCase s')
  end.

(** [s.includes(sub)]. *)
Fixpoint includes (s sub : string) : bool :=
  if String.prefix sub s then true
  else match s with
       | EmptyString => false
       | String _ s' => includes s' sub
       end.

(** ** Exercise configuration *)

Inductive Side : Type := Left | Right.

Definition Side_eqb (a b : Side) : bool :=
  match a, b with
  | Left, Left | Right, Right => true
  | _, _ => false
  end.

Record PrimaryAngle : Type := mkPrimaryAngle {
  points : list Z;
  angleName : string
}.

Record AngleCalculations : Type := mkAngleCalculations {
  primaryAngle : PrimaryAngle
}.

Record TargetRanges : Type := mkTargetRanges {
  startingPosition : R * R;
  targetRange : R * R;
  optimalPeak : R * R
}.

Record FormCheck : Type := mkFormCheck {
  condition : string;
  errorMessage : string;
  keypoints : list Z
}.

Record RepThresholds : Type := mkRepThresholds {
  liftingMin : R;
  loweringMax : R;
  restMax : R
}.

Record ExerciseData : Type := mkExerciseData {
  exerciseName : string;
  description : string;
  steps : list string;
  targetKeypoints : list Z;
  angleCalculations : AngleCalculations;
  targetRanges : TargetRanges;
  formChecks : list FormCheck;
  repThresholds : RepThresholds
}.

(** ** The pose of one frame *)

(** [results.poseLandmarks]: an array that may have holes. *)
Definition Landmarks : Type := list (option Landmark).

(** [landmarks[i]]; [undefined] outside the array. *)
Definition landmark_at (landmarks : Landmarks) (i : Z) : option Landmark :=
  if (i <? 0)%Z then None
  else match nth_error landmarks (Z.to_nat i) with
       | Some (Some p) => Some p
       | _ => None
       end.

(** [landmarks[pts[k]]]; [pts[k]] is [undefined] past the end of [pts]. *)
Definition landmark_of_point (landmarks : Landmarks) (pts : list Z) (k : nat)
  : option Landmark :=
  match nth_error pts k with
  | Some i => landmark_at landmarks i
  | None => None
  end.

(** ** Moving keypoint indices to the detected side *)

Module Resolve.

(** The callback of [adjustedPoints.map] in [analyzeArmExercise]. *)
Definition armPoint (point : Z) : Z :=
  if (point =? 11)%Z then 12%Z
  else if (point =? 13)%Z then 14%Z
  else if (point =? 15)%Z then 16%Z
  else if (point =? 23)%Z then 24%Z
  else if (point =? 25)%Z then 26%Z
  else point.

(** The callback of [adjustedPoints.map] in [analyzeLegExercise]. *)
Definition legPoint (point : Z) : Z :=
  if (point =? 23)%Z then 24%Z
  else if (point =? 25)%Z then 26%Z
  else if (point =? 27)%Z then 28%Z
  else if (point =? 11)%Z then 12%Z
  else point.

(** The callback of [check.keypoints.map] in [analyzeExerciseForm]. *)
Definition checkKeypoint (detectedArm : Side) (idx : Z) : Z :=
  match detectedArm with
  | Right =>
      if (idx =? 11)%Z then 12%Z
      else if (idx =? 13)%Z then 14%Z
      else if (idx =? 15)%Z then 16%Z
      else if (idx =? 23)%Z then 24%Z
      else if (idx =? 25)%Z then 26%Z
      else if (idx =? 27)%Z then 28%Z
      else idx
  | Left => idx
  end.

(** [adjustedPoints] of [analyzeArmExercise]. *)
Definition armPoints (pts : list Z) (detectedArmLocal : Side) : list Z :=
  match detectedArmLocal with
  | Right => map armPoint pts
  | Left => pts
  end.

(** [adjustedPoints] of [analyzeLegExercise]. *)
Definition legPoints (pts : list Z) (detectedLegLocal : Side) : list Z :=
  match detectedLegLocal with
  | Right => map legPoint pts
  | Left => pts
  end.

(** [adjustedKeypoints] of the form checks. *)
Definition checkKeypoints (kps : list Z) (detectedArm : Side) : list Z :=
  map (checkKeypoint detectedArm) kps.

(** The mirror map as the specification words it: the six pairs are
    exchanged, every other index is kept. *)
Definition spec_mirror (idx : Z) : Z :=
  if (idx =? 11)%Z then 12%Z else if (idx =? 12)%Z then 11%Z
  else if (idx =? 13)%Z then 14%Z else if (idx =? 14)%Z then 13%Z
  else if (idx =? 15)%Z then 16%Z else if (idx =? 16)%Z then 15%Z
  else if (idx =? 23)%Z then 24%Z else if (idx =? 24)%Z then 23%Z
  else if (idx =? 25)%Z then 26%Z else if (idx =? 26)%Z then 25%Z
  else if (idx =? 27)%Z then 28%Z else if (idx =? 28)%Z then 27%Z
  else idx.

Definition spec_resolveIndices (indices : list Z) (side : Side) : list Z :=
  match side with
  | Right => map spec_mirror indices
  | Left => indices
  end.

(** What the code does on one index: a left-side index goes to its
    right-side partner, anything else stays. *)
Definition leftToRight (idx : Z) : Z :=
  if existsb (Z.eqb idx) [11; 13; 15; 23; 25; 27]%Z then (idx + 1)%Z else idx.

End Resolve.

(** ** Component state *)

(** The React state that the closures of one effect run have captured.
    The effect is set up again only when [currentExercise] or
    [exerciseStarted] change; within one run these values are constants
    of [onResults] and of the functions it calls. *)
Record Render : Type := mkRender {
  currentExercise : option ExerciseData;
  exerciseStarted : bool;
  detectedArm : Side
}.

(** What a frame can change: the four refs and the state behind the
    setters that the analysis calls. *)
Record Session : Type := mkSession {
  repCounterRef : nat;
  lastStateRef : string;
  hasReachedPeakRef : bool;
  lastRepTimeRef : Z;
  feedback : string;
  exerciseState : string;
  repCount : nat;
  armAngle : Z;
  isCorrectForm : option bool;
  detectedArmState : Side
}.

Definition setFeedback (v : string) (s : Session) : Session :=
  mkSession (repCounterRef s) (lastStateRef s) (hasReachedPeakRef s)
    (lastRepTimeRef s) v (exerciseState s) (repCount s) (armAngle s)
    (isCorrectForm s) (detectedArmState s).

Definition setIsCorrectForm (v : option bool) (s : Session) : Session :=
  mkSession (repCounterRef s) (lastStateRef s) (hasReachedPeakRef s)
    (lastRepTimeRef s) (feedback s) (exerciseState s) (repCount s) (armAngle s)
    v (detectedArmState s).

Definition setExerciseState (v : string) (s : Session) : Session :=
  mkSession (repCounterRef s) (lastStateRef s) (hasReachedPeakRef s)
    (lastRepTimeRef s) (feedback s) v (repCount s) (armAngle s)
    (isCorrectForm s) (detectedArmState s).

Definition setRepCount (v : nat) (s : Session) : Session :=
  mkSession (repCounterRef s) (lastStateRef s) (hasReachedPeakRef s)
    (lastRepTimeRef s) (feedback s) (exerciseState s) v (armAngle s)
    (isCorrectForm s) (detectedArmState s).

Definition setArmAngle (v : Z) (s : Session) : Session :=
  mkSession (repCounterRef s) (lastStateRef s) (hasReachedPeakRef s)
    (lastRepTimeRef s) (feedback s) (exerciseState s) (repCount s) v
    (isCorrectForm s) (detectedArmState s).

Definition setDetectedArm (v : Side) (s : Session) : Session :=
  mkSession (repCounterRef s) (lastStateRef s) (hasReachedPeakRef s)
    (lastRepTimeRef s) (feedback s) (exerciseState s) (repCount s) (armAngle s)
    (isCorrectForm s) v.

Definition set_repCounterRef (v : nat) (s : Session) : Session :=
  mkSession v (lastStateRef s) (hasReachedPeakRef s)
    (lastRepTimeRef s) (feedback s) (exerciseState s) (repCount s) (armAngle s)
    (isCorrectForm s) (detectedArmState s).

Definition set_lastStateRef (v : string) (s : Session) : Session :=
  mkSession (repCounterRef s) v (hasReachedPeakRef s)
    (lastRepTimeRef s) (feedback s) (exerciseState s) (repCount s) (armAngle s)
    (isCorrectForm s) (detectedArmState s).

Definition set_hasReachedPeakRef (v : bool) (s : Session) : Session :=
  mkSession (repCounterRef s) (lastStateRef s) v
    (lastRepTimeRef s) (feedback s) (exerciseState s) (repCount s) (armAngle s)
    (isCorrectForm s) (detectedArmState s).

Definition set_lastRepTimeRef (v : Z) (s : Session) : Session :=
  mkSession (repCounterRef s) (lastStateRef s) (hasReachedPeakRef s)
    v (feedback s) (exerciseState s) (repCount s) (armAngle s)
    (isCorrectForm s) (detectedArmState s).

(** The state of the component when it is mounted. *)
Definition initialSession : Session := {|
  repCounterRef := 0;
  lastStateRef := "ready";
  hasReachedPeakRef := false;
  lastRepTimeRef := 0;
  feedback := "Loading MediaPipe...";
  exerciseState := "ready";
  repCount := 0;
  armAngle := 0;
  isCorrectForm := None;
  detectedArmState := Left
|}.

(** ** Message texts *)

Definition dquote : string := String "034"%char EmptyString.

(** The prefixes of the messages, byte for byte as the source file has
    them. *)
Definition glyph_done : string := "âœ…".
Definition glyph_progress : string := "ðŸ“ˆ".
Definition glyph_ready : string := "ðŸ".
Definition glyph_warning : string := "âš ï¸".

(** A natural number printed in decimal, as a template literal does. *)
Definition string_of_nat (n : nat) : string :=
  NilEmpty.string_of_uint (Nat.to_uint n).

(** [Math.round]: the nearest integer, halves upwards. *)
Definition Math_round (r : R) : Z := Int_part (r + / 2).

(** ** The built-in exercise *)

Definition defaultExercise : ExerciseData := {|
  exerciseName := "Shoulder Abduction";
  description := "Basic shoulder abduction exercise for shoulder mobility";
  steps := [ "Stand facing the camera";
             "Keep your arm straight";
             "Slowly lift your arm to the side";
             "Raise until horizontal (90°)";
             "Lower slowly and controlled";
             "Repeat for desired reps" ];
  targetKeypoints := [11; 13; 15; 23]%Z;
  angleCalculations := {|
    primaryAngle := {| points := [23; 11; 13]%Z;
                       angleName := "Shoulder Abduction Angle" |} |};
  targetRanges := {|
    startingPosition := (0, 45);
    targetRange := (90, 180);
    optimalPeak := (90, 120) |};
  formChecks := [
    {| condition := "wrist higher than shoulder";
       errorMessage := "Keep your arm horizontal, don't lift too high";
       keypoints := [11; 15]%Z |};
    {| condition := "elbow below shoulder";
       errorMessage := "Keep your elbow level with your shoulder";
       keypoints := [11; 13]%Z |} ];
  repThresholds := {| liftingMin := 60; loweringMax := 75; restMax := 45 |}
|}.

(** [currentExercise || defaultExercise]. *)
Definition exerciseInUse (rd : Render) : ExerciseData :=
  match currentExercise rd with
  | Some e => e
  | None => defaultExercise
  end.

(** [handleStartExercise]: toggles [exerciseStarted]; on a start the
    counters are reset. *)
Definition handleStartExercise (rd : Render) (s : Session) : Render * Session :=
  (mkRender (currentExercise rd) (negb (exerciseStarted rd)) (detectedArm rd),
   if negb (exerciseStarted rd) then
     setFeedback "Exercise started! Begin your movements"
       (set_lastStateRef "ready"
         (set_lastRepTimeRef 0%Z
           (set_hasReachedPeakRef false
             (set_repCounterRef 0%nat (setRepCount 0%nat s)))))
   else setFeedback "Exercise stopped" s).

Inductive BodyPart : Type := Arms | Legs.

Definition getExerciseBodyPart (exercise : ExerciseData) : BodyPart :=
  let keypoints := targetKeypoints exercise in
  let hasLegKeypoints := existsb (fun k => andb (23 <=? k)%Z (k <=? 32)%Z) keypoints in
  if hasLegKeypoints then Legs else Arms.

(** ** analyzeExerciseForm *)

(** The exercise kinds that [analyzeExerciseForm] reads off the name. *)
Definition isLiftingExercise (exercise : ExerciseData) : bool :=
  let name := toLowerCase (exerciseName exercise) in
  includes name "abduction" || includes name "flexion"
  || includes name "raise" || includes name "extension".

Definition isCurlingExercise (exercise : ExerciseData) : bool :=
  let name := toLowerCase (exerciseName exercise) in
  includes name "curl" || includes name "bicep".

Definition isLegExercise (exercise : ExerciseData) : bool :=
  let name := toLowerCase (exerciseName exercise) in
  includes name "squat" || includes name "lunge"
  || includes name "hip" || includes name "leg".

Definition isSquat (exercise : ExerciseData) : bool :=
  includes (toLowerCase (exerciseName exercise)) "squat".

Definition isLunge (exercise : ExerciseData) : bool :=
  includes (toLowerCase (exerciseName exercise)) "lunge".

Definition actionVerbGerund (exercise : ExerciseData) : string :=
  if isLegExercise exercise then
    if isSquat exercise then "squatting"
    else if isLunge exercise then "lunging" else "lifting"
  else if isCurlingExercise exercise then "curling"
  else "lifting".

Definition bodyPart (exercise : ExerciseData) : string :=
  if isLegExercise exercise then "leg"
  else if isCurlingExercise exercise then "forearm"
  else "arm".

Definition inRange (angle : R) (range : R * R) : bool :=
  num_ge angle (fst range) && num_le angle (snd range).

Definition isInOptimalPeak (exercise : ExerciseData) (angle : R) : bool :=
  let optimalPeak := optimalPeak (targetRanges exercise) in
  if isLegExercise exercise then
    if isSquat exercise then inRange angle optimalPeak
    else inRange angle optimalPeak
  else
    (isLiftingExercise exercise && inRange angle optimalPeak)
    || (isCurlingExercise exercise && inRange angle optimalPeak).

Definition isInStartingPosition (exercise : ExerciseData) (angle : R) : bool :=
  let startingPosition := startingPosition (targetRanges exercise) in
  if isLegExercise exercise then
    num_le angle (snd startingPosition) || num_ge angle (fst startingPosition)
  else
    (isLiftingExercise exercise && num_le angle (snd startingPosition))
    || (isCurlingExercise exercise && num_ge angle (fst startingPosition)).

(** The guarded block that counts a repetition. *)
Definition countRep (inPeak : bool) (currentTime : Z) (s : Session) : Session :=
  if inPeak && negb (hasReachedPeakRef s)
     && (1000 <? currentTime - lastRepTimeRef s)%Z
  then
    let s1 := set_hasReachedPeakRef true s in
    let s2 := set_lastRepTimeRef currentTime s1 in
    let s3 := set_repCounterRef (repCounterRef s2 + 1) s2 in
    setRepCount (repCounterRef s3) s3
  else s.

(** The guarded block that arms the counter again. *)
Definition rearm (inStart : bool) (s : Session) : Session :=
  if inStart && hasReachedPeakRef s then set_hasReachedPeakRef false s else s.

(** The chain of branches that picks the message and [currentState];
    [reps] is [repCounterRef.current] after counting.  Every branch sets
    [formCorrect] to [true]. *)
Definition phaseFeedback (exercise : ExerciseData) (angle : R) (reps : nat)
  : string * string :=
  let liftingMin := liftingMin (repThresholds exercise) in
  let optimalPeak := optimalPeak (targetRanges exercise) in
  let gerund := actionVerbGerund exercise in
  let name := toLowerCase (exerciseName exercise) in
  if isInOptimalPeak exercise angle then
    (glyph_done ++ " Excellent! Rep " ++ string_of_nat reps
       ++ " completed - Full range achieved", gerund)
  else if isLegExercise exercise then
    if isSquat exercise && num_lt angle (fst optimalPeak) then
      (glyph_progress ++ " Go deeper! Squat down more to reach full range", gerund)
    else if num_gt angle liftingMin then
      (glyph_progress ++ " Keep going! "
         ++ (if String.eqb gerund "squatting" then "Go deeper"
             else "Continue movement"), gerund)
    else
      (glyph_ready ++ " Ready position. Begin " ++ name, "ready")
  else if (isLiftingExercise exercise && num_gt angle liftingMin)
          || (isCurlingExercise exercise && num_lt angle liftingMin) then
    (glyph_progress ++ " Keep going! "
       ++ (if isLiftingExercise exercise then "Raise" else "Curl")
       ++ " your " ++ bodyPart exercise ++ " "
       ++ (if isLiftingExercise exercise then "higher" else "more"), gerund)
  else if isInStartingPosition exercise angle then
    (glyph_ready ++ " Ready position. Begin " ++ name, "ready")
  else
    (glyph_progress ++ " Start your movement", "ready").

Definition pick (detectedArm : Side) (l r : Z) : Z :=
  match detectedArm with Left => l | Right => r end.

Definition present (p : option Landmark) : bool :=
  match p with Some _ => true | None => false end.

(** The geometric test of one form check; [moving] is
    [currentState === actionVerbGerund]. *)
Definition checkViolated (landmarks : Landmarks) (detectedArm : Side)
    (moving : bool) (check : FormCheck) : bool :=
  let adjustedKeypoints := Resolve.checkKeypoints (keypoints check) detectedArm in
  let keypoints := filter present (map (landmark_at landmarks) adjustedKeypoints) in
  if (2 <=? List.length keypoints)%nat then
    if includes (condition check) "wrist higher than shoulder" && moving then
      match landmark_at landmarks (pick detectedArm 11 12),
            landmark_at landmarks (pick detectedArm 15 16) with
      | Some shoulder, Some wrist => num_lt (lm_y wrist) (lm_y shoulder - 0.1)
      | _, _ => false
      end
    else if includes (condition check) "elbow below shoulder" && moving then
      match landmark_at landmarks (pick detectedArm 11 12),
            landmark_at landmarks (pick detectedArm 13 14) with
      | Some shoulder, Some elbow => num_gt (lm_y elbow) (lm_y shoulder + 0.05)
      | _, _ => false
      end
    else if includes (condition check) "knee alignment" && moving then
      match landmark_at landmarks (pick detectedArm 23 24),
            landmark_at landmarks (pick detectedArm 25 26),
            landmark_at landmarks (pick detectedArm 27 28) with
      | Some hip, Some knee, Some ankle =>
          let kneeAnkleDistance := Rabs (lm_x knee - lm_x ankle) in
          num_gt kneeAnkleDistance 0.1
      | _, _, _ => false
      end
    else if includes (condition check) "back straight" && moving then
      match landmark_at landmarks (pick detectedArm 11 12),
            landmark_at landmarks (pick detectedArm 23 24) with
      | Some shoulder, Some hip =>
          let torsoAngle := Rabs (lm_x shoulder - lm_x hip) in
          num_gt torsoAngle 0.15
      | _, _ => false
      end
    else if includes (condition check) "Elbow moving off thigh" && moving then
      true
    else false
  else false.

(** The callback of [exercise.formChecks.forEach]: a violated check
    assigns [feedbackText] and [formCorrect]. *)
Definition formCheckStep (landmarks : Landmarks) (detectedArm : Side)
    (moving : bool) (acc : string * option bool) (check : FormCheck)
  : string * option bool :=
  if checkViolated landmarks detectedArm moving check
  then (glyph_warning ++ " " ++ errorMessage check, Some false)
  else acc.

Definition runFormChecks (landmarks : Landmarks) (detectedArm : Side)
    (moving : bool) (checks : list FormCheck) (acc : string * option bool)
  : string * option bool :=
  fold_left (formCheckStep landmarks detectedArm moving) checks acc.

Definition analyzeExerciseForm (rd : Render) (currentTime : Z) (angle : R)
    (landmarks : Landmarks) (exercise : ExerciseData) (detectedArm : Side)
    (s : Session) : Session :=
  if negb (exerciseStarted rd) then
    setIsCorrectForm None
      (setFeedback
         ("Click " ++ dquote ++ "Start Exercise" ++ dquote
            ++ " to begin tracking your movements") s)
  else
    let s := countRep (isInOptimalPeak exercise angle) currentTime s in
    let s := rearm (isInStartingPosition exercise angle) s in
    let '(feedbackText, currentState) :=
      phaseFeedback exercise angle (repCounterRef s) in
    let moving := String.eqb currentState (actionVerbGerund exercise) in
    let '(feedbackText, formCorrect) :=
      runFormChecks landmarks detectedArm moving (formChecks exercise)
        (feedbackText, Some true) in
    let s :=
      if negb (String.eqb currentState (lastStateRef s))
      then set_lastStateRef currentState (setExerciseState currentState s)
      else s in
    setIsCorrectForm formCorrect (setFeedback feedbackText s).

(** ** Choosing the active side *)

(** The movement score of one arm in [detectActiveArm]; [reference] is
    [landmarks[23] || landmarks[11]] (or 24 and 12 on the right). *)
Definition armMovementScore (reference shoulder elbow wrist : Landmark) : R :=
  let shoulderAngle := calculateAngle reference shoulder elbow in
  let armHeight := lm_y shoulder - lm_y wrist in
  let armExtension := Rabs (lm_x wrist - lm_x shoulder) in
  armHeight * 3 + armExtension * 2 + Rabs (shoulderAngle - 20).

Definition switchThreshold : R := 0.15.

(** The final comparison of [detectActiveArm]. *)
Definition chooseArm (leftMovementScore rightMovementScore : R)
    (detectedArm : Side) : Side :=
  let scoreDifference := Rabs (leftMovementScore - rightMovementScore) in
  let averageScore := (leftMovementScore + rightMovementScore) / 2 in
  if num_gt scoreDifference (averageScore * switchThreshold) then
    if num_gt rightMovementScore leftMovementScore then Right else Left
  else detectedArm.

Definition orElse (p : option Landmark) (q : Landmark) : Landmark :=
  match p with Some v => v | None => q end.

(** Both scores, when the six arm landmarks are there. *)
Definition armScores (landmarks : Landmarks) : option (R * R) :=
  match landmark_at landmarks 11, landmark_at landmarks 13,
        landmark_at landmarks 15, landmark_at landmarks 12,
        landmark_at landmarks 14, landmark_at landmarks 16 with
  | Some leftShoulder, Some leftElbow, Some leftWrist,
    Some rightShoulder, Some rightElbow, Some rightWrist =>
      Some (armMovementScore (orElse (landmark_at landmarks 23) leftShoulder)
              leftShoulder leftElbow leftWrist,
            armMovementScore (orElse (landmark_at landmarks 24) rightShoulder)
              rightShoulder rightElbow rightWrist)
  | _, _, _, _, _, _ => None
  end.

Definition detectActiveArm (rd : Render) (landmarks : Landmarks) : Side :=
  match armScores landmarks with
  | Some (leftMovementScore, rightMovementScore) =>
      chooseArm leftMovementScore rightMovementScore (detectedArm rd)
  | None => detectedArm rd
  end.

(** [detectActiveLeg].  [landmarks[11]] and [landmarks[12]] are passed to
    [calculateAngle] unchecked: when one is missing the call throws,
    which is the result [None] here. *)
Definition detectActiveLeg (rd : Render) (landmarks : Landmarks) : option Side :=
  match landmark_at landmarks 23, landmark_at landmarks 25,
        landmark_at landmarks 27, landmark_at landmarks 24,
        landmark_at landmarks 26, landmark_at landmarks 28 with
  | Some leftHip, Some leftKnee, Some leftAnkle,
    Some rightHip, Some rightKnee, Some rightAnkle =>
      match landmark_at landmarks 11, landmark_at landmarks 12 with
      | Some leftShoulder, Some rightShoulder =>
          let leftHipAngle := calculateAngle leftShoulder leftHip leftKnee in
          let rightHipAngle := calculateAngle rightShoulder rightHip rightKnee in
          let leftElevation := lm_y leftHip - lm_y leftAnkle in
          let rightElevation := lm_y rightHip - lm_y rightAnkle in
          let leftExtension :=
            Rabs (lm_x leftKnee - lm_x leftHip)
            + Rabs (lm_x leftAnkle - lm_x leftKnee) in
          let rightExtension :=
            Rabs (lm_x rightKnee - lm_x rightHip)
            + Rabs (lm_x rightAnkle - lm_x rightKnee) in
          let leftScore :=
            leftElevation * 2 + leftExtension + Rabs (leftHipAngle - 180) in
          let rightScore :=
            rightElevation * 2 + rightExtension + Rabs (rightHipAngle - 180) in
          let threshold := 0.3 in
          if num_gt rightScore (leftScore * (1 + threshold)) then Some Right
          else if num_gt leftScore (rightScore * (1 + threshold)) then Some Left
          else Some (detectedArm rd)
      | _, _ => None
      end
  | _, _, _, _, _, _ => Some (detectedArm rd)
  end.

(** ** The per-frame pipeline *)

(** The part of [analyzeArmExercise] and [analyzeLegExercise] after the
    side is known: look the three points up and, when all are there,
    record the side and the angle and analyse the form. *)
Definition analyzeWithPoints (rd : Render) (currentTime : Z)
    (landmarks : Landmarks) (exercise : ExerciseData)
    (adjustedPoints : list Z) (detectedLocal : Side) (s : Session) : Session :=
  match landmark_of_point landmarks adjustedPoints 0,
        landmark_of_point landmarks adjustedPoints 1,
        landmark_of_point landmarks adjustedPoints 2 with
  | Some point1, Some vertex, Some point2 =>
      let s := if negb (Side_eqb detectedLocal (detectedArm rd))
               then setDetectedArm detectedLocal s else s in
      let angle := calculateAngle point1 vertex point2 in
      let s := setArmAngle (Math_round angle) s in
      analyzeExerciseForm rd currentTime angle landmarks exercise detectedLocal s
  | _, _, _ => s
  end.

Definition analyzeArmExercise (rd : Render) (currentTime : Z)
    (landmarks : Landmarks) (s : Session) : Session :=
  let exercise := exerciseInUse rd in
  let detectedArmLocal := detectActiveArm rd landmarks in
  let primaryAngle := primaryAngle (angleCalculations exercise) in
  let adjustedPoints := Resolve.armPoints (points primaryAngle) detectedArmLocal in
  analyzeWithPoints rd currentTime landmarks exercise adjustedPoints
    detectedArmLocal s.

(** [None]: [detectActiveLeg] threw. *)
Definition analyzeLegExercise (rd : Render) (currentTime : Z)
    (landmarks : Landmarks) (s : Session) : option Session :=
  let exercise := exerciseInUse rd in
  match detectActiveLeg rd landmarks with
  | Some detectedLegLocal =>
      let primaryAngle := primaryAngle (angleCalculations exercise) in
      let adjustedPoints :=
        Resolve.legPoints (points primaryAngle) detectedLegLocal in
      Some (analyzeWithPoints rd currentTime landmarks exercise adjustedPoints
              detectedLegLocal s)
  | None => None
  end.

(** The analysis that [onResults] runs on the landmarks of a frame
    (drawing aside); an exception is caught and leaves the state as it
    was. *)
Definition onResults (rd : Render) (currentTime : Z)
    (poseLandmarks : option Landmarks) (s : Session) : Session :=
  match poseLandmarks with
  | Some landmarks =>
      match getExerciseBodyPart (exerciseInUse rd) with
      | Legs =>
          match analyzeLegExercise rd currentTime landmarks s with
          | Some s' => s'
          | None => s
          end
      | Arms => analyzeArmExercise rd currentTime landmarks s
      end
  | None => s
  end.

(** A run of calls of [analyzeExerciseForm] on given angles. *)
Fixpoint analyzeAngles (rd : Render) (exercise : ExerciseData) (side : Side)
    (frames : list (Z * R * Landmarks)) (s : Session) : Session :=
  match frames with
  | [] => s
  | (currentTime, angle, landmarks) :: rest =>
      analyzeAngles rd exercise side rest
        (analyzeExerciseForm rd currentTime angle landmarks exercise side s)
  end.

(** ** Load-time correction in the recommendation route *)

Module Route.

Record Template : Type := mkTemplate {
  anglePoints : list Z;
  t_targetRanges : TargetRanges;
  t_repThresholds : RepThresholds
}.

Definition shoulderAbduction : Template := {|
  anglePoints := [23; 11; 13]%Z;
  t_targetRanges := {| startingPosition := (0, 45); targetRange := (90, 180);
                       optimalPeak := (160, 180) |};
  t_repThresholds := {| liftingMin := 90; loweringMax := 60; restMax := 30 |} |}.

Definition shoulderFlexion : Template := {|
  anglePoints := [23; 11; 13]%Z;
  t_targetRanges := {| startingPosition := (0, 30); targetRange := (90, 180);
                       optimalPeak := (160, 180) |};
  t_repThresholds := {| liftingMin := 90; loweringMax := 60; restMax := 30 |} |}.

Definition pendulum : Template := {|
  anglePoints := [11; 13; 15]%Z;
  t_targetRanges := {| startingPosition := (160, 180); targetRange := (90, 160);
                       optimalPeak := (90, 120) |};
  t_repThresholds := {| liftingMin := 140; loweringMax := 160; restMax := 175 |} |}.

Definition armCurl : Template := {|
  anglePoints := [11; 13; 15]%Z;
  t_targetRanges := {| startingPosition := (160, 180); targetRange := (30, 90);
                       optimalPeak := (30, 60) |};
  t_repThresholds := {| liftingMin := 120; loweringMax := 150; restMax := 170 |} |}.

Definition legRaise : Template := {|
  anglePoints := [12; 24; 26]%Z;
  t_targetRanges := {| startingPosition := (160, 180); targetRange := (90, 160);
                       optimalPeak := (90, 120) |};
  t_repThresholds := {| liftingMin := 140; loweringMax := 160; restMax := 175 |} |}.

(** The template that the exercise name selects, if any. *)
Definition templateFor (exerciseData : ExerciseData) : option Template :=
  let exerciseName := toLowerCase (exerciseName exerciseData) in
  if includes exerciseName "abduction" || includes exerciseName "side"
  then Some shoulderAbduction
  else if includes exerciseName "flexion" || includes exerciseName "forward"
  then Some shoulderFlexion
  else if includes exerciseName "pendulum" || includes exerciseName "swing"
  then Some pendulum
  else if includes exerciseName "curl" || includes exerciseName "bicep"
          || includes exerciseName "biceps"
  then Some armCurl
  else if includes exerciseName "leg" && includes exerciseName "raise"
  then Some legRaise
  else None.

Definition applyTemplate (exerciseData : ExerciseData) : ExerciseData :=
  match templateFor exerciseData with
  | Some template =>
      mkExerciseData (exerciseName exerciseData) (description exerciseData)
        (steps exerciseData) (targetKeypoints exerciseData)
        (mkAngleCalculations
           (mkPrimaryAngle (anglePoints template)
              (angleName (primaryAngle (angleCalculations exerciseData)))))
        (t_targetRanges template) (formChecks exerciseData)
        (t_repThresholds template)
  | None => exerciseData
  end.

(** The guarded reassignment of [repThresholds]. *)
Definition correctThresholds (t : RepThresholds) : RepThresholds :=
  let liftingMin := liftingMin t in
  let loweringMax := loweringMax t in
  let restMax := restMax t in
  if num_ge liftingMin loweringMax || num_ge loweringMax restMax then
    {| liftingMin := Rmin liftingMin (Rmin loweringMax restMax);
       loweringMax := Rmax (Rmin liftingMin loweringMax)
                           (Rmin loweringMax restMax);
       restMax := Rmax liftingMin (Rmax loweringMax restMax) |}
  else t.

Definition validateAndCorrectExercise (exerciseData : ExerciseData)
  : ExerciseData :=
  let exerciseData := applyTemplate exerciseData in
  mkExerciseData (exerciseName exerciseData) (description exerciseData)
    (steps exerciseData) (targetKeypoints exerciseData)
    (angleCalculations exerciseData) (targetRanges exerciseData)
    (formChecks exerciseData)
    (correctThresholds (repThresholds exerciseData)).

(** The ascending order that the route asks for. *)
Definition ascending (t : RepThresholds) : Prop :=
  liftingMin t < loweringMax t < restMax t.

(** The three values in ascending order, as the specification words
    the correction: smallest, middle, largest. *)
Definition spec_sorted (t : RepThresholds) : RepThresholds :=
  let a := liftingMin t in
  let b := loweringMax t in
  let c := restMax t in
  {| liftingMin := Rmin a (Rmin b c);
     loweringMax := Rmax (Rmin a b) (Rmax (Rmin b c) (Rmin a c));
     restMax := Rmax a (Rmax b c) |}.

End Route.

(** ** Sample configurations and frames *)

Module Samples.

(** A configuration whose name selects no template and whose middle
    threshold is the smallest of the three. *)
Definition kneeBend : ExerciseData := {|
  exerciseName := "Seated Knee Bend";
  description := "Gentle knee mobility";
  steps := [ "Sit upright"; "Bend the knee"; "Return slowly" ];
  targetKeypoints := [23; 25; 27]%Z;
  angleCalculations := {|
    primaryAngle := {| points := [23; 25; 27]%Z;
                       angleName := "Knee Angle" |} |};
  targetRanges := {|
    startingPosition := (160, 180);
    targetRange := (90, 160);
    optimalPeak := (90, 120) |};
  formChecks := [];
  repThresholds := {| liftingMin := 60; loweringMax := 30; restMax := 90 |}
|}.

(** The built-in exercise with its thresholds passed through the
    ordering correction of the route. *)
Definition defaultCorrected : ExerciseData :=
  mkExerciseData (exerciseName defaultExercise) (description defaultExercise)
    (steps defaultExercise) (targetKeypoints defaultExercise)
    (angleCalculations defaultExercise) (targetRanges defaultExercise)
    (formChecks defaultExercise)
    (Route.correctThresholds (repThresholds defaultExercise)).

(** A leg exercise with the ranges of the route's leg-raise template. *)
Definition legRaise : ExerciseData := {|
  exerciseName := "Straight Leg Raise";
  description := "Hip strengthening";
  steps := [ "Lie on your back"; "Lift the straight leg"; "Lower slowly" ];
  targetKeypoints := [23; 25; 27]%Z;
  angleCalculations := {|
    primaryAngle := {| points := [12; 24; 26]%Z;
                       angleName := "Hip Angle" |} |};
  targetRanges := {|
    startingPosition := (160, 180);
    targetRange := (90, 160);
    optimalPeak := (90, 120) |};
  formChecks := [];
  repThresholds := {| liftingMin := 140; loweringMax := 160; restMax := 175 |}
|}.

(** An exercise whose name holds none of the words that
    [analyzeExerciseForm] looks for, with the pendulum template. *)
Definition pendulumSwing : ExerciseData := {|
  exerciseName := "Pendulum Swing";
  description := "Shoulder mobility";
  steps := [ "Lean forward"; "Let the arm hang"; "Swing gently" ];
  targetKeypoints := [11; 13; 15]%Z;
  angleCalculations := {|
    primaryAngle := {| points := [11; 13; 15]%Z;
                       angleName := "Elbow Angle" |} |};
  targetRanges := {|
    startingPosition := (160, 180);
    targetRange := (90, 160);
    optimalPeak := (90, 120) |};
  formChecks := [];
  repThresholds := {| liftingMin := 140; loweringMax := 160; restMax := 175 |}
|}.

(** The angle rises into the peak at 6000 ms, is held there until
    9000 ms and returns to the starting position. *)
Definition heldLegRaise : list (Z * R * Landmarks) :=
  [ (5000%Z, 170, []); (6000%Z, 100, []); (7100%Z, 100, []);
    (8200%Z, 100, []); (9000%Z, 100, []); (9500%Z, 170, []) ].

(** The same course of the angle for the built-in shoulder abduction:
    from rest up to the peak, held for 3000 ms, and down again. *)
Definition heldAbduction : list (Z * R * Landmarks) :=
  [ (5000%Z, 20, []); (5500%Z, 70, []); (6000%Z, 100, []);
    (7100%Z, 100, []); (8200%Z, 100, []); (9000%Z, 100, []);
    (9300%Z, 70, []); (9500%Z, 20, []) ].

(** A frame of 33 landmarks from a table of the landmarks by index. *)
Definition frameOf (table : nat -> Landmark) : Landmarks :=
  map (fun i => Some (table i)) (seq 0 33).

Definition elsewhere : Landmark := mkLandmark 0.5 0.5 0.9.

(** An exercise like the built-in one whose target keypoints are those
    of the arm only, so that [onResults] takes the arm route. *)
Definition lateralRaise : ExerciseData := {|
  exerciseName := "Lateral Raise";
  description := "Shoulder strengthening";
  steps := [ "Stand tall"; "Raise the arm to the side"; "Lower slowly" ];
  targetKeypoints := [11; 13; 15]%Z;
  angleCalculations := angleCalculations defaultExercise;
  targetRanges := targetRanges defaultExercise;
  formChecks := formChecks defaultExercise;
  repThresholds := repThresholds defaultExercise
|}.

(** Left arm straight out to the side at shoulder height, right arm
    hanging; every landmark is present, and the left shoulder (the
    vertex of the primary angle) is reported with visibility 0.1. *)
Definition armOutLowVisibility : Landmarks :=
  frameOf (fun i =>
    match i with
    | 11 => mkLandmark 0.6 0.4 0.1
    | 13 => mkLandmark 0.8 0.4 0.9
    | 15 => mkLandmark 0.95 0.4 0.9
    | 23 => mkLandmark 0.6 0.7 0.9
    | 12 => mkLandmark 0.4 0.4 0.9
    | 14 => mkLandmark 0.4 0.55 0.9
    | 16 => mkLandmark 0.4 0.7 0.9
    | 24 => mkLandmark 0.4 0.7 0.9
    | _ => elsewhere
    end%nat).

(** The same frame with a hole at the left shoulder. *)
Definition armOutNoShoulder : Landmarks :=
  map (fun i =>
         if Nat.eqb i 11 then None
         else nth i armOutLowVisibility None) (seq 0 33).

(** Left upper arm sloping down from the shoulder with the forearm
    pointing up: the elbow is below the shoulder and the wrist well
    above it; right arm hanging. *)
Definition elbowLowWristHigh : Landmarks :=
  frameOf (fun i =>
    match i with
    | 11 => mkLandmark 0.6 0.4 0.9
    | 13 => mkLandmark 0.9 0.5 0.9
    | 15 => mkLandmark 0.95 0.2 0.9
    | 23 => mkLandmark 0.6 0.7 0.9
    | 12 => mkLandmark 0.4 0.4 0.9
    | 14 => mkLandmark 0.4 0.55 0.9
    | 16 => mkLandmark 0.4 0.7 0.9
    | 24 => mkLandmark 0.4 0.7 0.9
    | _ => elsewhere
    end%nat).

(** Both arms at rest, mirrored about the middle of the image but for
    the left wrist, which is a little higher than the right one: upper
    arms a little away from the trunk, wrists straight below the
    shoulders. *)
Definition armsAtRest : Landmarks :=
  frameOf (fun i =>
    match i with
    | 11 => mkLandmark 0.6 0.05 0.9
    | 13 => mkLandmark 0.7 0.35 0.9
    | 15 => mkLandmark 0.6 0.93 0.9
    | 23 => mkLandmark 0.6 0.65 0.9
    | 12 => mkLandmark 0.4 0.05 0.9
    | 14 => mkLandmark 0.3 0.35 0.9
    | 16 => mkLandmark 0.4 0.95 0.9
    | 24 => mkLandmark 0.4 0.65 0.9
    | _ => elsewhere
    end%nat).

End Samples.

(** ** Vocabulary of the properties *)

Definition timeOf (f : Z * R * Landmarks) : Z := fst (fst f).
Definition angleOf (f : Z * R * Landmarks) : R := snd (fst f).

(** Every frame of the run has its angle in the peak test of the code. *)
Definition allInPeak (exercise : ExerciseData) (frames : list (Z * R * Landmarks))
  : Prop :=
  Forall (fun f => isInOptimalPeak exercise (angleOf f) = true) frames.

Definition noneInPeak (exercise : ExerciseData) (frames : list (Z * R * Landmarks))
  : Prop :=
  Forall (fun f => isInOptimalPeak exercise (angleOf f) = false) frames.


(** The three conditions under which the code counts a repetition. *)
Definition countsRep (exercise : ExerciseData) (currentTime : Z) (angle : R)
    (s : Session) : bool :=
  isInOptimalPeak exercise angle && negb (hasReachedPeakRef s)
  && (1000 <? currentTime - lastRepTimeRef s)%Z.

(** The peak range and the starting-position test share no angle. *)
Definition peakAwayFromStart (exercise : ExerciseData) : Prop :=
  forall angle, isInOptimalPeak exercise angle = true ->
                isInStartingPosition exercise angle = false.

(** The two guarded blocks at the head of [analyzeExerciseForm]. *)
Definition counterStep (exercise : ExerciseData) (currentTime : Z) (angle : R)
    (s : Session) : Session :=
  rearm (isInStartingPosition exercise angle)
    (countRep (isInOptimalPeak exercise angle) currentTime s).

(** The counter as the three values that decide it: the number of
    repetitions, the peak flag and the time of the last one. *)
Definition counterView (s : Session) : nat * bool * Z :=
  (repCounterRef s, hasReachedPeakRef s, lastRepTimeRef s).

Definition viewStep (inPeak inStart : bool) (currentTime : Z)
    (v : nat * bool * Z) : nat * bool * Z :=
  let '(n, flag, last) := v in
  let counted := inPeak && negb flag && (1000 <? currentTime - last)%Z in
  (if counted then S n else n,
   if inStart then false else if counted then true else flag,
   if counted then currentTime else last).

(** [currentState === actionVerbGerund] for the state that the angle
    resolves to (the state does not depend on the count). *)
Definition movingAt (exercise : ExerciseData) (angle : R) : bool :=
  String.eqb (snd (phaseFeedback exercise angle 0)) (actionVerbGerund exercise).

(** The form checks of the exercise that are violated in a frame, in the
    order of the configuration. *)
Definition violatedChecks (landmarks : Landmarks) (detectedArm : Side)
    (exercise : ExerciseData) (angle : R) : list FormCheck :=
  filter (checkViolated landmarks detectedArm (movingAt exercise angle))
    (formChecks exercise).

Definition warningOf (check : FormCheck) : string :=
  glyph_warning ++ " " ++ errorMessage check.


(** ** Handlers and effect set-up *)

(** [handleExerciseGenerated]: a generated exercise is loaded, the
    counter is reset and the exercise is stopped ([isExerciseActive], which
    only the page layout reads, is outside the records). *)
Definition handleExerciseGenerated (exerciseData : ExerciseData)
    (rd : Render) (s : Session) : Render * Session :=
  (mkRender (Some exerciseData) false (detectedArm rd),
   setFeedback
     ("Exercise loaded: " ++ exerciseName exerciseData ++ ". Click "
        ++ dquote ++ "Start Exercise" ++ dquote ++ " to begin.")
     (set_lastStateRef "ready"
        (set_hasReachedPeakRef false
           (set_repCounterRef 0%nat (setRepCount 0%nat s))))).

(** The handler of the button "Use Default Exercise", which is on the
    page while an exercise is loaded: the exercise is unloaded, the
    counter is reset and the exercise is stopped; [lastRepTimeRef] is
    left as it is. *)
Definition handleUseDefaultExercise (rd : Render) (s : Session)
  : Render * Session :=
  (mkRender None false (detectedArm rd),
   setFeedback "Position yourself in front of the camera"
     (set_lastStateRef "ready"
        (set_hasReachedPeakRef false
           (set_repCounterRef 0%nat (setRepCount 0%nat s))))).

(** The messages that [initializeMediaPipe] can set while the effect is
    set up. *)
Definition setupMessages : list string :=
  [ "MediaPipe not loaded properly. Please refresh the page.";
    "Position yourself in front of the camera";
    "Error starting camera. Please check permissions." ].

(** The effect runs again after a handler has changed [currentExercise]
    or [exerciseStarted]: its new closures capture the detected side that
    the state holds at that render. *)
Definition rerunEffect (rd : Render) (s : Session) : Render :=
  mkRender (currentExercise rd) (exerciseStarted rd) (detectedArmState s).

(** A run of frames within one effect run: the time and the landmarks
    of each. *)
Fixpoint runFrames (rd : Render) (frames : list (Z * Landmarks)) (s : Session)
  : Session :=
  match frames with
  | [] => s
  | (currentTime, landmarks) :: rest =>
      runFrames rd rest (onResults rd currentTime (Some landmarks) s)
  end.

(** The side that the detector of the route of [onResults] returns for
    a frame; [None]: the detector threw. *)
Definition detectedSide (rd : Render) (landmarks : Landmarks) : option Side :=
  match getExerciseBodyPart (exerciseInUse rd) with
  | Legs => detectActiveLeg rd landmarks
  | Arms => Some (detectActiveArm rd landmarks)
  end.

(** [adjustedPoints] of the route of [onResults]: the points of the
    primary angle on the detected side. *)
Definition adjustedPointsOn (rd : Render) (side : Side) : list Z :=
  let pts := points (primaryAngle (angleCalculations (exerciseInUse rd))) in
  match getExerciseBodyPart (exerciseInUse rd) with
  | Legs => Resolve.legPoints pts side
  | Arms => Resolve.armPoints pts side
  end.

(** ** drawPose *)

(** What [drawPose] puts on the canvas: a stroke of width 2 between two
    points, or a filled circle. *)
Inductive DrawOp : Type :=
| Stroke (strokeStyle : string) (x1 y1 x2 y2 : R)
| Disc (fillStyle : string) (x y radius : R).

Definition connections : list (Z * Z) :=
  [ (11, 12); (11, 23); (12, 24); (23, 24);
    (11, 13); (13, 15); (15, 17); (15, 19); (15, 21); (17, 19);
    (12, 14); (14, 16); (16, 18); (16, 20); (16, 22); (18, 20);
    (23, 25); (25, 27); (27, 29); (27, 31); (29, 31);
    (24, 26); (26, 28); (28, 30); (28, 32); (30, 32) ]%Z.

Definition between (lo hi i : Z) : bool := (lo <=? i)%Z && (i <=? hi)%Z.

Definition strokeStyleOf (start end_ : Z) : string :=
  if (start <=? 10)%Z || (end_ <=? 10)%Z then "#FFD700"
  else if between 11 16 start || between 11 16 end_ then "#00FF00"
  else if between 17 22 start || between 17 22 end_ then "#FF6B6B"
  else if between 23 28 start || between 23 28 end_ then "#4ECDC4"
  else "#9B59B6".

Definition fillStyleOf (index : Z) : string :=
  if between 11 16 index then "#00FF00"
  else if between 17 22 index then "#FF6B6B"
  else if between 23 28 index then "#4ECDC4"
  else "#9B59B6".

Definition radiusOf (index : Z) : R :=
  if between 11 16 index || between 23 28 index then 6 else 3.

Definition visible (p : Landmark) : bool := num_gt (visibility p) 0.5.

(** The callback of [connections.forEach]. *)
Definition drawConnection (width height : R) (landmarks : Landmarks)
    (connection : Z * Z) : list DrawOp :=
  let '(start, end_) := connection in
  match landmark_at landmarks start, landmark_at landmarks end_ with
  | Some startPoint, Some endPoint =>
      if visible startPoint && visible endPoint then
        [ Stroke (strokeStyleOf start end_)
            (lm_x startPoint * width) (lm_y startPoint * height)
            (lm_x endPoint * width) (lm_y endPoint * height) ]
      else []
  | _, _ => []
  end.

(** The callback of [landmarks.forEach]. *)
Definition drawLandmark (width height : R) (index : Z)
    (point : option Landmark) : list DrawOp :=
  match point with
  | Some point =>
      if visible point && (10 <? index)%Z then
        [ Disc (fillStyleOf index) (lm_x point * width) (lm_y point * height)
            (radiusOf index) ]
      else []
  | None => []
  end.

(** [landmarks.forEach((point, index) => ...)] from index [from] on. *)
Fixpoint drawLandmarksFrom (width height : R) (from : Z)
    (landmarks : Landmarks) : list DrawOp :=
  match landmarks with
  | [] => []
  | point :: rest =>
      drawLandmark width height from point
      ++ drawLandmarksFrom width height (from + 1) rest
  end.

(** [drawPose] on a canvas of the given size, as the list of what it
    draws, in order. *)
Definition drawPose (width height : R) (landmarks : Landmarks) : list DrawOp :=
  flat_map (drawConnection width height landmarks) connections
  ++ drawLandmarksFrom width height 0 landmarks.

(** ** Curated demonstration videos of the search route *)

Module Videos.

Definition exerciseVideos : list (string * string) :=
  [ ("shoulder abduction", "x5F5kW8qj3U");
    ("shoulder flexion", "mGj8HQ0_HYc");
    ("lateral raise", "x5F5kW8qj3U");
    ("side raise", "x5F5kW8qj3U");
    ("forward raise", "mGj8HQ0_HYc");
    ("bicep curl", "ykJG6cHPB_M");
    ("biceps curl", "ykJG6cHPB_M");
    ("arm curl", "ykJG6cHPB_M");
    ("hammer curl", "zC3nLlEvin4");
    ("pendulum", "FhCCl0qsB4E");
    ("pendulum swing", "FhCCl0qsB4E");
    ("shoulder pendulum", "FhCCl0qsB4E");
    ("leg raise", "JeWkFhVKSx4");
    ("hip flexion", "JeWkFhVKSx4");
    ("straight leg raise", "JeWkFhVKSx4");
    ("knee extension", "yK3QBUaFdTQ");
    ("squat", "6A2V9Bu80J4");
    ("wall squat", "y0wWKOhQwQo");
    ("back extension", "ph3pddpKzzw");
    ("spinal extension", "ph3pddpKzzw");
    ("neck flexion", "L_xrDAtykMM");
    ("neck extension", "L_xrDAtykMM");
    ("default", "x5F5kW8qj3U") ].

(** [exerciseVideos[key]], for a key of the table. *)
Definition videoOf (key : string) : string :=
  match find (fun kv => String.eqb (fst kv) key) exerciseVideos with
  | Some kv => snd kv
  | None => EmptyString
  end.

Definition keywords : list string :=
  [ "shoulder"; "bicep"; "leg"; "arm"; "pendulum"; "curl"; "raise"; "squat" ].

(** The first loop: the video of the first key, in the order of the
    table, that the query includes; the default video when there is
    none. *)
Definition firstMatch (hit : string -> bool) : string :=
  match find (fun kv => hit (fst kv)) exerciseVideos with
  | Some kv => snd kv
  | None => videoOf "default"
  end.

(** The second loop, over the keywords that are left. *)
Fixpoint partialMatch (hit : string -> bool) (keywords : list string)
    (matchedVideoId : string) : string :=
  match keywords with
  | [] => matchedVideoId
  | keyword :: rest =>
      if hit keyword then
        match filter (fun k => includes k keyword) (map fst exerciseVideos) with
        | first :: _ => videoOf first
        | [] => partialMatch hit rest matchedVideoId
        end
      else partialMatch hit rest matchedVideoId
  end.

(** The two loops; [hit k] is [lowerQuery.includes(k)]. *)
Definition curatedWith (hit : string -> bool) : string :=
  let matchedVideoId := firstMatch hit in
  if String.eqb matchedVideoId (videoOf "default")
  then partialMatch hit keywords matchedVideoId
  else matchedVideoId.

(** The video id that [GET] answers with when the search service gives
    none. *)
Definition curatedVideoId (query : string) : string :=
  curatedWith (includes (toLowerCase query)).

End Videos.

(** ** More vocabulary of the properties *)

(** The scores of the two legs in [detectActiveLeg], when the six leg
    landmarks and both shoulders are there. *)
Definition legScore (shoulder hip knee ankle : Landmark) : R :=
  (lm_y hip - lm_y ankle) * 2
  + (Rabs (lm_x knee - lm_x hip) + Rabs (lm_x ankle - lm_x knee))
  + Rabs (calculateAngle shoulder hip knee - 180).

Definition legScores (landmarks : Landmarks) : option (R * R) :=
  match landmark_at landmarks 23, landmark_at landmarks 25,
        landmark_at landmarks 27, landmark_at landmarks 24,
        landmark_at landmarks 26, landmark_at landmarks 28,
        landmark_at landmarks 11, landmark_at landmarks 12 with
  | Some leftHip, Some leftKnee, Some leftAnkle,
    Some rightHip, Some rightKnee, Some rightAnkle,
    Some leftShoulder, Some rightShoulder =>
      Some (legScore leftShoulder leftHip leftKnee leftAnkle,
            legScore rightShoulder rightHip rightKnee rightAnkle)
  | _, _, _, _, _, _, _, _ => None
  end.

(** All of the listed landmarks are in the frame. *)
Definition allPresent (landmarks : Landmarks) (indices : list Z) : bool :=
  forallb (fun i => present (landmark_at landmarks i)) indices.

(** The phrases that the form checks know. *)
Definition knownConditions : list string :=
  [ "wrist higher than shoulder"; "elbow below shoulder"; "knee alignment";
    "back straight"; "Elbow moving off thigh" ].

(** How many keypoints of a check, moved to the side, are in the frame. *)
Definition presentKeypoints (landmarks : Landmarks) (detectedArm : Side)
    (check : FormCheck) : nat :=
  List.length
    (filter present
       (map (landmark_at landmarks)
          (Resolve.checkKeypoints (keypoints check) detectedArm))).

(** The three thresholds are in order, not strictly. *)
Definition weaklyAscending (t : RepThresholds) : Prop :=
  liftingMin t <= loweringMax t <= restMax t.

(** A person standing upright, facing the camera, legs straight. *)
Definition standingStill : Landmarks :=
  Samples.frameOf (fun i =>
    match i with
    | 11 => mkLandmark 0.6 0.3 0.9
    | 23 => mkLandmark 0.6 0.6 0.9
    | 25 => mkLandmark 0.6 0.8 0.9
    | 27 => mkLandmark 0.6 0.95 0.9
    | 12 => mkLandmark 0.4 0.3 0.9
    | 24 => mkLandmark 0.4 0.6 0.9
    | 26 => mkLandmark 0.4 0.8 0.9
    | 28 => mkLandmark 0.4 0.95 0.9
    | _ => Samples.elsewhere
    end%nat).

(** The states that the component can be in: it is mounted, the effect
    is set up, frames arrive, the start button is pressed, a generated
    exercise is loaded, the built-in exercise is chosen again.  After a
    handler the effect runs again. *)
Inductive Reachable : Render -> Session -> Prop :=
| reach_mount :
    Reachable (mkRender None false Left) initialSession
| reach_setup rd s message :
    Reachable rd s ->
    In message setupMessages ->
    Reachable rd (setFeedback message s)
| reach_frame rd s currentTime poseLandmarks :
    Reachable rd s ->
    Reachable rd (onResults rd currentTime poseLandmarks s)
| reach_start rd s :
    Reachable rd s ->
    Reachable (rerunEffect (fst (handleStartExercise rd s))
                 (snd (handleStartExercise rd s)))
      (snd (handleStartExercise rd s))
| reach_load rd s exerciseData :
    Reachable rd s ->
    Reachable (rerunEffect (fst (handleExerciseGenerated exerciseData rd s))
                 (snd (handleExerciseGenerated exerciseData rd s)))
      (snd (handleExerciseGenerated exerciseData rd s))
| reach_default rd s :
    Reachable rd s ->
    currentExercise rd <> None ->
    Reachable (rerunEffect (fst (handleUseDefaultExercise rd s))
                 (snd (handleUseDefaultExercise rd s)))
      (snd (handleUseDefaultExercise rd s)).

(** The values of [currentState] that [analyzeExerciseForm] can pick. *)
Definition exerciseStates : list string :=
  [ "ready"; "lifting"; "curling"; "squatting"; "lunging" ].

(** Sitting with both thighs level, one to each side, lower legs
    hanging. *)
Definition thighsLevel : Landmarks :=
  Samples.frameOf (fun i =>
    match i with
    | 11 => mkLandmark 0.6 0.3 0.9
    | 23 => mkLandmark 0.6 0.6 0.9
    | 25 => mkLandmark 0.8 0.6 0.9
    | 27 => mkLandmark 0.8 0.8 0.9
    | 12 => mkLandmark 0.4 0.3 0.9
    | 24 => mkLandmark 0.4 0.6 0.9
    | 26 => mkLandmark 0.2 0.6 0.9
    | 28 => mkLandmark 0.2 0.8 0.9
    | _ => Samples.elsewhere
    end%nat).

(** A curl with the ranges of the route's template and the check of the
    supported elbow. *)
Definition bicepCurl : ExerciseData := {|
  exerciseName := "Seated Bicep Curl";
  description := "Elbow flexion with the elbow on the thigh";
  steps := [ "Sit down"; "Rest the elbow on the thigh"; "Curl and lower" ];
  targetKeypoints := [11; 13; 15]%Z;
  angleCalculations := {|
    primaryAngle := {| points := [11; 13; 15]%Z;
                       angleName := "Elbow Angle" |} |};
  targetRanges := {|
    startingPosition := (160, 180);
    targetRange := (30, 90);
    optimalPeak := (30, 60) |};
  formChecks := [
    {| condition := "Elbow moving off thigh";
       errorMessage := "Keep your elbow on your thigh";
       keypoints := [13; 25]%Z |} ];
  repThresholds := {| liftingMin := 120; loweringMax := 150; restMax := 170 |}
|}.

(** The knee bend with thresholds in order. *)
Definition kneeBendInOrder : ExerciseData :=
  mkExerciseData (exerciseName Samples.kneeBend) (description Samples.kneeBend)
    (steps Samples.kneeBend) (targetKeypoints Samples.kneeBend)
    (angleCalculations Samples.kneeBend) (targetRanges Samples.kneeBend)
    (formChecks Samples.kneeBend)
    {| liftingMin := 30; loweringMax := 60; restMax := 90 |}.

(** Standing upright with the left elbow out to the side and down: seen
    from the right shoulder, three parts down for four parts across. *)
Definition elbowHalfRaised : Landmarks :=
  Samples.frameOf (fun i =>
    match i with
    | 11 => mkLandmark 0.6 0.3 0.9
    | 13 => mkLandmark 0.8 0.6 0.9
    | 23 => mkLandmark 0.6 0.6 0.9
    | 25 => mkLandmark 0.6 0.8 0.9
    | 27 => mkLandmark 0.6 0.95 0.9
    | 12 => mkLandmark 0.4 0.3 0.9
    | 24 => mkLandmark 0.4 0.6 0.9
    | 26 => mkLandmark 0.4 0.8 0.9
    | 28 => mkLandmark 0.4 0.95 0.9
    | _ => Samples.elsewhere
    end%nat).

(** The frame [thighsLevel] with a hole at the left shoulder. *)
Definition thighsLevelNoShoulder : Landmarks :=
  map (fun i =>
         if Nat.eqb i 11 then None
         else nth i thighsLevel None) (seq 0 33).

(** * Properties *)

(** ** Facts about the comparisons *)

Lemma num_lt_true a b : num_lt a b = true <-> a < b.
Proof. unfold num_lt; destruct (Rlt_dec a b); split; intros; auto; discriminate. Qed.

Lemma num_lt_false a b : num_lt a b = false <-> b <= a.
Proof.
  unfold num_lt; destruct (Rlt_dec a b); split; intros; auto;
    try discriminate; lra.
Qed.

Lemma num_le_true a b : num_le a b = true <-> a <= b.
Proof. unfold num_le; destruct (Rle_dec a b); split; intros; auto; discriminate. Qed.

Lemma num_le_false a b : num_le a b = false <-> b < a.
Proof.
  unfold num_le; destruct (Rle_dec a b); split; intros; auto;
    try discriminate; lra.
Qed.

Lemma num_gt_true a b : num_gt a b = true <-> a > b.
Proof. unfold num_gt; rewrite num_lt_true; lra. Qed.

Lemma num_gt_false a b : num_gt a b = false <-> a <= b.
Proof. unfold num_gt; rewrite num_lt_false; lra. Qed.

Lemma num_ge_true a b : num_ge a b = true <-> a >= b.
Proof. unfold num_ge; rewrite num_le_true; lra. Qed.

Lemma num_ge_false a b : num_ge a b = false <-> a < b.
Proof. unfold num_ge; rewrite num_le_false; lra. Qed.

(** Decides every comparison between concrete numbers in the goal. *)
Ltac num_decide :=
  repeat match goal with
  | |- context [num_gt ?a ?b] =>
      first [ replace (num_gt a b) with true by (symmetry; apply num_gt_true; lra)
            | replace (num_gt a b) with false by (symmetry; apply num_gt_false; lra) ]
  | |- context [num_ge ?a ?b] =>
      first [ replace (num_ge a b) with true by (symmetry; apply num_ge_true; lra)
            | replace (num_ge a b) with false by (symmetry; apply num_ge_false; lra) ]
  | |- context [num_lt ?a ?b] =>
      first [ replace (num_lt a b) with true by (symmetry; apply num_lt_true; lra)
            | replace (num_lt a b) with false by (symmetry; apply num_lt_false; lra) ]
  | |- context [num_le ?a ?b] =>
      first [ replace (num_le a b) with true by (symmetry; apply num_le_true; lra)
            | replace (num_le a b) with false by (symmetry; apply num_le_false; lra) ]
  end.

(** *** Range of [atan2] and of the joint angle *)

Lemma atan_nonneg x : 0 <= x -> 0 <= atan x.
Proof.
  intros [H | <-].
  - left. rewrite <- atan_0. now apply atan_increasing.
  - rewrite atan_0. lra.
Qed.

Lemma atan_neg x : x < 0 -> atan x < 0.
Proof. intros H. rewrite <- atan_0. now apply atan_increasing. Qed.

Lemma atan2_range y x : - PI <= atan2 y x <= PI.
Proof.
  pose proof PI_RGT_0 as HPI.
  unfold atan2.
  destruct (Rlt_dec 0 x) as [Hx | Hx].
  - pose proof (atan_bound (y / x)). lra.
  - destruct (Rlt_dec x 0) as [Hx' | Hx'].
    + destruct (Rle_dec 0 y) as [Hy | Hy].
      * assert (y / x <= 0).
        { assert (/ x < 0) by now apply Rinv_lt_0_compat.
          unfold Rdiv. nra. }
        pose proof (atan_bound (y / x)).
        assert (atan (y / x) <= 0).
        { destruct H as [H | H]; [left; now apply atan_neg|].
          rewrite H, atan_0. lra. }
        lra.
      * assert (0 < y / x).
        { assert (/ x < 0) by now apply Rinv_lt_0_compat.
          unfold Rdiv. nra. }
        pose proof (atan_bound (y / x)).
        pose proof (atan_nonneg (y / x)).
        lra.
    + destruct (Rlt_dec 0 y); [lra|].
      destruct (Rlt_dec y 0); lra.
Qed.

Lemma degrees_range r : - (2 * PI) <= r <= 2 * PI -> Rabs (r * 180 / PI) <= 360.
Proof.
  intros Hr. pose proof PI_RGT_0 as HPI.
  replace (r * 180 / PI) with (180 * (r / PI)) by (field; lra).
  assert (E : r = r / PI * PI) by (field; lra).
  set (q := r / PI) in *.
  apply Rabs_le. nra.
Qed.

(** C8. For every three points the joint angle computed by
    [calculateAngle] (the absolute difference of the two [atan2]
    directions in degrees, with any value above 180 reflected to 360
    minus that value) lies in the closed interval from 0 to 180. *)
Theorem calculateAngle_range (a b c : Landmark) :
  0 <= calculateAngle a b c <= 180.
Proof.
  unfold calculateAngle.
  set (r := atan2 _ _ - atan2 _ _).
  assert (Hr : - (2 * PI) <= r <= 2 * PI).
  { subst r.
    pose proof (atan2_range (lm_y c - lm_y b) (lm_x c - lm_x b)).
    pose proof (atan2_range (lm_y a - lm_y b) (lm_x a - lm_x b)).
    lra. }
  pose proof (degrees_range r Hr) as Hd.
  pose proof (Rabs_pos (r * 180 / PI)) as Hp.
  cbv zeta.
  destruct (num_gt (Rabs (r * 180 / PI)) 180) eqn:E.
  - apply num_gt_true in E. lra.
  - apply num_gt_false in E. lra.
Qed.


(** ** Index resolution *)

Section ResolveFacts.

Import Resolve.

Lemma checkKeypoint_right idx : checkKeypoint Right idx = leftToRight idx.
Proof.
  unfold checkKeypoint, leftToRight; cbn [existsb].
  repeat match goal with
  | |- context [(idx =? ?k)%Z] => destruct (Z.eqb_spec idx k); [subst; reflexivity|]
  end.
  reflexivity.
Qed.

Lemma armPoint_leftToRight idx : idx <> 27%Z -> armPoint idx = leftToRight idx.
Proof.
  intros Hne. unfold armPoint, leftToRight; cbn [existsb].
  repeat match goal with
  | |- context [(idx =? ?k)%Z] =>
      destruct (Z.eqb_spec idx k); [subst; first [reflexivity | contradiction]|]
  end.
  reflexivity.
Qed.

Lemma leftToRight_keeps_right_side idx :
  In idx [12; 14; 16; 24; 26; 28]%Z -> leftToRight idx = idx.
Proof.
  cbn [In]; intros H; repeat destruct H as [<- | H]; try reflexivity.
  contradiction.
Qed.

End ResolveFacts.

(** C6, as the claim states it, fails: on the way to the right side
    the primary-angle points of an arm exercise keep index 27, and the
    form-check keypoints keep a right-side index instead of going back to
    the left. *)
Lemma resolveIndices_mirror_counterexample :
  Resolve.armPoints [27%Z] Right <> Resolve.spec_resolveIndices [27%Z] Right
  /\ Resolve.checkKeypoints [12%Z] Right
     <> Resolve.spec_resolveIndices [12%Z] Right.
Proof. split; cbn; intros H; discriminate H. Qed.

(** C6, amended. For every list of keypoint indices: on the right side
    the form-check keypoints are mapped elementwise by the one-way map
    that sends the left-side indices 11, 13, 15, 23, 25, 27 to 12, 14,
    16, 24, 26, 28 and keeps every other index, the right-side ones
    included; the primary-angle points of an arm exercise are mapped the
    same way when 27 is not among them; on the left side both are the
    identity; and [11,13,15,23] goes to [12,14,16,24] on both paths. *)
Theorem resolveIndices_left_to_right (indices : list Z) :
  Resolve.checkKeypoints indices Right = map Resolve.leftToRight indices
  /\ (~ In 27%Z indices ->
      Resolve.armPoints indices Right = map Resolve.leftToRight indices)
  /\ Resolve.checkKeypoints indices Left = indices
  /\ Resolve.armPoints indices Left = indices
  /\ (forall idx, In idx [12; 14; 16; 24; 26; 28]%Z ->
        Resolve.leftToRight idx = idx)
  /\ Resolve.armPoints [11; 13; 15; 23]%Z Right = [12; 14; 16; 24]%Z
  /\ Resolve.checkKeypoints [11; 13; 15; 23]%Z Right = [12; 14; 16; 24]%Z.
Proof.
  repeat split.
  - unfold Resolve.checkKeypoints. apply map_ext, checkKeypoint_right.
  - intros Hnot. cbn [Resolve.armPoints]. apply map_ext_in.
    intros idx Hin. apply armPoint_leftToRight. congruence.
  - unfold Resolve.checkKeypoints. cbn [Resolve.checkKeypoint]. apply map_id.
  - apply leftToRight_keeps_right_side.
Qed.

Lemma resolveIndices_left_to_right_witness :
  Resolve.armPoints [23; 11; 13]%Z Right
  = map Resolve.leftToRight [23; 11; 13]%Z.
Proof.
  apply (resolveIndices_left_to_right [23; 11; 13]%Z).
  cbn [In]. intros H. repeat destruct H as [H | H]; try discriminate H.
  exact H.
Defined.

(** ** Threshold correction of the recommendation route *)

(** Evaluates [Rmin] and [Rmax] between concrete numbers. *)
Ltac minmax_decide :=
  unfold Rmin, Rmax; repeat destruct (Rle_dec _ _); try lra.

Lemma repThresholds_eq a b c a' b' c' :
  a = a' -> b = b' -> c = c' ->
  mkRepThresholds a b c = mkRepThresholds a' b' c'.
Proof. intros -> -> ->. reflexivity. Qed.

Section RouteFacts.

Import Route.

Lemma correctThresholds_fires t :
  ~ ascending t ->
  correctThresholds t
  = {| liftingMin := Rmin (liftingMin t) (Rmin (loweringMax t) (restMax t));
       loweringMax := Rmax (Rmin (liftingMin t) (loweringMax t))
                           (Rmin (loweringMax t) (restMax t));
       restMax := Rmax (liftingMin t) (Rmax (loweringMax t) (restMax t)) |}.
Proof.
  unfold ascending, correctThresholds. intros H. cbv zeta.
  destruct (num_ge (liftingMin t) (loweringMax t)) eqn:E1; [reflexivity|].
  destruct (num_ge (loweringMax t) (restMax t)) eqn:E2; [reflexivity|].
  apply num_ge_false in E1, E2. lra.
Qed.

(** Where the correction does sort: the middle threshold is not
    strictly below both others. *)
Lemma correctThresholds_sorts t :
  ~ ascending t ->
  ~ (loweringMax t < liftingMin t /\ loweringMax t < restMax t) ->
  correctThresholds t = spec_sorted t.
Proof.
  intros Hna Hmid. rewrite (correctThresholds_fires t Hna).
  unfold spec_sorted. cbv zeta.
  apply repThresholds_eq; [reflexivity | | reflexivity].
  minmax_decide.
Qed.

(** The example of the specification. *)
Lemma correctThresholds_descending :
  correctThresholds {| liftingMin := 90; loweringMax := 60; restMax := 30 |}
  = {| liftingMin := 30; loweringMax := 60; restMax := 90 |}.
Proof.
  rewrite correctThresholds_fires by (unfold ascending; cbn; lra).
  cbn [liftingMin loweringMax restMax].
  apply repThresholds_eq; minmax_decide.
Qed.

Lemma templateFor_kneeBend : templateFor Samples.kneeBend = None.
Proof. reflexivity. Qed.

End RouteFacts.

(** C3: the claim is what the route sets out to do, and the code misses
    it when the middle threshold is the smallest of the three.  For
    [{liftingMin:60, loweringMax:30, restMax:90}] (a name that selects no
    template) the correction runs and returns [{30, 30, 90}]: the value
    60 is lost, the result is not the ascending sort [{30, 60, 90}] and
    is still not strictly ascending. *)
Theorem validateAndCorrectExercise_loses_middle :
  ~ Route.ascending (repThresholds Samples.kneeBend)
  /\ repThresholds (Route.validateAndCorrectExercise Samples.kneeBend)
     = {| liftingMin := 30; loweringMax := 30; restMax := 90 |}
  /\ Route.spec_sorted (repThresholds Samples.kneeBend)
     = {| liftingMin := 30; loweringMax := 60; restMax := 90 |}
  /\ repThresholds (Route.validateAndCorrectExercise Samples.kneeBend)
     <> Route.spec_sorted (repThresholds Samples.kneeBend)
  /\ ~ Route.ascending
         (repThresholds (Route.validateAndCorrectExercise Samples.kneeBend)).
Proof.
  assert (Hna : ~ Route.ascending (repThresholds Samples.kneeBend))
    by (unfold Route.ascending; cbn; lra).
  assert (Hcode : repThresholds (Route.validateAndCorrectExercise Samples.kneeBend)
                  = {| liftingMin := 30; loweringMax := 30; restMax := 90 |}).
  { unfold Route.validateAndCorrectExercise, Route.applyTemplate.
    rewrite templateFor_kneeBend. cbn [repThresholds].
    rewrite correctThresholds_fires by exact Hna.
    cbn [Samples.kneeBend repThresholds liftingMin loweringMax restMax].
    apply repThresholds_eq; minmax_decide. }
  assert (Hspec : Route.spec_sorted (repThresholds Samples.kneeBend)
                  = {| liftingMin := 30; loweringMax := 60; restMax := 90 |}).
  { unfold Route.spec_sorted.
    cbn [Samples.kneeBend repThresholds liftingMin loweringMax restMax].
    apply repThresholds_eq; minmax_decide. }
  repeat split; try assumption.
  - rewrite Hcode, Hspec. intros H.
    apply (f_equal loweringMax) in H. cbn in H. lra.
  - rewrite Hcode. unfold Route.ascending. cbn. lra.
Qed.

(** ** The repetition counter *)

(** A start from the stopped state hands the analysis a started closure
    and a counter at zero, with the flag down. *)
Lemma handleStartExercise_starts rd s :
  exerciseStarted rd = false ->
  exerciseStarted (fst (handleStartExercise rd s)) = true
  /\ counterView (snd (handleStartExercise rd s)) = (0%nat, false, 0%Z)
  /\ repCount (snd (handleStartExercise rd s)) = 0%nat.
Proof. intros H. unfold handleStartExercise. rewrite H. cbn. auto. Qed.

(** While the exercise is not started nothing is counted. *)
Lemma not_started_counts_nothing rd exercise side currentTime angle landmarks s :
  exerciseStarted rd = false ->
  counterView (analyzeExerciseForm rd currentTime angle landmarks exercise side s)
  = counterView s
  /\ isCorrectForm
       (analyzeExerciseForm rd currentTime angle landmarks exercise side s)
     = None.
Proof. intros H. unfold analyzeExerciseForm. rewrite H. cbn. auto. Qed.

Section CounterFacts.

Variable rd : Render.
Variable exercise : ExerciseData.
Variable side : Side.
Hypothesis started : exerciseStarted rd = true.

(** The rest of [analyzeExerciseForm] leaves the counter alone. *)
Lemma analyze_counter_fields currentTime angle landmarks s :
  let s' := analyzeExerciseForm rd currentTime angle landmarks exercise side s in
  let c := counterStep exercise currentTime angle s in
  repCounterRef s' = repCounterRef c
  /\ repCount s' = repCount c
  /\ hasReachedPeakRef s' = hasReachedPeakRef c
  /\ lastRepTimeRef s' = lastRepTimeRef c.
Proof.
  cbv zeta. unfold analyzeExerciseForm, counterStep. rewrite started.
  cbn [negb].
  set (c := rearm _ _).
  destruct (phaseFeedback exercise angle (repCounterRef c)) as [txt st].
  destruct (runFormChecks _ _ _ _ _) as [txt' ok].
  destruct (negb (String.eqb st (lastStateRef c))); cbn; auto.
Qed.

Lemma countRep_fields inPeak currentTime s :
  let counted := inPeak && negb (hasReachedPeakRef s)
                 && (1000 <? currentTime - lastRepTimeRef s)%Z in
  let c := countRep inPeak currentTime s in
  repCounterRef c = (if counted then S (repCounterRef s) else repCounterRef s)
  /\ repCount c = (if counted then S (repCounterRef s) else repCount s)
  /\ hasReachedPeakRef c = (if counted then true else hasReachedPeakRef s)
  /\ lastRepTimeRef c = (if counted then currentTime else lastRepTimeRef s).
Proof.
  cbv zeta. unfold countRep.
  destruct (inPeak && negb (hasReachedPeakRef s)
            && (1000 <? currentTime - lastRepTimeRef s)%Z); cbn;
    rewrite ?Nat.add_1_r; auto.
Qed.

Lemma rearm_fields inStart s :
  repCounterRef (rearm inStart s) = repCounterRef s
  /\ repCount (rearm inStart s) = repCount s
  /\ hasReachedPeakRef (rearm inStart s)
     = (if inStart then false else hasReachedPeakRef s)
  /\ lastRepTimeRef (rearm inStart s) = lastRepTimeRef s.
Proof.
  unfold rearm. destruct inStart, (hasReachedPeakRef s) eqn:E; cbn; auto.
Qed.

(** One analysed frame, on the counter. *)
Lemma analyze_counts currentTime angle landmarks s :
  let s' := analyzeExerciseForm rd currentTime angle landmarks exercise side s in
  let counted := countsRep exercise currentTime angle s in
  repCounterRef s' = (if counted then S (repCounterRef s) else repCounterRef s)
  /\ repCount s' = (if counted then S (repCounterRef s) else repCount s)
  /\ hasReachedPeakRef s'
     = (if isInStartingPosition exercise angle then false
        else if counted then true else hasReachedPeakRef s)
  /\ lastRepTimeRef s' = (if counted then currentTime else lastRepTimeRef s).
Proof.
  cbv zeta.
  destruct (analyze_counter_fields currentTime angle landmarks s)
    as (E1 & E2 & E3 & E4).
  rewrite E1, E2, E3, E4. unfold counterStep.
  destruct (rearm_fields (isInStartingPosition exercise angle)
              (countRep (isInOptimalPeak exercise angle) currentTime s))
    as (F1 & F2 & F3 & F4).
  rewrite F1, F2, F3, F4.
  destruct (countRep_fields (isInOptimalPeak exercise angle) currentTime s)
    as (G1 & G2 & G3 & G4).
  rewrite G1, G2, G3, G4. unfold countsRep. auto.
Qed.

Lemma analyzeAngles_app frames1 frames2 s :
  analyzeAngles rd exercise side (frames1 ++ frames2) s
  = analyzeAngles rd exercise side frames2
      (analyzeAngles rd exercise side frames1 s).
Proof.
  revert s. induction frames1 as [|[[t a] l] rest IH]; intros s; cbn; auto.
Qed.

End CounterFacts.

Lemma analyze_view rd exercise side currentTime angle landmarks s :
  exerciseStarted rd = true ->
  counterView (analyzeExerciseForm rd currentTime angle landmarks exercise side s)
  = viewStep (isInOptimalPeak exercise angle)
      (isInStartingPosition exercise angle) currentTime (counterView s).
Proof.
  intros started.
  destruct (analyze_counts rd exercise side started currentTime angle landmarks s)
    as (E1 & _ & E3 & E4).
  unfold counterView, viewStep, countsRep in *. rewrite E1, E3, E4. reflexivity.
Qed.

(** Evaluates the tests of the code at the concrete angles and times of
    a sample run. *)
Ltac sample_eval :=
  unfold viewStep, isInOptimalPeak, isInStartingPosition, inRange;
  cbn [fst snd targetRanges optimalPeak startingPosition
       Samples.legRaise Samples.pendulumSwing defaultExercise];
  num_decide; cbn [andb orb negb]; try reflexivity.

Lemma legRaise_is_leg : isLegExercise Samples.legRaise = true.
Proof. reflexivity. Qed.

Lemma pendulumSwing_kinds :
  isLegExercise Samples.pendulumSwing = false
  /\ isLiftingExercise Samples.pendulumSwing = false
  /\ isCurlingExercise Samples.pendulumSwing = false.
Proof. repeat split. Qed.

Lemma defaultExercise_kinds :
  isLegExercise defaultExercise = false
  /\ isLiftingExercise defaultExercise = true
  /\ isCurlingExercise defaultExercise = false.
Proof. repeat split. Qed.

(** C1, as the claim states it, fails twice.  A started leg raise whose
    angle rises into the peak at 6000 ms, stays there until 9000 ms and
    then returns to the starting position is counted three times; and
    for a started exercise named "Pendulum Swing" a frame with the
    angle inside [optimalPeak], the flag down and more than 1000 ms
    since the last repetition is not counted. *)
Lemma hold_at_peak_counterexample :
  repCounterRef
    (analyzeAngles (mkRender (Some Samples.legRaise) true Left)
       Samples.legRaise Left Samples.heldLegRaise initialSession) = 3%nat
  /\ (inRange 100 (optimalPeak (targetRanges Samples.pendulumSwing)) = true
      /\ hasReachedPeakRef initialSession = false
      /\ (1000 < 5000 - lastRepTimeRef initialSession)%Z
      /\ repCounterRef
           (analyzeExerciseForm (mkRender (Some Samples.pendulumSwing) true Left)
              5000 100 [] Samples.pendulumSwing Left initialSession) = 0%nat).
Proof.
  split.
  - assert (H : counterView
                  (analyzeAngles (mkRender (Some Samples.legRaise) true Left)
                     Samples.legRaise Left Samples.heldLegRaise initialSession)
                = (3%nat, false, 8200%Z)).
    { unfold Samples.heldLegRaise. cbn [analyzeAngles].
      rewrite !analyze_view by reflexivity.
      unfold isInOptimalPeak, isInStartingPosition.
      rewrite legRaise_is_leg. sample_eval. }
    apply (f_equal (fun v => fst (fst v))) in H. exact H.
  - repeat split.
    unfold inRange; cbn [fst snd targetRanges optimalPeak Samples.pendulumSwing].
      num_decide. reflexivity.
Qed.

Lemma isInOptimalPeak_unfold exercise angle :
  isInOptimalPeak exercise angle
  = inRange angle (optimalPeak (targetRanges exercise))
    && (isLegExercise exercise || isLiftingExercise exercise
        || isCurlingExercise exercise).
Proof.
  unfold isInOptimalPeak.
  destruct (isLegExercise exercise), (isSquat exercise),
    (isLiftingExercise exercise), (isCurlingExercise exercise),
    (inRange angle (optimalPeak (targetRanges exercise))); reflexivity.
Qed.

Lemma view_outside_peak rd exercise side (started : exerciseStarted rd = true)
    frames : forall s,
  noneInPeak exercise frames ->
  counterView (analyzeAngles rd exercise side frames s)
  = (repCounterRef s,
     hasReachedPeakRef s
     && negb (existsb (fun f => isInStartingPosition exercise (angleOf f)) frames),
     lastRepTimeRef s).
Proof.
  induction frames as [|[[t a] l] rest IH]; intros s Hnone.
  - cbn. rewrite andb_true_r. reflexivity.
  - inversion Hnone as [|f fs Hhead Hrest]; subst.
    unfold angleOf in Hhead; cbn [fst snd] in Hhead.
    cbn [analyzeAngles existsb]. rewrite IH by exact Hrest.
    pose proof (analyze_view rd exercise side t a l s started) as V.
    rewrite Hhead in V. unfold counterView, viewStep in V. cbn [andb] in V.
    injection V as -> -> ->.
    unfold angleOf at 2. cbn [fst snd].
    destruct (isInStartingPosition exercise a), (hasReachedPeakRef s);
      reflexivity.
Qed.

Lemma view_inside_peak rd exercise side (started : exerciseStarted rd = true)
    (away : peakAwayFromStart exercise) frames : forall s,
  allInPeak exercise frames ->
  let late := existsb (fun f => (1000 <? timeOf f - lastRepTimeRef s)%Z) frames in
  let s' := analyzeAngles rd exercise side frames s in
  repCounterRef s'
  = (if negb (hasReachedPeakRef s) && late
     then S (repCounterRef s) else repCounterRef s)
  /\ hasReachedPeakRef s' = hasReachedPeakRef s || late.
Proof.
  induction frames as [|[[t a] l] rest IH]; intros s Hall; cbv zeta.
  - cbn. rewrite andb_false_r, orb_false_r. auto.
  - inversion Hall as [|f fs Hhead Hrest]; subst.
    unfold angleOf in Hhead; cbn [fst snd] in Hhead.
    cbn [analyzeAngles existsb]. unfold timeOf at 1 3. cbn [fst snd].
    pose proof (analyze_view rd exercise side t a l s started) as V.
    rewrite Hhead, (away a Hhead) in V.
    unfold counterView, viewStep in V. cbn [andb] in V.
    injection V as V1 V2 V3.
    specialize (IH (analyzeExerciseForm rd t a l exercise side s) Hrest).
    cbv zeta in IH. destruct IH as [IH1 IH2].
    rewrite IH1, IH2, V1, V2, V3.
    destruct (hasReachedPeakRef s); cbn [negb andb orb].
    + auto.
    + destruct (1000 <? t - lastRepTimeRef s)%Z; cbn [negb andb orb]; auto.
Qed.

(** C1, amended. For a started exercise, a frame counts a repetition
    exactly when the peak test of the code holds (the angle is inside
    [optimalPeak] and the name marks the exercise as a leg, lifting or
    curling one), [hasReachedPeak] is down and more than 1000 ms have
    passed since the last counted repetition.  Consequently, when no
    angle of the peak passes the starting-position test, a run that
    rises into the peak, stays there for any number of frames and any
    length of time and then returns to the starting position raises the
    count by at most one and leaves the flag down; it raises the count
    by exactly one when the flag is down on entering the peak (it is
    down at the start of the run, or a frame of the rise is in the
    starting position) and a frame of the stay in the peak comes more
    than 1000 ms after the last repetition counted before the run, and
    it counts nothing otherwise. *)
Theorem rep_counted_once_per_peak_visit
    (rd : Render) (exercise : ExerciseData) (side : Side)
    (started : exerciseStarted rd = true) :
  (forall currentTime angle landmarks s,
     let s' := analyzeExerciseForm rd currentTime angle landmarks exercise side s in
     repCounterRef s'
     = (if countsRep exercise currentTime angle s
        then S (repCounterRef s) else repCounterRef s)
     /\ repCount s'
        = (if countsRep exercise currentTime angle s
           then S (repCounterRef s) else repCount s))
  /\ (forall angle,
        isInOptimalPeak exercise angle
        = inRange angle (optimalPeak (targetRanges exercise))
          && (isLegExercise exercise || isLiftingExercise exercise
              || isCurlingExercise exercise))
  /\ (peakAwayFromStart exercise ->
      forall rise first hold back final s,
        noneInPeak exercise rise ->
        allInPeak exercise (first :: hold) ->
        noneInPeak exercise (back ++ [final]) ->
        isInStartingPosition exercise (angleOf final) = true ->
        let armed :=
          negb (hasReachedPeakRef s)
          || existsb (fun f => isInStartingPosition exercise (angleOf f)) rise in
        let late :=
          existsb (fun f => (1000 <? timeOf f - lastRepTimeRef s)%Z)
            (first :: hold) in
        let s' := analyzeAngles rd exercise side
                    (rise ++ first :: hold ++ back ++ [final]) s in
        repCounterRef s'
        = (if armed && late then S (repCounterRef s) else repCounterRef s)
        /\ hasReachedPeakRef s' = false).
Proof.
  split; [|split].
  - intros t a l s. cbv zeta.
    destruct (analyze_counts rd exercise side started t a l s) as (E1 & E2 & _).
    auto.
  - apply isInOptimalPeak_unfold.
  - intros Haway rise first hold back final s Hrise Hhold Hback Hfinal.
    cbv zeta.
    (* the way up *)
    pose proof (view_outside_peak rd exercise side started rise s Hrise) as R.
    unfold counterView in R. injection R as R1 R2 R3.
    rewrite analyzeAngles_app.
    set (s1 := analyzeAngles rd exercise side rise s) in *.
    (* the stay in the peak *)
    change (first :: hold ++ back ++ [final])%list
      with ((first :: hold) ++ back ++ [final])%list.
    rewrite analyzeAngles_app.
    pose proof (view_inside_peak rd exercise side started Haway
                  (first :: hold) s1 Hhold) as P.
    cbv zeta in P. destruct P as [P1 P2].
    set (s2 := analyzeAngles rd exercise side (first :: hold) s1) in *.
    (* the way back *)
    pose proof (view_outside_peak rd exercise side started
                  (back ++ [final]) s2 Hback) as B.
    unfold counterView in B. injection B as B1 B2 B3.
    split.
    + rewrite B1, P1, R1, R2, R3.
      destruct (hasReachedPeakRef s),
        (existsb (fun f => isInStartingPosition exercise (angleOf f)) rise);
        reflexivity.
    + rewrite B2, existsb_app. cbn [existsb]. rewrite Hfinal.
      rewrite orb_true_r, andb_false_r. reflexivity.
Qed.

Lemma defaultExercise_peakAwayFromStart : peakAwayFromStart defaultExercise.
Proof.
  intros angle. unfold isInOptimalPeak, isInStartingPosition, inRange.
  destruct defaultExercise_kinds as (-> & -> & ->).
  cbn [fst snd targetRanges optimalPeak startingPosition defaultExercise
       andb orb].
  rewrite !orb_false_r.
  intros H. apply andb_prop in H. destruct H as [H1 H2].
  apply num_ge_true in H1. apply num_le_false. lra.
Qed.

Lemma rep_counted_once_per_peak_visit_witness :
  repCounterRef
    (analyzeAngles (mkRender None true Left) defaultExercise Left
       Samples.heldAbduction initialSession) = 1%nat
  /\ hasReachedPeakRef
       (analyzeAngles (mkRender None true Left) defaultExercise Left
          Samples.heldAbduction initialSession) = false.
Proof.
  refine (proj2 (proj2 (rep_counted_once_per_peak_visit
            (mkRender None true Left) defaultExercise Left eq_refl))
            defaultExercise_peakAwayFromStart
            [ (5000%Z, 20, []); (5500%Z, 70, []) ]
            (6000%Z, 100, [])
            [ (7100%Z, 100, []); (8200%Z, 100, []); (9000%Z, 100, []) ]
            [ (9300%Z, 70, []) ]
            (9500%Z, 20, [])
            initialSession _ _ _ _).
  - repeat constructor; unfold angleOf; cbn [fst snd];
      unfold isInOptimalPeak; destruct defaultExercise_kinds as (-> & -> & ->);
      sample_eval.
  - repeat constructor; unfold angleOf; cbn [fst snd];
      unfold isInOptimalPeak; destruct defaultExercise_kinds as (-> & -> & ->);
      sample_eval.
  - repeat constructor; unfold angleOf; cbn [fst snd];
      unfold isInOptimalPeak; destruct defaultExercise_kinds as (-> & -> & ->);
      sample_eval.
  - unfold angleOf; cbn [fst snd]. unfold isInStartingPosition.
    destruct defaultExercise_kinds as (-> & -> & ->). sample_eval.
Defined.

(** ** Leg exercises *)

Section LegFacts.

Variable exercise : ExerciseData.
Hypothesis leg : isLegExercise exercise = true.
Hypothesis ordered :
  fst (startingPosition (targetRanges exercise))
  <= snd (startingPosition (targetRanges exercise)).


Lemma leg_peak_is_range angle :
  isInOptimalPeak exercise angle
  = inRange angle (optimalPeak (targetRanges exercise)).
Proof. unfold isInOptimalPeak. rewrite leg. destruct (isSquat exercise); reflexivity. Qed.

Variable rd : Render.
Variable side : Side.
Hypothesis started : exerciseStarted rd = true.




End LegFacts.



(** ** Phase of a frame *)

Lemma phaseFeedback_state_any_reps exercise angle reps reps' :
  snd (phaseFeedback exercise angle reps) = snd (phaseFeedback exercise angle reps').
Proof.
  unfold phaseFeedback. cbv zeta.
  repeat match goal with
  | |- context [if ?b then _ else _] => destruct b; cbn [snd]; try reflexivity
  end.
Qed.

(** What [analyzeExerciseForm] leaves in [lastStateRef]: the state that
    the chain of branches picked. *)
Lemma analyze_lastState rd exercise side currentTime angle landmarks s :
  exerciseStarted rd = true ->
  lastStateRef (analyzeExerciseForm rd currentTime angle landmarks exercise side s)
  = snd (phaseFeedback exercise angle 0).
Proof.
  intros started. unfold analyzeExerciseForm. rewrite started. cbn [negb].
  set (c := rearm _ _).
  rewrite (phaseFeedback_state_any_reps exercise angle 0 (repCounterRef c)).
  destruct (phaseFeedback exercise angle (repCounterRef c)) as [txt st].
  destruct (runFormChecks _ _ _ _ _) as [txt' ok]. cbn [snd].
  destruct (String.eqb st (lastStateRef c)) eqn:E; cbn.
  - apply String.eqb_eq in E. congruence.
  - reflexivity.
Qed.

Lemma default_ready_at_50 reps :
  snd (phaseFeedback defaultExercise 50 reps) = "ready".
Proof.
  unfold phaseFeedback, isInOptimalPeak, isInStartingPosition, inRange.
  destruct defaultExercise_kinds as (-> & -> & ->).
  cbn [fst snd targetRanges optimalPeak startingPosition repThresholds
       liftingMin defaultExercise].
  num_decide. reflexivity.
Qed.

(** C4, as the claim states it, fails: for the built-in shoulder
    abduction an angle of 50 lies in the gap between [restMax] (45) and
    [liftingMin] (60) and is outside [optimalPeak], and the frame is
    classified as ready, not as moving. *)
Lemma phase_gap_counterexample :
  isLiftingExercise defaultExercise = true
  /\ isLegExercise defaultExercise = false
  /\ restMax (repThresholds defaultExercise) < 50
     <= liftingMin (repThresholds defaultExercise)
  /\ snd (phaseFeedback defaultExercise 50 0) = "ready"
  /\ lastStateRef
       (analyzeExerciseForm (mkRender None true Left) 5000 50 []
          defaultExercise Left initialSession) = "ready"
  /\ actionVerbGerund defaultExercise = "lifting".
Proof.
  pose proof (default_ready_at_50 0) as H.
  repeat split; try (cbn; lra); try exact H.
  rewrite analyze_lastState by reflexivity. exact H.
Qed.

Lemma lifting_phase_state exercise :
  isLiftingExercise exercise = true ->
  isLegExercise exercise = false ->
  isCurlingExercise exercise = false ->
  forall angle n,
    snd (phaseFeedback exercise angle n)
    = (if inRange angle (optimalPeak (targetRanges exercise))
          || num_gt angle (liftingMin (repThresholds exercise))
       then "lifting" else "ready").
Proof.
  intros lifting not_leg not_curling angle n.
  unfold phaseFeedback, isInOptimalPeak, isInStartingPosition,
    actionVerbGerund, bodyPart.
  rewrite lifting, not_leg, not_curling. cbv zeta. cbn [andb orb].
  rewrite !orb_false_r.
  destruct (inRange angle (optimalPeak (targetRanges exercise)));
    destruct (num_gt angle (liftingMin (repThresholds exercise)));
    destruct (num_le angle (snd (startingPosition (targetRanges exercise))));
    reflexivity.
Qed.

(** C4, amended. For every exercise that the name marks as a lifting
    one (and neither as a leg nor as a curling one) and every angle, the
    frame resolves to exactly one state: the moving state "lifting",
    with the message of a completed repetition, when the angle is inside
    [optimalPeak]; "lifting" with the keep-going message when it is
    outside [optimalPeak] and above [liftingMin]; and "ready" in every
    other case, the gap between [restMax] and [liftingMin] included;
    [restMax] is not consulted. *)
Theorem extension_phase_classification
    (exercise : ExerciseData)
    (lifting : isLiftingExercise exercise = true)
    (not_leg : isLegExercise exercise = false)
    (not_curling : isCurlingExercise exercise = false) :
  forall angle reps,
    let peak := inRange angle (optimalPeak (targetRanges exercise)) in
    let above := num_gt angle (liftingMin (repThresholds exercise)) in
    snd (phaseFeedback exercise angle reps)
    = (if peak || above then "lifting" else "ready")
    /\ (peak = true ->
        fst (phaseFeedback exercise angle reps)
        = glyph_done ++ " Excellent! Rep " ++ string_of_nat reps
            ++ " completed - Full range achieved")
    /\ (peak = false -> above = true ->
        fst (phaseFeedback exercise angle reps)
        = glyph_progress ++ " Keep going! Raise your arm higher")
    /\ (forall rd side currentTime landmarks s,
          exerciseStarted rd = true ->
          lastStateRef
            (analyzeExerciseForm rd currentTime angle landmarks exercise side s)
          = (if peak || above then "lifting" else "ready")).
Proof.
  intros angle reps. cbv zeta.
  pose proof (lifting_phase_state exercise lifting not_leg not_curling angle)
    as Hstate.
  repeat split.
  - apply Hstate.
  - intros Hpeak.
    unfold phaseFeedback, isInOptimalPeak.
    rewrite lifting, not_leg, not_curling. cbv zeta. cbn [andb orb].
    rewrite Hpeak. reflexivity.
  - intros Hpeak Habove.
    unfold phaseFeedback, isInOptimalPeak, bodyPart.
    rewrite lifting, not_leg, not_curling. cbv zeta. cbn [andb orb].
    rewrite Hpeak, Habove. reflexivity.
  - intros rd side t l s Hst. rewrite analyze_lastState by exact Hst.
    apply Hstate.
Qed.

Lemma extension_phase_classification_witness :
  snd (phaseFeedback defaultExercise 70 2) = "lifting"
  /\ snd (phaseFeedback defaultExercise 50 2) = "ready".
Proof.
  split.
  - rewrite (proj1 (extension_phase_classification defaultExercise
                      eq_refl eq_refl eq_refl 70 2)).
    unfold inRange; cbn [fst snd targetRanges optimalPeak repThresholds
                         liftingMin defaultExercise].
    num_decide. reflexivity.
  - rewrite (proj1 (extension_phase_classification defaultExercise
                      eq_refl eq_refl eq_refl 50 2)).
    unfold inRange; cbn [fst snd targetRanges optimalPeak repThresholds
                         liftingMin defaultExercise].
    num_decide. reflexivity.
Defined.

(** ** Evaluating the angle on concrete frames *)

Lemma atan2_right y x : 0 < x -> atan2 y x = atan (y / x).
Proof. intros H. unfold atan2. destruct (Rlt_dec 0 x); [reflexivity | lra]. Qed.

Lemma atan2_left_up y x : x < 0 -> 0 <= y -> atan2 y x = atan (y / x) + PI.
Proof.
  intros Hx Hy. unfold atan2.
  destruct (Rlt_dec 0 x); [lra|].
  destruct (Rlt_dec x 0); [|lra].
  destruct (Rle_dec 0 y); [reflexivity | lra].
Qed.

Lemma atan2_up y x : x = 0 -> 0 < y -> atan2 y x = PI / 2.
Proof.
  intros Hx Hy. unfold atan2.
  destruct (Rlt_dec 0 x); [lra|].
  destruct (Rlt_dec x 0); [lra|].
  destruct (Rlt_dec 0 y); [reflexivity | lra].
Qed.

(** [calculateAngle] once the difference of the directions is known. *)
Lemma calculateAngle_eval a b c r d :
  atan2 (lm_y c - lm_y b) (lm_x c - lm_x b)
  - atan2 (lm_y a - lm_y b) (lm_x a - lm_x b) = r ->
  Rabs (r * 180 / PI) = d -> d <= 180 ->
  calculateAngle a b c = d.
Proof.
  intros Hr Hd Hle. unfold calculateAngle. cbv zeta. rewrite Hr, Hd.
  replace (num_gt d 180) with false by (symmetry; apply num_gt_false; lra).
  reflexivity.
Qed.

(** The angle whose tangent is one third, between 18 and 19.3 degrees:
    from Machin's formula for 1/3 and 1/7 and two uses of the
    subtraction formula of the arctangent. *)
Lemma atan_positive x : 0 < x -> 0 < atan x.
Proof. intros H. rewrite <- atan_0. now apply atan_increasing. Qed.

Lemma atan_sub_positive u v w :
  0 < v -> 0 < u -> atan_sub u v = w -> atan u = atan v + atan w.
Proof.
  intros Hv Hu E. rewrite <- E. apply atan_sub_correct.
  - nra.
  - pose proof (atan_bound u). pose proof (atan_bound v).
    pose proof (atan_positive u Hu). pose proof (atan_positive v Hv). lra.
  - apply atan_bound.
Qed.

Lemma atan_third_bounds : PI / 10 < atan (/ 3) < 3 * PI / 28.
Proof.
  pose proof PI_RGT_0 as HPI.
  pose proof Machin_2_3_7 as M237.
  assert (Hdouble : atan (7 / 24) = atan (/ 7) + atan (/ 7)).
  { apply atan_sub_positive; [lra | lra | unfold atan_sub; field]. }
  assert (Hdiff : atan (/ 3) = atan (/ 7) + atan (2 / 11)).
  { apply atan_sub_positive; [lra | lra | unfold atan_sub; field]. }
  assert (H1 : atan (7 / 24) < atan (/ 3)) by (apply atan_increasing; lra).
  assert (H2 : atan (2 / 11) < atan (7 / 24)) by (apply atan_increasing; lra).
  lra.
Qed.

Lemma degrees_third_bounds : 18 < atan (/ 3) * 180 / PI < 19.3.
Proof.
  pose proof PI_RGT_0 as HPI. destruct atan_third_bounds as [Hlo Hhi].
  assert (E : atan (/ 3) = atan (/ 3) * 180 / PI * (PI / 180)) by (field; lra).
  set (q := atan (/ 3) * 180 / PI) in *.
  split; nra.
Qed.

Lemma atan_3 : atan 3 = PI / 2 - atan (/ 3).
Proof. pose proof (atan_inv 3). lra. Qed.

(** Rewrites the directions of a concrete angle and closes the side
    conditions by linear arithmetic. *)
Ltac directions :=
  cbn [lm_x lm_y];
  repeat first
    [ rewrite atan2_up by lra
    | rewrite atan2_right by lra
    | rewrite atan2_left_up by lra ].

Lemma angle_arm_hanging :
  calculateAngle (mkLandmark 0.4 0.7 0.9) (mkLandmark 0.4 0.4 0.9)
    (mkLandmark 0.4 0.55 0.9) = 0.
Proof.
  apply calculateAngle_eval with (r := 0); [| |lra].
  - directions. lra.
  - replace (0 * 180 / PI) with 0 by (unfold Rdiv; ring). apply Rabs_R0.
Qed.

Lemma angle_arm_out :
  calculateAngle (mkLandmark 0.6 0.7 0.9) (mkLandmark 0.6 0.4 0.1)
    (mkLandmark 0.8 0.4 0.9) = 90.
Proof.
  pose proof PI_RGT_0 as HPI.
  apply calculateAngle_eval with (r := - (PI / 2)); [| |lra].
  - directions.
    replace ((0.4 - 0.4) / (0.8 - 0.6)) with 0 by lra.
    rewrite atan_0. lra.
  - replace (- (PI / 2) * 180 / PI) with (0 - 90) by (field; lra).
    unfold Rabs. destruct (Rcase_abs _); lra.
Qed.

Lemma angle_elbow_low :
  calculateAngle (mkLandmark 0.6 0.7 0.9) (mkLandmark 0.6 0.4 0.9)
    (mkLandmark 0.9 0.5 0.9) = 90 - atan (/ 3) * 180 / PI.
Proof.
  pose proof PI_RGT_0 as HPI. pose proof degrees_third_bounds as HA.
  apply calculateAngle_eval with (r := atan (/ 3) - PI / 2); [| |lra].
  - directions.
    replace ((0.5 - 0.4) / (0.9 - 0.6)) with (/ 3) by lra.
    reflexivity.
  - replace ((atan (/ 3) - PI / 2) * 180 / PI)
      with (atan (/ 3) * 180 / PI - 90) by (field; lra).
    unfold Rabs. destruct (Rcase_abs _); lra.
Qed.

Lemma angle_rest_left :
  calculateAngle (mkLandmark 0.6 0.65 0.9) (mkLandmark 0.6 0.05 0.9)
    (mkLandmark 0.7 0.35 0.9) = atan (/ 3) * 180 / PI.
Proof.
  pose proof PI_RGT_0 as HPI. pose proof degrees_third_bounds as HA.
  apply calculateAngle_eval with (r := - atan (/ 3)); [| |lra].
  - directions.
    replace ((0.35 - 0.05) / (0.7 - 0.6)) with 3 by lra.
    rewrite atan_3. lra.
  - replace (- atan (/ 3) * 180 / PI) with (0 - atan (/ 3) * 180 / PI)
      by (field; lra).
    unfold Rabs. destruct (Rcase_abs _); lra.
Qed.

Lemma angle_rest_right :
  calculateAngle (mkLandmark 0.4 0.65 0.9) (mkLandmark 0.4 0.05 0.9)
    (mkLandmark 0.3 0.35 0.9) = atan (/ 3) * 180 / PI.
Proof.
  pose proof PI_RGT_0 as HPI. pose proof degrees_third_bounds as HA.
  apply calculateAngle_eval with (r := atan (/ 3)); [| |lra].
  - directions.
    replace ((0.35 - 0.05) / (0.3 - 0.4)) with (Ropp 3) by lra.
    rewrite atan_opp, atan_3. lra.
  - apply Rabs_pos_eq. lra.
Qed.

(** ** The active-side detector *)

(** With a positive average the comparison of [detectActiveArm] is the
    hysteresis that its comments describe. *)
Lemma chooseArm_positive_average l r previous :
  0 < (l + r) / 2 ->
  (Rabs (l - r) / ((l + r) / 2) < switchThreshold ->
   chooseArm l r previous = previous)
  /\ (Rabs (l - r) / ((l + r) / 2) > switchThreshold ->
      (r > l -> chooseArm l r previous = Right)
      /\ (l > r -> chooseArm l r previous = Left)).
Proof.
  intros Havg. unfold chooseArm, switchThreshold in *. cbv zeta.
  set (avg := (l + r) / 2) in *. set (d := Rabs (l - r)) in *.
  assert (Eq : d = d / avg * avg) by (field; lra).
  split.
  - intros Hclose.
    replace (num_gt d (avg * 0.15)) with false; [reflexivity|].
    symmetry. apply num_gt_false. nra.
  - intros Hfar.
    assert (Hsw : num_gt d (avg * 0.15) = true) by (apply num_gt_true; nra).
    rewrite Hsw. split; intros Hlr.
    + replace (num_gt r l) with true by (symmetry; apply num_gt_true; lra).
      reflexivity.
    + replace (num_gt r l) with false by (symmetry; apply num_gt_false; lra).
      reflexivity.
Qed.

Lemma armsAtRest_at :
  landmark_at Samples.armsAtRest 11 = Some (mkLandmark 0.6 0.05 0.9)
  /\ landmark_at Samples.armsAtRest 13 = Some (mkLandmark 0.7 0.35 0.9)
  /\ landmark_at Samples.armsAtRest 15 = Some (mkLandmark 0.6 0.93 0.9)
  /\ landmark_at Samples.armsAtRest 23 = Some (mkLandmark 0.6 0.65 0.9)
  /\ landmark_at Samples.armsAtRest 12 = Some (mkLandmark 0.4 0.05 0.9)
  /\ landmark_at Samples.armsAtRest 14 = Some (mkLandmark 0.3 0.35 0.9)
  /\ landmark_at Samples.armsAtRest 16 = Some (mkLandmark 0.4 0.95 0.9)
  /\ landmark_at Samples.armsAtRest 24 = Some (mkLandmark 0.4 0.65 0.9).
Proof. repeat split. Qed.

Lemma Rabs_eval x d : 0 <= d -> x = d \/ x = - d -> Rabs x = d.
Proof.
  intros Hd [-> | ->]; [apply Rabs_pos_eq; exact Hd|].
  rewrite Rabs_Ropp. apply Rabs_pos_eq. exact Hd.
Qed.

(** The scores of the two arms at rest: both negative, the left one
    0.06 above the right one. *)
Lemma armScores_at_rest :
  armScores Samples.armsAtRest
  = Some (17.36 - atan (/ 3) * 180 / PI, 17.3 - atan (/ 3) * 180 / PI).
Proof.
  pose proof degrees_third_bounds as HA.
  unfold armScores.
  destruct armsAtRest_at as (-> & -> & -> & -> & -> & -> & -> & ->).
  cbn [orElse]. unfold armMovementScore. cbv zeta.
  rewrite angle_rest_left, angle_rest_right. cbn [lm_x lm_y].
  rewrite (Rabs_eval (0.6 - 0.6) 0) by lra.
  rewrite (Rabs_eval (0.4 - 0.4) 0) by lra.
  rewrite (Rabs_eval (atan (/ 3) * 180 / PI - 20)
             (20 - atan (/ 3) * 180 / PI)) by lra.
  f_equal. f_equal; lra.
Qed.

(** C7: the claim is what the comments of [detectActiveArm] describe,
    and the code misses it when the scores are negative.  In the frame
    [armsAtRest] all six arm landmarks are present and both movement
    scores are negative and 0.06 apart, so that the difference is below
    the switch threshold both as the quotient of the claim and in
    magnitude; with the right arm as the previous side the detector
    returns the left arm. *)
Theorem detectActiveArm_switches_at_near_equal_scores :
  exists leftScore rightScore : R,
    armScores Samples.armsAtRest = Some (leftScore, rightScore)
    /\ leftScore < 0 /\ rightScore < 0
    /\ Rabs (leftScore - rightScore) / ((leftScore + rightScore) / 2)
       < switchThreshold
    /\ Rabs (leftScore - rightScore)
       < Rabs ((leftScore + rightScore) / 2) * switchThreshold
    /\ detectActiveArm (mkRender None true Right) Samples.armsAtRest = Left.
Proof.
  pose proof degrees_third_bounds as HA.
  exists (17.36 - atan (/ 3) * 180 / PI), (17.3 - atan (/ 3) * 180 / PI).
  set (A := atan (/ 3) * 180 / PI) in *.
  assert (Hd : Rabs (17.36 - A - (17.3 - A)) = 0.06)
    by (apply Rabs_eval; lra).
  assert (Havg : Rabs ((17.36 - A + (17.3 - A)) / 2) = A - 17.33)
    by (apply Rabs_eval; lra).
  split; [apply armScores_at_rest|].
  split; [lra|]. split; [lra|]. split; [|split].
  - rewrite Hd. unfold switchThreshold.
    assert (Hinv : / ((17.36 - A + (17.3 - A)) / 2) < 0)
      by (apply Rinv_lt_0_compat; lra).
    unfold Rdiv at 1. nra.
  - rewrite Hd, Havg. unfold switchThreshold. lra.
  - unfold detectActiveArm. rewrite armScores_at_rest. fold A.
    unfold chooseArm. cbv zeta. cbn [detectedArm]. rewrite Hd.
    replace (num_gt 0.06 ((17.36 - A + (17.3 - A)) / 2 * switchThreshold))
      with true
      by (symmetry; apply num_gt_true; unfold switchThreshold; lra).
    replace (num_gt (17.3 - A) (17.36 - A)) with false
      by (symmetry; apply num_gt_false; lra).
    reflexivity.
Qed.

(** ** Form checks *)

Lemma last_shift {A : Type} (rest : list A) : forall x d,
  last (x :: rest) d = last rest x.
Proof.
  induction rest as [|y rest IH]; intros x d; [reflexivity|].
  change (last (x :: y :: rest) d) with (last (y :: rest) d).
  rewrite (IH y d), (IH y x). reflexivity.
Qed.

Lemma runFormChecks_last landmarks side moving checks : forall acc,
  runFormChecks landmarks side moving checks acc
  = match filter (checkViolated landmarks side moving) checks with
    | [] => acc
    | first :: rest => (warningOf (last rest first), Some false)
    end.
Proof.
  unfold runFormChecks.
  induction checks as [|c checks IH]; intros acc; [reflexivity|].
  cbn [fold_left filter]. rewrite IH. unfold formCheckStep.
  destruct (checkViolated landmarks side moving c) eqn:E.
  - destruct (filter (checkViolated landmarks side moving) checks) as [|c' rest];
      [reflexivity|].
    rewrite last_shift. reflexivity.
  - reflexivity.
Qed.

(** No check is violated outside the moving state. *)
Lemma checkViolated_at_rest landmarks side check :
  checkViolated landmarks side false check = false.
Proof.
  unfold checkViolated. cbv zeta. rewrite !andb_false_r.
  destruct (2 <=? _)%nat; reflexivity.
Qed.

(** What [analyzeExerciseForm] shows after the form checks. *)
Lemma analyze_feedback rd exercise side currentTime angle landmarks s :
  exerciseStarted rd = true ->
  let s' := analyzeExerciseForm rd currentTime angle landmarks exercise side s in
  (feedback s', isCorrectForm s')
  = runFormChecks landmarks side (movingAt exercise angle) (formChecks exercise)
      (fst (phaseFeedback exercise angle (repCounterRef s')), Some true).
Proof.
  intros started. cbv zeta.
  destruct (analyze_counter_fields rd exercise side started
              currentTime angle landmarks s) as (E1 & _).
  cbv zeta in E1. rewrite E1. unfold counterStep.
  unfold analyzeExerciseForm. rewrite started. cbn [negb].
  set (c := rearm _ _). unfold movingAt.
  rewrite (phaseFeedback_state_any_reps exercise angle 0 (repCounterRef c)).
  destruct (phaseFeedback exercise angle (repCounterRef c)) as [txt st].
  cbn [fst snd].
  destruct (runFormChecks _ _ _ _ _) as [txt' ok].
  destruct (negb (String.eqb st (lastStateRef c))); reflexivity.
Qed.

(** C5, amended. For a started exercise, when one or more form checks
    are violated in a frame (which can only be in the moving state, the
    peak included), the message shown is the warning sign followed by
    the [errorMessage] of the last violated check in the order of
    [formChecks], and [formOk] is false; when none is violated the
    message of the phase stays and [formOk] is true. *)
Theorem last_violated_check_wins
    (rd : Render) (exercise : ExerciseData) (side : Side)
    (started : exerciseStarted rd = true) :
  forall currentTime angle landmarks s,
    let s' := analyzeExerciseForm rd currentTime angle landmarks exercise side s in
    (forall first rest,
        violatedChecks landmarks side exercise angle = first :: rest ->
        feedback s' = glyph_warning ++ " " ++ errorMessage (last rest first)
        /\ isCorrectForm s' = Some false)
    /\ (violatedChecks landmarks side exercise angle = [] ->
        feedback s' = fst (phaseFeedback exercise angle (repCounterRef s'))
        /\ isCorrectForm s' = Some true)
    /\ (movingAt exercise angle = false ->
        violatedChecks landmarks side exercise angle = []).
Proof.
  intros t a l s. cbv zeta.
  pose proof (analyze_feedback rd exercise side t a l s started) as H.
  cbv zeta in H. rewrite runFormChecks_last in H.
  fold (violatedChecks l side exercise a) in H.
  split; [|split].
  - intros first rest Hv. rewrite Hv in H. unfold warningOf in H.
    injection H as Hf Hok. split; assumption.
  - intros Hv. rewrite Hv in H. injection H as Hf Hok. split; assumption.
  - intros Hrest. unfold violatedChecks. rewrite Hrest.
    induction (formChecks exercise) as [|c cs IH]; [reflexivity|].
    cbn [filter]. rewrite checkViolated_at_rest. exact IH.
Qed.

(** ** The sample frames *)

Lemma armOutLowVisibility_at :
  landmark_at Samples.armOutLowVisibility 11 = Some (mkLandmark 0.6 0.4 0.1)
  /\ landmark_at Samples.armOutLowVisibility 13 = Some (mkLandmark 0.8 0.4 0.9)
  /\ landmark_at Samples.armOutLowVisibility 15 = Some (mkLandmark 0.95 0.4 0.9)
  /\ landmark_at Samples.armOutLowVisibility 23 = Some (mkLandmark 0.6 0.7 0.9)
  /\ landmark_at Samples.armOutLowVisibility 12 = Some (mkLandmark 0.4 0.4 0.9)
  /\ landmark_at Samples.armOutLowVisibility 14 = Some (mkLandmark 0.4 0.55 0.9)
  /\ landmark_at Samples.armOutLowVisibility 16 = Some (mkLandmark 0.4 0.7 0.9)
  /\ landmark_at Samples.armOutLowVisibility 24 = Some (mkLandmark 0.4 0.7 0.9).
Proof. repeat split. Qed.

Lemma elbowLowWristHigh_at :
  landmark_at Samples.elbowLowWristHigh 11 = Some (mkLandmark 0.6 0.4 0.9)
  /\ landmark_at Samples.elbowLowWristHigh 13 = Some (mkLandmark 0.9 0.5 0.9)
  /\ landmark_at Samples.elbowLowWristHigh 15 = Some (mkLandmark 0.95 0.2 0.9)
  /\ landmark_at Samples.elbowLowWristHigh 23 = Some (mkLandmark 0.6 0.7 0.9)
  /\ landmark_at Samples.elbowLowWristHigh 12 = Some (mkLandmark 0.4 0.4 0.9)
  /\ landmark_at Samples.elbowLowWristHigh 14 = Some (mkLandmark 0.4 0.55 0.9)
  /\ landmark_at Samples.elbowLowWristHigh 16 = Some (mkLandmark 0.4 0.7 0.9)
  /\ landmark_at Samples.elbowLowWristHigh 24 = Some (mkLandmark 0.4 0.7 0.9).
Proof. repeat split. Qed.

(** The right arm hangs in both frames: its score is 19.1. *)
Lemma score_arm_hanging :
  armMovementScore (mkLandmark 0.4 0.7 0.9) (mkLandmark 0.4 0.4 0.9)
    (mkLandmark 0.4 0.55 0.9) (mkLandmark 0.4 0.7 0.9) = 19.1.
Proof.
  unfold armMovementScore. cbv zeta. rewrite angle_arm_hanging. cbn [lm_x lm_y].
  rewrite (Rabs_eval (0.4 - 0.4) 0) by lra.
  rewrite (Rabs_eval (0 - 20) 20) by lra. lra.
Qed.

Lemma score_arm_out :
  armMovementScore (mkLandmark 0.6 0.7 0.9) (mkLandmark 0.6 0.4 0.1)
    (mkLandmark 0.8 0.4 0.9) (mkLandmark 0.95 0.4 0.9) = 70.7.
Proof.
  unfold armMovementScore. cbv zeta. rewrite angle_arm_out. cbn [lm_x lm_y].
  rewrite (Rabs_eval (0.95 - 0.6) 0.35) by lra.
  rewrite (Rabs_eval (90 - 20) 70) by lra. lra.
Qed.

Lemma score_elbow_low :
  armMovementScore (mkLandmark 0.6 0.7 0.9) (mkLandmark 0.6 0.4 0.9)
    (mkLandmark 0.9 0.5 0.9) (mkLandmark 0.95 0.2 0.9)
  = 71.3 - atan (/ 3) * 180 / PI.
Proof.
  pose proof degrees_third_bounds as HA.
  unfold armMovementScore. cbv zeta. rewrite angle_elbow_low. cbn [lm_x lm_y].
  rewrite (Rabs_eval (0.95 - 0.6) 0.35) by lra.
  rewrite (Rabs_eval (90 - atan (/ 3) * 180 / PI - 20)
             (70 - atan (/ 3) * 180 / PI)) by lra.
  lra.
Qed.

Lemma chooseArm_left_far_ahead l r previous :
  0 <= r -> 2 * r < l -> chooseArm l r previous = Left.
Proof.
  intros Hr Hl. unfold chooseArm, switchThreshold. cbv zeta.
  rewrite (Rabs_eval (l - r) (l - r)) by lra.
  replace (num_gt (l - r) ((l + r) / 2 * 0.15)) with true
    by (symmetry; apply num_gt_true; lra).
  replace (num_gt r l) with false by (symmetry; apply num_gt_false; lra).
  reflexivity.
Qed.

Lemma detectActiveArm_armOut rd :
  detectActiveArm rd Samples.armOutLowVisibility = Left.
Proof.
  unfold detectActiveArm, armScores.
  destruct armOutLowVisibility_at as (-> & -> & -> & -> & -> & -> & -> & ->).
  cbn [orElse]. rewrite score_arm_out, score_arm_hanging.
  apply chooseArm_left_far_ahead; lra.
Qed.

Lemma detectActiveArm_elbowLow rd :
  detectActiveArm rd Samples.elbowLowWristHigh = Left.
Proof.
  pose proof degrees_third_bounds as HA.
  unfold detectActiveArm, armScores.
  destruct elbowLowWristHigh_at as (-> & -> & -> & -> & -> & -> & -> & ->).
  cbn [orElse]. rewrite score_elbow_low, score_arm_hanging.
  apply chooseArm_left_far_ahead; lra.
Qed.

(** [analyzeArmExercise] on a frame whose three points are present and
    whose detected side is the one of the closure. *)
Lemma analyzeArmExercise_present rd currentTime landmarks s point1 vertex point2 :
  detectActiveArm rd landmarks = detectedArm rd ->
  let pts := Resolve.armPoints
               (points (primaryAngle (angleCalculations (exerciseInUse rd))))
               (detectedArm rd) in
  landmark_of_point landmarks pts 0 = Some point1 ->
  landmark_of_point landmarks pts 1 = Some vertex ->
  landmark_of_point landmarks pts 2 = Some point2 ->
  analyzeArmExercise rd currentTime landmarks s
  = analyzeExerciseForm rd currentTime (calculateAngle point1 vertex point2)
      landmarks (exerciseInUse rd) (detectedArm rd)
      (setArmAngle (Math_round (calculateAngle point1 vertex point2)) s).
Proof.
  intros Hside pts H0 H1 H2. unfold analyzeArmExercise, analyzeWithPoints.
  cbv zeta. rewrite Hside. fold pts. rewrite H0, H1, H2.
  replace (Side_eqb (detectedArm rd) (detectedArm rd)) with true
    by (destruct (detectedArm rd); reflexivity).
  reflexivity.
Qed.

Lemma lateralRaise_kinds :
  isLegExercise Samples.lateralRaise = false
  /\ isLiftingExercise Samples.lateralRaise = true
  /\ isCurlingExercise Samples.lateralRaise = false.
Proof. repeat split. Qed.

Lemma lateralRaise_moving angle :
  60 < angle -> movingAt Samples.lateralRaise angle = true.
Proof.
  intros H. unfold movingAt.
  destruct lateralRaise_kinds as (Hleg & Hlift & Hcurl).
  rewrite (lifting_phase_state Samples.lateralRaise Hlift Hleg Hcurl angle 0).
  replace (num_gt angle (liftingMin (repThresholds Samples.lateralRaise)))
    with true by (symmetry; apply num_gt_true; cbn; lra).
  rewrite orb_true_r. reflexivity.
Qed.

(** In the frame [elbowLowWristHigh] both checks of the exercise are
    violated while the arm is moving. *)
Lemma violated_elbowLowWristHigh angle :
  60 < angle ->
  violatedChecks Samples.elbowLowWristHigh Left Samples.lateralRaise angle
  = formChecks Samples.lateralRaise.
Proof.
  intros H. unfold violatedChecks. rewrite (lateralRaise_moving angle H).
  cbn [Samples.lateralRaise formChecks defaultExercise filter].
  unfold checkViolated. cbv zeta.
  cbn [Resolve.checkKeypoints Resolve.checkKeypoint map keypoints condition pick].
  destruct elbowLowWristHigh_at as (-> & -> & -> & _).
  cbn [filter present List.length Nat.leb lm_y].
  change (includes "wrist higher than shoulder" "wrist higher than shoulder")
    with true.
  change (includes "elbow below shoulder" "wrist higher than shoulder")
    with false.
  change (includes "elbow below shoulder" "elbow below shoulder") with true.
  cbn [andb]. num_decide. reflexivity.
Qed.

(** The frame [elbowLowWristHigh] as [onResults] analyses it. *)
Lemma onResults_elbowLowWristHigh currentTime s :
  onResults (mkRender (Some Samples.lateralRaise) true Left) currentTime
    (Some Samples.elbowLowWristHigh) s
  = analyzeExerciseForm (mkRender (Some Samples.lateralRaise) true Left)
      currentTime (90 - atan (/ 3) * 180 / PI) Samples.elbowLowWristHigh
      Samples.lateralRaise Left
      (setArmAngle (Math_round (90 - atan (/ 3) * 180 / PI)) s).
Proof.
  unfold onResults.
  change (getExerciseBodyPart
            (exerciseInUse (mkRender (Some Samples.lateralRaise) true Left)))
    with Arms.
  cbv iota.
  rewrite (analyzeArmExercise_present
             (mkRender (Some Samples.lateralRaise) true Left)
             currentTime Samples.elbowLowWristHigh s
             (mkLandmark 0.6 0.7 0.9) (mkLandmark 0.6 0.4 0.9)
             (mkLandmark 0.9 0.5 0.9)
             (detectActiveArm_elbowLow
                (mkRender (Some Samples.lateralRaise) true Left))
             eq_refl eq_refl eq_refl).
  rewrite angle_elbow_low. reflexivity.
Qed.

(** C5, as the claim states it, fails: in a frame of a started lateral
    raise in which the wrist check (first in [formChecks]) and the elbow
    check (second) are both violated while the arm is moving, the
    message shown is that of the elbow check; [formOk] is false. *)
Lemma first_violated_check_counterexample :
  violatedChecks Samples.elbowLowWristHigh Left Samples.lateralRaise
    (90 - atan (/ 3) * 180 / PI)
  = [ {| condition := "wrist higher than shoulder";
         errorMessage := "Keep your arm horizontal, don't lift too high";
         keypoints := [11; 15]%Z |};
      {| condition := "elbow below shoulder";
         errorMessage := "Keep your elbow level with your shoulder";
         keypoints := [11; 13]%Z |} ]
  /\ feedback
       (onResults (mkRender (Some Samples.lateralRaise) true Left) 5000
          (Some Samples.elbowLowWristHigh) initialSession)
     = glyph_warning ++ " Keep your elbow level with your shoulder"
  /\ feedback
       (onResults (mkRender (Some Samples.lateralRaise) true Left) 5000
          (Some Samples.elbowLowWristHigh) initialSession)
     <> glyph_warning ++ " Keep your arm horizontal, don't lift too high"
  /\ feedback
       (onResults (mkRender (Some Samples.lateralRaise) true Left) 5000
          (Some Samples.elbowLowWristHigh) initialSession)
     <> "Keep your arm horizontal, don't lift too high"
  /\ isCorrectForm
       (onResults (mkRender (Some Samples.lateralRaise) true Left) 5000
          (Some Samples.elbowLowWristHigh) initialSession)
     = Some false.
Proof.
  pose proof degrees_third_bounds as HA.
  assert (Hangle : 60 < 90 - atan (/ 3) * 180 / PI) by lra.
  pose proof (violated_elbowLowWristHigh _ Hangle) as Hv.
  rewrite onResults_elbowLowWristHigh.
  set (s0 := setArmAngle _ initialSession).
  pose proof (analyze_feedback (mkRender (Some Samples.lateralRaise) true Left)
                Samples.lateralRaise Left 5000 (90 - atan (/ 3) * 180 / PI)
                Samples.elbowLowWristHigh s0 eq_refl) as H.
  cbv zeta in H. rewrite runFormChecks_last in H.
  fold (violatedChecks Samples.elbowLowWristHigh Left Samples.lateralRaise
          (90 - atan (/ 3) * 180 / PI)) in H.
  rewrite Hv in H.
  cbn [Samples.lateralRaise formChecks defaultExercise last warningOf
       errorMessage] in H.
  injection H as Hf Hok.
  split; [exact Hv|]. rewrite Hf, Hok.
  repeat split; intros E; discriminate E.
Qed.

Lemma last_violated_check_wins_witness :
  feedback
    (analyzeExerciseForm (mkRender (Some Samples.lateralRaise) true Left)
       5000 70 Samples.elbowLowWristHigh Samples.lateralRaise Left
       initialSession)
  = glyph_warning ++ " Keep your elbow level with your shoulder"
  /\ isCorrectForm
       (analyzeExerciseForm (mkRender (Some Samples.lateralRaise) true Left)
          5000 70 Samples.elbowLowWristHigh Samples.lateralRaise Left
          initialSession)
     = Some false.
Proof.
  refine (proj1 (last_violated_check_wins
            (mkRender (Some Samples.lateralRaise) true Left)
            Samples.lateralRaise Left eq_refl
            5000 70 Samples.elbowLowWristHigh initialSession)
            (mkFormCheck "wrist higher than shoulder"
               "Keep your arm horizontal, don't lift too high" [11; 15]%Z)
            [ mkFormCheck "elbow below shoulder"
                "Keep your elbow level with your shoulder" [11; 13]%Z ] _).
  apply violated_elbowLowWristHigh. lra.
Defined.

(** ** Frames with a missing keypoint *)

Lemma analyzeWithPoints_absent rd currentTime landmarks exercise pts side s :
  landmark_of_point landmarks pts 0 = None
  \/ landmark_of_point landmarks pts 1 = None
  \/ landmark_of_point landmarks pts 2 = None ->
  analyzeWithPoints rd currentTime landmarks exercise pts side s = s.
Proof.
  unfold analyzeWithPoints. intros [H | [H | H]]; rewrite H.
  - reflexivity.
  - destruct (landmark_of_point landmarks pts 0); reflexivity.
  - destruct (landmark_of_point landmarks pts 0),
      (landmark_of_point landmarks pts 1); reflexivity.
Qed.

Lemma runFormChecks_verdict landmarks side moving checks txt :
  exists txt' ok,
    runFormChecks landmarks side moving checks (txt, Some true) = (txt', Some ok).
Proof.
  rewrite runFormChecks_last.
  destruct (filter _ checks); eauto.
Qed.

Lemma analyzeExerciseForm_verdict rd currentTime angle landmarks exercise side s :
  exerciseStarted rd = true ->
  exists ok,
    isCorrectForm
      (analyzeExerciseForm rd currentTime angle landmarks exercise side s)
    = Some ok.
Proof.
  intros started.
  pose proof (analyze_feedback rd exercise side currentTime angle landmarks s
                started) as H.
  cbv zeta in H.
  destruct (runFormChecks_verdict landmarks side (movingAt exercise angle)
              (formChecks exercise)
              (fst (phaseFeedback exercise angle
                      (repCounterRef
                         (analyzeExerciseForm rd currentTime angle landmarks
                            exercise side s)))))
    as (txt' & ok & E).
  rewrite E in H. exists ok. apply (f_equal snd) in H. exact H.
Qed.

(** The frame [armOutLowVisibility] as [onResults] analyses it. *)
Lemma onResults_armOutLowVisibility currentTime s :
  onResults (mkRender (Some Samples.lateralRaise) true Left) currentTime
    (Some Samples.armOutLowVisibility) s
  = analyzeExerciseForm (mkRender (Some Samples.lateralRaise) true Left)
      currentTime 90 Samples.armOutLowVisibility Samples.lateralRaise Left
      (setArmAngle (Math_round 90) s).
Proof.
  unfold onResults.
  change (getExerciseBodyPart
            (exerciseInUse (mkRender (Some Samples.lateralRaise) true Left)))
    with Arms.
  cbv iota.
  rewrite (analyzeArmExercise_present
             (mkRender (Some Samples.lateralRaise) true Left)
             currentTime Samples.armOutLowVisibility s
             (mkLandmark 0.6 0.7 0.9) (mkLandmark 0.6 0.4 0.1)
             (mkLandmark 0.8 0.4 0.9)
             (detectActiveArm_armOut
                (mkRender (Some Samples.lateralRaise) true Left))
             eq_refl eq_refl eq_refl).
  rewrite angle_arm_out. reflexivity.
Qed.

Lemma violated_armOutLowVisibility angle :
  violatedChecks Samples.armOutLowVisibility Left Samples.lateralRaise angle = [].
Proof.
  unfold violatedChecks.
  cbn [Samples.lateralRaise formChecks defaultExercise filter].
  unfold checkViolated. cbv zeta.
  cbn [Resolve.checkKeypoints Resolve.checkKeypoint map keypoints condition pick].
  destruct armOutLowVisibility_at as (-> & -> & -> & _).
  cbn [filter present List.length Nat.leb lm_y].
  change (includes "wrist higher than shoulder" "wrist higher than shoulder")
    with true.
  change (includes "elbow below shoulder" "wrist higher than shoulder")
    with false.
  change (includes "elbow below shoulder" "elbow below shoulder") with true.
  num_decide. destruct (movingAt Samples.lateralRaise angle); reflexivity.
Qed.

Lemma armOutNoShoulder_skipped currentTime s :
  onResults (mkRender (Some Samples.lateralRaise) true Left) currentTime
    (Some Samples.armOutNoShoulder) s = s.
Proof.
  unfold onResults.
  change (getExerciseBodyPart
            (exerciseInUse (mkRender (Some Samples.lateralRaise) true Left)))
    with Arms.
  cbv iota. unfold analyzeArmExercise. cbv zeta.
  apply analyzeWithPoints_absent. right; left. reflexivity.
Qed.

(** C2, as the claim states it, fails twice.  A frame of a started
    exercise in which the vertex of the primary angle is present with
    visibility 0.1 is analysed like any other: here the repetition is
    counted, the peak flag goes up and [formOk] becomes true.  And a
    following frame in which the vertex is absent leaves [formOk] as it
    was, true, and does not make it null. *)
Lemma low_visibility_counterexample :
  option_map visibility (landmark_at Samples.armOutLowVisibility 11) = Some 0.1
  /\ repCount initialSession = 0%nat
  /\ repCount
       (onResults (mkRender (Some Samples.lateralRaise) true Left) 5000
          (Some Samples.armOutLowVisibility) initialSession) = 1%nat
  /\ hasReachedPeakRef
       (onResults (mkRender (Some Samples.lateralRaise) true Left) 5000
          (Some Samples.armOutLowVisibility) initialSession) = true
  /\ isCorrectForm
       (onResults (mkRender (Some Samples.lateralRaise) true Left) 5000
          (Some Samples.armOutLowVisibility) initialSession) = Some true
  /\ landmark_at Samples.armOutNoShoulder 11 = None
  /\ isCorrectForm
       (onResults (mkRender (Some Samples.lateralRaise) true Left) 6000
          (Some Samples.armOutNoShoulder)
          (onResults (mkRender (Some Samples.lateralRaise) true Left) 5000
             (Some Samples.armOutLowVisibility) initialSession)) = Some true.
Proof.
  rewrite armOutNoShoulder_skipped.
  rewrite onResults_armOutLowVisibility.
  set (rd := mkRender (Some Samples.lateralRaise) true Left).
  set (s0 := setArmAngle (Math_round 90) initialSession).
  destruct (analyze_counts rd Samples.lateralRaise Left eq_refl 5000 90
              Samples.armOutLowVisibility s0) as (_ & E2 & E3 & _).
  assert (Hc : countsRep Samples.lateralRaise 5000 90 s0 = true).
  { unfold countsRep, isInOptimalPeak, inRange.
    destruct lateralRaise_kinds as (-> & -> & ->).
    cbn [fst snd targetRanges optimalPeak Samples.lateralRaise defaultExercise].
    num_decide. reflexivity. }
  assert (Hs : isInStartingPosition Samples.lateralRaise 90 = false).
  { unfold isInStartingPosition.
    destruct lateralRaise_kinds as (-> & -> & ->).
    cbn [fst snd targetRanges startingPosition Samples.lateralRaise
         defaultExercise].
    num_decide. reflexivity. }
  rewrite Hc in E2, E3. rewrite Hs in E3.
  pose proof (analyze_feedback rd Samples.lateralRaise Left 5000 90
                Samples.armOutLowVisibility s0 eq_refl) as H.
  cbv zeta in H. rewrite runFormChecks_last in H.
  fold (violatedChecks Samples.armOutLowVisibility Left Samples.lateralRaise 90)
    in H.
  rewrite violated_armOutLowVisibility in H.
  apply (f_equal snd) in H. cbn [snd] in H.
  repeat split; assumption.
Qed.

Lemma detectActiveLeg_none rd landmarks :
  detectActiveLeg rd landmarks = None
  <-> allPresent landmarks [23; 25; 27; 24; 26; 28]%Z = true
      /\ allPresent landmarks [11; 12]%Z = false.
Proof.
  unfold allPresent, detectActiveLeg. cbn [forallb]. cbv zeta.
  destruct (landmark_at landmarks 23), (landmark_at landmarks 25),
    (landmark_at landmarks 27), (landmark_at landmarks 24),
    (landmark_at landmarks 26), (landmark_at landmarks 28),
    (landmark_at landmarks 11), (landmark_at landmarks 12); cbn;
    repeat match goal with
    | |- context [if ?b then _ else _] => destruct b
    end;
    split; intros H; try discriminate H; try (destruct H; discriminate);
    auto.
Qed.

Lemma onResults_on_side rd currentTime landmarks s side :
  detectedSide rd landmarks = Some side ->
  onResults rd currentTime (Some landmarks) s
  = analyzeWithPoints rd currentTime landmarks (exerciseInUse rd)
      (adjustedPointsOn rd side) side s.
Proof.
  unfold detectedSide, adjustedPointsOn, onResults, analyzeLegExercise,
    analyzeArmExercise.
  cbv zeta.
  destruct (getExerciseBodyPart (exerciseInUse rd)); intros H.
  - injection H as <-. reflexivity.
  - rewrite H. reflexivity.
Qed.

(** C2, amended. For every frame in which one of the three keypoints of
    the primary angle, resolved to the side detected for the frame, is
    absent from the landmarks, [onResults] leaves the whole state as it
    was: [repCount], [hasReachedPeak], the detected side, the message
    and [formOk], which keeps its previous value.  The same holds when
    the side detection throws, which happens exactly on the leg route
    when hips, knees and ankles are all in the frame and a shoulder is
    missing, whether or not the three keypoints are present.
    Visibility is not consulted: in every other frame of a started
    exercise in which the three keypoints are present, the frame is
    analysed and [formOk] is true or false. *)
Theorem absent_keypoint_skips_frame
    (rd : Render) (currentTime : Z) (landmarks : Landmarks) (s : Session) :
  (forall side,
     detectedSide rd landmarks = Some side ->
     let pts := adjustedPointsOn rd side in
     (landmark_of_point landmarks pts 0 = None
      \/ landmark_of_point landmarks pts 1 = None
      \/ landmark_of_point landmarks pts 2 = None ->
      onResults rd currentTime (Some landmarks) s = s)
     /\ (exerciseStarted rd = true ->
         landmark_of_point landmarks pts 0 <> None ->
         landmark_of_point landmarks pts 1 <> None ->
         landmark_of_point landmarks pts 2 <> None ->
         exists ok,
           isCorrectForm (onResults rd currentTime (Some landmarks) s)
           = Some ok))
  /\ (detectedSide rd landmarks = None ->
      onResults rd currentTime (Some landmarks) s = s)
  /\ (detectedSide rd landmarks = None
      <-> getExerciseBodyPart (exerciseInUse rd) = Legs
          /\ allPresent landmarks [23; 25; 27; 24; 26; 28]%Z = true
          /\ allPresent landmarks [11; 12]%Z = false).
Proof.
  split; [|split].
  - intros side Hside. cbv zeta.
    rewrite (onResults_on_side rd currentTime landmarks s side Hside). split.
    + apply analyzeWithPoints_absent.
    + intros started H0 H1 H2. unfold analyzeWithPoints.
      destruct (landmark_of_point landmarks _ 0); [|contradiction].
      destruct (landmark_of_point landmarks _ 1); [|contradiction].
      destruct (landmark_of_point landmarks _ 2); [|contradiction].
      apply analyzeExerciseForm_verdict. exact started.
  - unfold detectedSide, onResults, analyzeLegExercise.
    destruct (getExerciseBodyPart (exerciseInUse rd)); [discriminate|].
    intros ->. reflexivity.
  - unfold detectedSide.
    destruct (getExerciseBodyPart (exerciseInUse rd)).
    + split; [discriminate | intros [H _]; discriminate].
    + rewrite detectActiveLeg_none. tauto.
Qed.

Lemma absent_keypoint_skips_frame_witness :
  onResults (mkRender (Some Samples.lateralRaise) true Left) 6000
    (Some Samples.armOutNoShoulder) initialSession = initialSession
  /\ landmark_of_point thighsLevelNoShoulder [23; 25; 27]%Z 0 <> None
  /\ landmark_of_point thighsLevelNoShoulder [23; 25; 27]%Z 1 <> None
  /\ landmark_of_point thighsLevelNoShoulder [23; 25; 27]%Z 2 <> None
  /\ onResults (mkRender (Some Samples.kneeBend) true Left) 6000
       (Some thighsLevelNoShoulder) initialSession = initialSession.
Proof.
  split; [|split; [|split; [|split]]]; try discriminate.
  - apply (proj1 (proj1 (absent_keypoint_skips_frame
                    (mkRender (Some Samples.lateralRaise) true Left) 6000
                    Samples.armOutNoShoulder initialSession)
                    Left eq_refl)).
    right; left. reflexivity.
  - apply (proj1 (proj2 (absent_keypoint_skips_frame
                    (mkRender (Some Samples.kneeBend) true Left) 6000
                    thighsLevelNoShoulder initialSession))).
    reflexivity.
Defined.

(** * Further properties of the code *)

(** ** Geometry of the joint angle *)

Lemma atan2_down y x : x = 0 -> y < 0 -> atan2 y x = - (PI / 2).
Proof.
  intros Hx Hy. unfold atan2.
  destruct (Rlt_dec 0 x); [lra|].
  destruct (Rlt_dec x 0); [lra|].
  destruct (Rlt_dec 0 y); [lra|].
  destruct (Rlt_dec y 0); [reflexivity | lra].
Qed.

(** X1. The joint angle does not depend on the order of the two outer
    points. *)
Theorem calculateAngle_symmetric (a b c : Landmark) :
  calculateAngle a b c = calculateAngle c b a.
Proof.
  unfold calculateAngle. cbv zeta.
  set (u := atan2 (lm_y c - lm_y b) (lm_x c - lm_x b)).
  set (v := atan2 (lm_y a - lm_y b) (lm_x a - lm_x b)).
  replace ((v - u) * 180 / PI) with (- ((u - v) * 180 / PI))
    by (unfold Rdiv; ring).
  rewrite Rabs_Ropp. reflexivity.
Qed.

(** X2. When the two outer points have the same coordinates, the angle
    is 0, wherever the vertex is. *)
Theorem calculateAngle_coincident (a b c : Landmark) :
  lm_x c = lm_x a -> lm_y c = lm_y a ->
  calculateAngle a b c = 0.
Proof.
  intros Hx Hy. apply calculateAngle_eval with (r := 0); [| |lra].
  - rewrite Hx, Hy. lra.
  - replace (0 * 180 / PI) with 0 by (unfold Rdiv; ring). apply Rabs_R0.
Qed.

Lemma calculateAngle_coincident_witness :
  calculateAngle (mkLandmark 0.7 0.4 0.9) (mkLandmark 0.6 0.1 0.9)
    (mkLandmark 0.7 0.4 0.2) = 0.
Proof.
  apply (calculateAngle_coincident (mkLandmark 0.7 0.4 0.9)
           (mkLandmark 0.6 0.1 0.9) (mkLandmark 0.7 0.4 0.2));
    reflexivity.
Defined.

(** X3. When the three points are on a horizontal or on a vertical line
    of the image, with the vertex strictly between the two outer
    points, the angle is 180. *)
Theorem calculateAngle_straight_axis (a b c : Landmark) :
  (lm_y a = lm_y b /\ lm_y c = lm_y b
   /\ (lm_x a < lm_x b < lm_x c \/ lm_x c < lm_x b < lm_x a))
  \/ (lm_x a = lm_x b /\ lm_x c = lm_x b
      /\ (lm_y a < lm_y b < lm_y c \/ lm_y c < lm_y b < lm_y a)) ->
  calculateAngle a b c = 180.
Proof.
  pose proof PI_RGT_0 as HPI.
  assert (Hpos : Rabs (PI * 180 / PI) = 180).
  { replace (PI * 180 / PI) with 180 by (field; lra). apply Rabs_pos_eq. lra. }
  assert (Hneg : Rabs ((0 - PI) * 180 / PI) = 180).
  { replace ((0 - PI) * 180 / PI) with (0 - 180) by (field; lra).
    apply Rabs_eval; [lra | right; lra]. }
  assert (Hzero : forall x, 0 / x = 0) by (intros x; unfold Rdiv; ring).
  intros [(Ya & Yc & [[H1 H2] | [H1 H2]]) | (Xa & Xc & [[H1 H2] | [H1 H2]])].
  - apply calculateAngle_eval with (r := 0 - PI); [|exact Hneg|lra].
    rewrite Ya, Yc.
    replace (lm_y b - lm_y b) with 0 by ring.
    rewrite (atan2_right 0 (lm_x c - lm_x b)) by lra.
    rewrite (atan2_left_up 0 (lm_x a - lm_x b)) by lra.
    rewrite !Hzero, atan_0. lra.
  - apply calculateAngle_eval with (r := PI); [|exact Hpos|lra].
    rewrite Ya, Yc.
    replace (lm_y b - lm_y b) with 0 by ring.
    rewrite (atan2_right 0 (lm_x a - lm_x b)) by lra.
    rewrite (atan2_left_up 0 (lm_x c - lm_x b)) by lra.
    rewrite !Hzero, atan_0. lra.
  - apply calculateAngle_eval with (r := PI); [|exact Hpos|lra].
    rewrite Xa, Xc.
    replace (lm_x b - lm_x b) with 0 by ring.
    rewrite (atan2_up (lm_y c - lm_y b) 0) by lra.
    rewrite (atan2_down (lm_y a - lm_y b) 0) by lra. lra.
  - apply calculateAngle_eval with (r := 0 - PI); [|exact Hneg|lra].
    rewrite Xa, Xc.
    replace (lm_x b - lm_x b) with 0 by ring.
    rewrite (atan2_down (lm_y c - lm_y b) 0) by lra.
    rewrite (atan2_up (lm_y a - lm_y b) 0) by lra. lra.
Qed.

Lemma calculateAngle_straight_axis_witness :
  calculateAngle (mkLandmark 0.6 0.3 0.9) (mkLandmark 0.6 0.6 0.9)
    (mkLandmark 0.6 0.8 0.9) = 180.
Proof.
  apply (calculateAngle_straight_axis (mkLandmark 0.6 0.3 0.9)
           (mkLandmark 0.6 0.6 0.9) (mkLandmark 0.6 0.8 0.9)).
  right. cbn [lm_x lm_y]. split; [reflexivity|]. split; [reflexivity|].
  left. lra.
Defined.

(** ** Frames as [onResults] sees them *)

(** A frame is either skipped or analysed by [analyzeExerciseForm], after
    the side and the angle on display have been set. *)
Lemma analyzeWithPoints_cases rd currentTime landmarks exercise pts side s :
  analyzeWithPoints rd currentTime landmarks exercise pts side s = s
  \/ exists angle s0,
       counterView s0 = counterView s
       /\ repCount s0 = repCount s
       /\ lastStateRef s0 = lastStateRef s
       /\ exerciseState s0 = exerciseState s
       /\ isCorrectForm s0 = isCorrectForm s
       /\ analyzeWithPoints rd currentTime landmarks exercise pts side s
          = analyzeExerciseForm rd currentTime angle landmarks exercise side s0.
Proof.
  unfold analyzeWithPoints.
  destruct (landmark_of_point landmarks pts 0) as [p1|]; [|now left].
  destruct (landmark_of_point landmarks pts 1) as [v|]; [|now left].
  destruct (landmark_of_point landmarks pts 2) as [p2|]; [|now left].
  right. exists (calculateAngle p1 v p2).
  exists (setArmAngle (Math_round (calculateAngle p1 v p2))
            (if negb (Side_eqb side (detectedArm rd))
             then setDetectedArm side s else s)).
  destruct (negb (Side_eqb side (detectedArm rd))); repeat split.
Qed.

Lemma onResults_cases rd currentTime poseLandmarks s :
  onResults rd currentTime poseLandmarks s = s
  \/ exists landmarks angle side s0,
       poseLandmarks = Some landmarks
       /\ counterView s0 = counterView s
       /\ repCount s0 = repCount s
       /\ lastStateRef s0 = lastStateRef s
       /\ exerciseState s0 = exerciseState s
       /\ isCorrectForm s0 = isCorrectForm s
       /\ onResults rd currentTime poseLandmarks s
          = analyzeExerciseForm rd currentTime angle landmarks
              (exerciseInUse rd) side s0.
Proof.
  unfold onResults. destruct poseLandmarks as [landmarks|]; [|now left].
  destruct (getExerciseBodyPart (exerciseInUse rd)).
  - unfold analyzeArmExercise. cbv zeta.
    destruct (analyzeWithPoints_cases rd currentTime landmarks (exerciseInUse rd)
                (Resolve.armPoints
                   (points (primaryAngle (angleCalculations (exerciseInUse rd))))
                   (detectActiveArm rd landmarks))
                (detectActiveArm rd landmarks) s)
      as [E | (angle & s0 & H)]; [now left|].
    right. exists landmarks, angle, (detectActiveArm rd landmarks), s0.
    split; [reflexivity | exact H].
  - unfold analyzeLegExercise. cbv zeta.
    destruct (detectActiveLeg rd landmarks) as [side|]; [|now left].
    destruct (analyzeWithPoints_cases rd currentTime landmarks (exerciseInUse rd)
                (Resolve.legPoints
                   (points (primaryAngle (angleCalculations (exerciseInUse rd))))
                   side) side s)
      as [E | (angle & s0 & H)]; [now left|].
    right. exists landmarks, angle, side, s0.
    split; [reflexivity | exact H].
Qed.

(** One call of [analyzeExerciseForm], started or not, on the counter. *)
Lemma analyze_counter_step rd exercise side currentTime angle landmarks s :
  let s' := analyzeExerciseForm rd currentTime angle landmarks exercise side s in
  (repCounterRef s' = repCounterRef s
   /\ repCount s' = repCount s
   /\ lastRepTimeRef s' = lastRepTimeRef s
   /\ (hasReachedPeakRef s' = true -> hasReachedPeakRef s = true))
  \/ (repCounterRef s' = S (repCounterRef s)
      /\ repCount s' = S (repCounterRef s)
      /\ lastRepTimeRef s' = currentTime
      /\ (1000 < currentTime - lastRepTimeRef s)%Z).
Proof.
  cbv zeta. destruct (exerciseStarted rd) eqn:started.
  - destruct (analyze_counts rd exercise side started currentTime angle landmarks s)
      as (E1 & E2 & E3 & E4).
    destruct (countsRep exercise currentTime angle s) eqn:Hc.
    + right. repeat split; try assumption.
      unfold countsRep in Hc. apply andb_prop in Hc. destruct Hc as [_ Hc].
      apply Z.ltb_lt. exact Hc.
    + left. repeat split; try assumption.
      rewrite E3. destruct (isInStartingPosition exercise angle);
        [discriminate | auto].
  - destruct (not_started_counts_nothing rd exercise side currentTime angle
                landmarks s started) as (E & _).
    unfold counterView in E. injection E as E1 E2 E3.
    left. repeat split; try assumption.
    + unfold analyzeExerciseForm. rewrite started. reflexivity.
    + rewrite E2. auto.
Qed.

(** The same for a frame of [onResults]. *)
Lemma onResults_counter_step rd currentTime poseLandmarks s :
  let s' := onResults rd currentTime poseLandmarks s in
  (repCounterRef s' = repCounterRef s
   /\ repCount s' = repCount s
   /\ lastRepTimeRef s' = lastRepTimeRef s
   /\ (hasReachedPeakRef s' = true -> hasReachedPeakRef s = true))
  \/ (repCounterRef s' = S (repCounterRef s)
      /\ repCount s' = S (repCounterRef s)
      /\ lastRepTimeRef s' = currentTime
      /\ (1000 < currentTime - lastRepTimeRef s)%Z).
Proof.
  cbv zeta.
  destruct (onResults_cases rd currentTime poseLandmarks s)
    as [E | (landmarks & angle & side & s0 & _ & Hv & Hc & _ & _ & _ & E)].
  - rewrite E. left. auto.
  - rewrite E. unfold counterView in Hv. injection Hv as V1 V2 V3.
    destruct (analyze_counter_step rd (exerciseInUse rd) side currentTime angle
                landmarks s0) as [H | H]; cbv zeta in H;
      rewrite ?V1, ?V2, ?V3, ?Hc in H; [left | right]; exact H.
Qed.

(** X4. Whatever the exercise, the frames and the times, and whether the
    exercise is started or not, a run of frames never lowers the count
    and raises it by at most one per frame. *)
Theorem runFrames_count_monotone (rd : Render) (frames : list (Z * Landmarks))
    (s : Session) :
  (repCounterRef s <= repCounterRef (runFrames rd frames s)
   <= repCounterRef s + List.length frames)%nat.
Proof.
  revert s. induction frames as [|[t l] rest IH]; intros s; cbn [runFrames List.length].
  - lia.
  - specialize (IH (onResults rd t (Some l) s)).
    destruct (onResults_counter_step rd t (Some l) s) as [(E & _) | (E & _)];
      cbv zeta in E; lia.
Qed.

(** X5. The debounce holds for every exercise: in a run of frames whose
    times do not exceed [T], the repetitions counted are more than 1000
    ms apart, so that 1001 times their number is at most [T] minus the
    time of the last repetition before the run. *)
Theorem runFrames_debounce (rd : Render) (frames : list (Z * Landmarks))
    (s : Session) (T : Z) :
  Forall (fun f => (fst f <= T)%Z) frames ->
  (lastRepTimeRef s <= T)%Z ->
  (1001 * Z.of_nat (repCounterRef (runFrames rd frames s) - repCounterRef s)
   <= T - lastRepTimeRef s)%Z.
Proof.
  revert s. induction frames as [|[t l] rest IH]; intros s Hall Hlast;
    cbn [runFrames].
  - rewrite Nat.sub_diag. cbn. lia.
  - inversion Hall as [|f fs Ht Hrest]; subst. cbn [fst] in Ht.
    pose proof (runFrames_count_monotone rd rest (onResults rd t (Some l) s))
      as Hmono.
    destruct (onResults_counter_step rd t (Some l) s)
      as [(E1 & _ & E3 & _) | (E1 & _ & E3 & Hgap)]; cbv zeta in E1, E3.
    + specialize (IH (onResults rd t (Some l) s) Hrest).
      rewrite E1, E3 in IH. rewrite E1 in Hmono. apply IH. exact Hlast.
    + specialize (IH (onResults rd t (Some l) s) Hrest).
      rewrite E1, E3 in IH. rewrite E1 in Hmono.
      specialize (IH Ht). lia.
Qed.

Lemma runFrames_debounce_witness :
  (1001 * Z.of_nat
            (repCounterRef
               (runFrames (mkRender (Some Samples.lateralRaise) true Left)
                  [ (5000%Z, Samples.armOutLowVisibility);
                    (5400%Z, Samples.armOutLowVisibility) ] initialSession)
             - repCounterRef initialSession)
   <= 5400 - lastRepTimeRef initialSession)%Z.
Proof.
  apply (runFrames_debounce (mkRender (Some Samples.lateralRaise) true Left)
           [ (5000%Z, Samples.armOutLowVisibility);
             (5400%Z, Samples.armOutLowVisibility) ] initialSession 5400).
  - repeat constructor; cbn; lia.
  - cbn. lia.
Defined.

(** ** States of the component *)

Lemma actionVerbGerund_values exercise :
  In (actionVerbGerund exercise) [ "lifting"; "curling"; "squatting"; "lunging" ].
Proof.
  unfold actionVerbGerund.
  destruct (isLegExercise exercise), (isSquat exercise), (isLunge exercise),
    (isCurlingExercise exercise); cbn; auto.
Qed.

Lemma phaseFeedback_state_values exercise angle reps :
  snd (phaseFeedback exercise angle reps) = "ready"
  \/ snd (phaseFeedback exercise angle reps) = actionVerbGerund exercise.
Proof.
  unfold phaseFeedback. cbv zeta.
  repeat match goal with
  | |- context [if ?b then _ else _] => destruct b; cbn [snd]; auto
  end.
Qed.

Lemma phaseFeedback_state_in exercise angle reps :
  In (snd (phaseFeedback exercise angle reps)) exerciseStates.
Proof.
  destruct (phaseFeedback_state_values exercise angle reps) as [-> | ->].
  - cbn. auto.
  - right. apply actionVerbGerund_values.
Qed.

(** What an analysed frame leaves in [lastStateRef] and [exerciseState]. *)
Lemma analyze_states rd exercise side currentTime angle landmarks s :
  exerciseStarted rd = true ->
  let s' := analyzeExerciseForm rd currentTime angle landmarks exercise side s in
  let st := snd (phaseFeedback exercise angle 0) in
  lastStateRef s' = st
  /\ exerciseState s'
     = (if String.eqb st (lastStateRef s) then exerciseState s else st).
Proof.
  intros started. cbv zeta. unfold analyzeExerciseForm. rewrite started.
  cbn [negb]. set (c := rearm _ _).
  assert (Hl : lastStateRef c = lastStateRef s).
  { subst c. unfold rearm, countRep.
    repeat match goal with
    | |- context [if ?b then _ else _] => destruct b
    end; reflexivity. }
  assert (He : exerciseState c = exerciseState s).
  { subst c. unfold rearm, countRep.
    repeat match goal with
    | |- context [if ?b then _ else _] => destruct b
    end; reflexivity. }
  rewrite (phaseFeedback_state_any_reps exercise angle 0 (repCounterRef c)).
  destruct (phaseFeedback exercise angle (repCounterRef c)) as [txt st].
  destruct (runFormChecks _ _ _ _ _) as [txt' ok]. cbn [snd].
  rewrite <- Hl, <- He.
  destruct (String.eqb st (lastStateRef c)) eqn:E; cbn.
  - apply String.eqb_eq in E. auto.
  - auto.
Qed.

Lemma analyze_states_any rd exercise side currentTime angle landmarks s :
  let s' := analyzeExerciseForm rd currentTime angle landmarks exercise side s in
  (lastStateRef s' = lastStateRef s /\ exerciseState s' = exerciseState s)
  \/ (In (lastStateRef s') exerciseStates
      /\ (exerciseState s' = exerciseState s
          \/ exerciseState s' = lastStateRef s')).
Proof.
  cbv zeta. destruct (exerciseStarted rd) eqn:started.
  - right.
    destruct (analyze_states rd exercise side currentTime angle landmarks s started)
      as (E1 & E2).
    rewrite E1, E2. split; [apply phaseFeedback_state_in|].
    destruct (String.eqb _ _); auto.
  - left. unfold analyzeExerciseForm. rewrite started. auto.
Qed.

(** X6. In every state that the component can reach (mounting, set-up
    of the effect, frames, presses of the start button, loading of
    exercises, return to the built-in exercise, in any order) the count
    on display equals the counter, the peak flag is up only when at
    least one repetition has been counted, and the state on display and
    the last state are among ready, lifting, curling, squatting and
    lunging. *)
Theorem reachable_invariants (rd : Render) (s : Session) :
  Reachable rd s ->
  repCount s = repCounterRef s
  /\ (hasReachedPeakRef s = true -> (1 <= repCounterRef s)%nat)
  /\ In (lastStateRef s) exerciseStates
  /\ In (exerciseState s) exerciseStates.
Proof.
  induction 1 as [ | rd s message _ (I1 & I2 & I3 & I4) _
                   | rd s t lms _ (I1 & I2 & I3 & I4)
                   | rd s _ (I1 & I2 & I3 & I4)
                   | rd s e _ (I1 & I2 & I3 & I4)
                   | rd s _ (I1 & I2 & I3 & I4) _ ].
  - cbn. repeat split; auto. discriminate.
  - cbn. repeat split; auto.
  - assert (Hst : In (lastStateRef (onResults rd t lms s)) exerciseStates
                  /\ In (exerciseState (onResults rd t lms s)) exerciseStates).
    { destruct (onResults_cases rd t lms s)
        as [E | (l & a & side & s0 & _ & _ & _ & Hl & He & _ & E)].
      - rewrite E. auto.
      - rewrite E.
        destruct (analyze_states_any rd (exerciseInUse rd) side t a l s0)
          as [(E1 & E2) | (E1 & [E2 | E2])]; cbv zeta in *.
        + rewrite E1, E2, Hl, He. auto.
        + rewrite E2, He. auto.
        + rewrite E2. auto. }
    destruct (onResults_counter_step rd t lms s)
      as [(E1 & E2 & _ & E4) | (E1 & E2 & _ & _)]; cbv zeta in *.
    + rewrite E1, E2. destruct Hst. repeat split; auto.
    + rewrite E1, E2. destruct Hst. repeat split; auto. intros _. lia.
  - unfold handleStartExercise. cbn [fst snd].
    destruct (negb (exerciseStarted rd)); cbn; repeat split; auto; try discriminate.
  - unfold handleExerciseGenerated. cbn. repeat split; auto. discriminate.
  - unfold handleUseDefaultExercise. cbn. repeat split; auto. discriminate.
Qed.

Lemma reachable_invariants_witness :
  let rd := mkRender (Some Samples.lateralRaise) true Left in
  let s :=
    onResults rd 5000 (Some Samples.armOutLowVisibility)
      (snd (handleStartExercise (mkRender (Some Samples.lateralRaise) false Left)
              (snd (handleExerciseGenerated Samples.lateralRaise
                      (mkRender None false Left)
                      (setFeedback "Position yourself in front of the camera"
                         initialSession))))) in
  Reachable rd s
  /\ repCounterRef s = 1%nat
  /\ repCount s = repCounterRef s
  /\ (hasReachedPeakRef s = true -> (1 <= repCounterRef s)%nat)
  /\ In (lastStateRef s) exerciseStates
  /\ In (exerciseState s) exerciseStates.
Proof.
  intros rd s.
  assert (R : Reachable rd s).
  { exact (reach_frame _ _ 5000 (Some Samples.armOutLowVisibility)
             (reach_start _ _
                (reach_load _ _ Samples.lateralRaise
                   (reach_setup _ _ "Position yourself in front of the camera"
                      reach_mount ltac:(cbn; auto))))). }
  split; [exact R|]. split.
  - subst s rd. rewrite onResults_armOutLowVisibility.
    match goal with
    | |- repCounterRef (analyzeExerciseForm ?rd ?t ?a ?l ?e ?side ?s0) = _ =>
        destruct (analyze_counts rd e side eq_refl t a l s0) as (E1 & _)
    end.
    rewrite E1.
    unfold countsRep, isInOptimalPeak, inRange.
    destruct lateralRaise_kinds as (-> & -> & ->).
    cbn [fst snd targetRanges optimalPeak Samples.lateralRaise defaultExercise].
    num_decide. reflexivity.
  - exact (reachable_invariants rd s R).
Defined.

(** X7. While the exercise is stopped, frames change neither the
    counter, nor the count on display, nor the states; [formOk] stays or
    becomes null. *)
Theorem stopped_frames_change_nothing (rd : Render)
    (frames : list (Z * Landmarks)) (s : Session) :
  exerciseStarted rd = false ->
  let s' := runFrames rd frames s in
  counterView s' = counterView s
  /\ repCount s' = repCount s
  /\ lastStateRef s' = lastStateRef s
  /\ exerciseState s' = exerciseState s
  /\ (isCorrectForm s' = isCorrectForm s \/ isCorrectForm s' = None).
Proof.
  intros stopped. cbv zeta. revert s.
  induction frames as [|[t l] rest IH]; intros s; cbn [runFrames].
  - repeat split; auto.
  - destruct (IH (onResults rd t (Some l) s)) as (J1 & J2 & J3 & J4 & J5).
    rewrite J1, J2, J3, J4.
    destruct (onResults_cases rd t (Some l) s)
      as [E | (l' & a & side & s0 & _ & Hv & Hc & Hl & He & Hf & E)].
    + rewrite E in *. repeat split; auto.
    + assert (F : isCorrectForm (onResults rd t (Some l) s) = None).
      { rewrite E. unfold analyzeExerciseForm. rewrite stopped. reflexivity. }
      assert (G : isCorrectForm (runFrames rd rest (onResults rd t (Some l) s))
                  = None)
        by (destruct J5 as [J5 | J5]; congruence).
      split; [|split; [|split; [|split; [|right; exact G]]]];
        rewrite E; unfold analyzeExerciseForm; rewrite stopped; cbn [negb];
        assumption.
Qed.

Lemma stopped_frames_change_nothing_witness :
  repCount
    (runFrames (mkRender None false Left)
       [ (5000%Z, Samples.armOutLowVisibility) ] initialSession)
  = repCount initialSession.
Proof.
  apply (stopped_frames_change_nothing (mkRender None false Left)
           [ (5000%Z, Samples.armOutLowVisibility) ] initialSession eq_refl).
Defined.

(** X8. A start resets [lastStateRef] to ready but not the state on
    display; and frames that resolve to ready while [lastStateRef] is
    ready do not set it.  So after a (re)start the state on display stays
    what it was before for as long as the frames resolve to ready. *)
Theorem restart_keeps_displayed_state
    (rd0 : Render) (s0 : Session) (exercise : ExerciseData) (side : Side)
    (frames : list (Z * R * Landmarks)) :
  exerciseStarted rd0 = false ->
  Forall (fun f => snd (phaseFeedback exercise (angleOf f) 0) = "ready") frames ->
  let rd := rerunEffect (fst (handleStartExercise rd0 s0))
              (snd (handleStartExercise rd0 s0)) in
  let s := snd (handleStartExercise rd0 s0) in
  exerciseStarted rd = true
  /\ lastStateRef s = "ready"
  /\ exerciseState (analyzeAngles rd exercise side frames s) = exerciseState s0.
Proof.
  intros stopped Hall. cbv zeta.
  unfold handleStartExercise. rewrite stopped. cbn [negb fst snd].
  set (rd := rerunEffect _ _). set (s := setFeedback _ _).
  assert (started : exerciseStarted rd = true) by reflexivity.
  split; [exact started|]. split; [reflexivity|].
  change (exerciseState s0) with (exerciseState s).
  assert (Hl : lastStateRef s = "ready") by reflexivity.
  clearbody s rd. revert s Hl.
  induction frames as [|[[t a] l] rest IH]; intros s Hl; [reflexivity|].
  inversion Hall as [|f fs Hf Hrest]; subst.
  unfold angleOf in Hf; cbn [fst snd] in Hf.
  cbn [analyzeAngles].
  destruct (analyze_states rd exercise side t a l s started) as (E1 & E2).
  rewrite Hf in E1, E2. rewrite Hl in E2. cbn in E2.
  rewrite (IH Hrest _ E1). exact E2.
Qed.

Lemma restart_keeps_displayed_state_witness :
  exerciseState
    (analyzeAngles
       (rerunEffect
          (fst (handleStartExercise (mkRender None false Left)
                  (setExerciseState "lifting" initialSession)))
          (snd (handleStartExercise (mkRender None false Left)
                  (setExerciseState "lifting" initialSession))))
       defaultExercise Left [ (5000%Z, 50, []) ]
       (snd (handleStartExercise (mkRender None false Left)
               (setExerciseState "lifting" initialSession))))
  = "lifting".
Proof.
  apply (restart_keeps_displayed_state (mkRender None false Left)
           (setExerciseState "lifting" initialSession) defaultExercise Left
           [ (5000%Z, 50, []) ] eq_refl).
  repeat constructor. unfold angleOf; cbn [fst snd]. apply default_ready_at_50.
Defined.

(** ** The two detectors *)

Lemma allPresent_cons landmarks i rest :
  allPresent landmarks (i :: rest) = true ->
  (exists p, landmark_at landmarks i = Some p) /\ allPresent landmarks rest = true.
Proof.
  unfold allPresent. cbn [forallb]. intros H. apply andb_prop in H.
  destruct H as [H1 H2]. split; [|exact H2].
  destruct (landmark_at landmarks i) as [p|]; [eauto | discriminate].
Qed.

Lemma armScores_none landmarks :
  armScores landmarks = None
  <-> allPresent landmarks [11; 13; 15; 12; 14; 16]%Z = false.
Proof.
  unfold armScores, allPresent. cbn [forallb].
  destruct (landmark_at landmarks 11), (landmark_at landmarks 13),
    (landmark_at landmarks 15), (landmark_at landmarks 12),
    (landmark_at landmarks 14), (landmark_at landmarks 16); cbn;
    split; intros H; try reflexivity; discriminate H.
Qed.

(** [detectActiveLeg] through the two scores. *)
Lemma detectActiveLeg_scores rd landmarks l r :
  legScores landmarks = Some (l, r) ->
  detectActiveLeg rd landmarks
  = Some (if num_gt r (l * (1 + 0.3)) then Right
          else if num_gt l (r * (1 + 0.3)) then Left
          else detectedArm rd).
Proof.
  unfold legScores, detectActiveLeg, legScore.
  destruct (landmark_at landmarks 23), (landmark_at landmarks 25),
    (landmark_at landmarks 27), (landmark_at landmarks 24),
    (landmark_at landmarks 26), (landmark_at landmarks 28),
    (landmark_at landmarks 11), (landmark_at landmarks 12);
    try discriminate.
  intros H. injection H as <- <-. cbv zeta.
  repeat match goal with
  | |- context [if ?b then _ else _] => destruct b
  end; reflexivity.
Qed.

(** X9. A detector keeps the side it was set up with whenever one of the
    six landmarks it compares is missing from the frame: the arm
    detector for shoulders, elbows and wrists, the leg detector for hips,
    knees and ankles. *)
Theorem detectors_keep_side_without_landmarks
    (rd : Render) (landmarks : Landmarks) :
  (allPresent landmarks [11; 13; 15; 12; 14; 16]%Z = false ->
   detectActiveArm rd landmarks = detectedArm rd)
  /\ (allPresent landmarks [23; 25; 27; 24; 26; 28]%Z = false ->
      detectActiveLeg rd landmarks = Some (detectedArm rd)).
Proof.
  split.
  - intros H. apply armScores_none in H. unfold detectActiveArm.
    rewrite H. reflexivity.
  - unfold allPresent, detectActiveLeg. cbn [forallb].
    destruct (landmark_at landmarks 23), (landmark_at landmarks 25),
      (landmark_at landmarks 27), (landmark_at landmarks 24),
      (landmark_at landmarks 26), (landmark_at landmarks 28); cbn;
      intros H; try reflexivity; discriminate H.
Qed.

Lemma detectors_keep_side_without_landmarks_witness :
  detectActiveArm (mkRender None true Right) Samples.armOutNoShoulder = Right.
Proof.
  apply (proj1 (detectors_keep_side_without_landmarks
                  (mkRender None true Right) Samples.armOutNoShoulder)).
  reflexivity.
Defined.

(** X10. The leg detector fails exactly when hips, knees and ankles are
    all in the frame and a shoulder is missing; [onResults] then leaves
    the state of a leg-routed exercise as it was. *)
Theorem detectActiveLeg_fails_without_shoulder
    (rd : Render) (landmarks : Landmarks) :
  (detectActiveLeg rd landmarks = None
   <-> allPresent landmarks [23; 25; 27; 24; 26; 28]%Z = true
       /\ allPresent landmarks [11; 12]%Z = false)
  /\ (detectActiveLeg rd landmarks = None ->
      getExerciseBodyPart (exerciseInUse rd) = Legs ->
      forall currentTime s,
        onResults rd currentTime (Some landmarks) s = s).
Proof.
  split.
  - unfold allPresent, detectActiveLeg. cbn [forallb]. cbv zeta.
    destruct (landmark_at landmarks 23), (landmark_at landmarks 25),
      (landmark_at landmarks 27), (landmark_at landmarks 24),
      (landmark_at landmarks 26), (landmark_at landmarks 28),
      (landmark_at landmarks 11), (landmark_at landmarks 12); cbn;
      repeat match goal with
      | |- context [if ?b then _ else _] => destruct b
      end;
      split; intros H; try discriminate H; try (destruct H; discriminate);
      auto.
  - intros Hnone Hlegs t s. unfold onResults. rewrite Hlegs.
    unfold analyzeLegExercise. rewrite Hnone. reflexivity.
Qed.

(** X11. With both leg scores positive the leg detector has the
    hysteresis of its comments: it keeps the side it was set up with when
    neither score exceeds 1.3 times the other, and otherwise returns the
    side of the larger score. *)
Theorem detectActiveLeg_positive_scores
    (rd : Render) (landmarks : Landmarks) (l r : R) :
  legScores landmarks = Some (l, r) -> 0 < l -> 0 < r ->
  (r <= 1.3 * l -> l <= 1.3 * r ->
   detectActiveLeg rd landmarks = Some (detectedArm rd))
  /\ (r > 1.3 * l -> detectActiveLeg rd landmarks = Some Right /\ r > l)
  /\ (l > 1.3 * r -> detectActiveLeg rd landmarks = Some Left /\ l > r).
Proof.
  intros Hs Hl Hr. rewrite (detectActiveLeg_scores rd landmarks l r Hs).
  repeat split.
  - intros H1 H2.
    replace (num_gt r (l * (1 + 0.3))) with false
      by (symmetry; apply num_gt_false; lra).
    replace (num_gt l (r * (1 + 0.3))) with false
      by (symmetry; apply num_gt_false; lra).
    reflexivity.
  - replace (num_gt r (l * (1 + 0.3))) with true
      by (symmetry; apply num_gt_true; lra).
    reflexivity.
  - lra.
  - replace (num_gt r (l * (1 + 0.3))) with false
      by (symmetry; apply num_gt_false; lra).
    replace (num_gt l (r * (1 + 0.3))) with true
      by (symmetry; apply num_gt_true; lra).
    reflexivity.
  - lra.
Qed.

(** X12. With a negative left score the leg detector returns the right
    leg whenever the right score is not below the left one, equal scores
    included, whatever side it was set up with. *)
Theorem detectActiveLeg_negative_scores
    (rd : Render) (landmarks : Landmarks) (l r : R) :
  legScores landmarks = Some (l, r) -> l < 0 -> l <= r ->
  detectActiveLeg rd landmarks = Some Right.
Proof.
  intros Hs Hl Hr. rewrite (detectActiveLeg_scores rd landmarks l r Hs).
  replace (num_gt r (l * (1 + 0.3))) with true
    by (symmetry; apply num_gt_true; lra).
  reflexivity.
Qed.

Lemma angle_leg_straight x :
  calculateAngle (mkLandmark x 0.3 0.9) (mkLandmark x 0.6 0.9)
    (mkLandmark x 0.8 0.9) = 180.
Proof.
  pose proof PI_RGT_0 as HPI.
  apply calculateAngle_eval with (r := PI); [| |lra].
  - cbn [lm_x lm_y]. rewrite atan2_up by lra. rewrite atan2_down by lra. lra.
  - replace (PI * 180 / PI) with 180 by (field; lra). apply Rabs_pos_eq. lra.
Qed.

Lemma legScores_standingStill :
  legScores standingStill = Some (-0.7, -0.7).
Proof.
  unfold legScores.
  change (landmark_at standingStill 23) with (Some (mkLandmark 0.6 0.6 0.9)).
  change (landmark_at standingStill 25) with (Some (mkLandmark 0.6 0.8 0.9)).
  change (landmark_at standingStill 27) with (Some (mkLandmark 0.6 0.95 0.9)).
  change (landmark_at standingStill 24) with (Some (mkLandmark 0.4 0.6 0.9)).
  change (landmark_at standingStill 26) with (Some (mkLandmark 0.4 0.8 0.9)).
  change (landmark_at standingStill 28) with (Some (mkLandmark 0.4 0.95 0.9)).
  change (landmark_at standingStill 11) with (Some (mkLandmark 0.6 0.3 0.9)).
  change (landmark_at standingStill 12) with (Some (mkLandmark 0.4 0.3 0.9)).
  unfold legScore. rewrite !angle_leg_straight. cbn [lm_x lm_y].
  rewrite (Rabs_eval (0.6 - 0.6) 0) by lra.
  rewrite (Rabs_eval (0.4 - 0.4) 0) by lra.
  rewrite (Rabs_eval (180 - 180) 0) by lra.
  f_equal. f_equal; lra.
Qed.

Lemma detectActiveLeg_negative_scores_witness :
  detectActiveLeg (mkRender None true Left) standingStill = Some Right.
Proof.
  apply (detectActiveLeg_negative_scores (mkRender None true Left)
           standingStill (-0.7) (-0.7) legScores_standingStill); lra.
Defined.

Lemma angle_thigh_level_left :
  calculateAngle (mkLandmark 0.6 0.3 0.9) (mkLandmark 0.6 0.6 0.9)
    (mkLandmark 0.8 0.6 0.9) = 90.
Proof.
  pose proof PI_RGT_0 as HPI.
  apply calculateAngle_eval with (r := PI / 2); [| |lra].
  - cbn [lm_x lm_y]. rewrite atan2_right by lra. rewrite atan2_down by lra.
    replace ((0.6 - 0.6) / (0.8 - 0.6)) with 0 by lra. rewrite atan_0. lra.
  - replace (PI / 2 * 180 / PI) with 90 by (field; lra). apply Rabs_pos_eq. lra.
Qed.

Lemma angle_thigh_level_right :
  calculateAngle (mkLandmark 0.4 0.3 0.9) (mkLandmark 0.4 0.6 0.9)
    (mkLandmark 0.2 0.6 0.9) = 90.
Proof.
  pose proof PI_RGT_0 as HPI.
  unfold calculateAngle. cbv zeta. cbn [lm_x lm_y].
  rewrite atan2_left_up by lra. rewrite atan2_down by lra.
  replace ((0.6 - 0.6) / (0.2 - 0.4)) with 0 by lra. rewrite atan_0.
  replace ((0 + PI - - (PI / 2)) * 180 / PI) with 270 by (field; lra).
  rewrite (Rabs_eval 270 270) by lra.
  replace (num_gt 270 180) with true by (symmetry; apply num_gt_true; lra).
  lra.
Qed.

Lemma legScores_thighsLevel :
  legScores thighsLevel = Some (89.8, 89.8).
Proof.
  unfold legScores.
  change (landmark_at thighsLevel 23) with (Some (mkLandmark 0.6 0.6 0.9)).
  change (landmark_at thighsLevel 25) with (Some (mkLandmark 0.8 0.6 0.9)).
  change (landmark_at thighsLevel 27) with (Some (mkLandmark 0.8 0.8 0.9)).
  change (landmark_at thighsLevel 24) with (Some (mkLandmark 0.4 0.6 0.9)).
  change (landmark_at thighsLevel 26) with (Some (mkLandmark 0.2 0.6 0.9)).
  change (landmark_at thighsLevel 28) with (Some (mkLandmark 0.2 0.8 0.9)).
  change (landmark_at thighsLevel 11) with (Some (mkLandmark 0.6 0.3 0.9)).
  change (landmark_at thighsLevel 12) with (Some (mkLandmark 0.4 0.3 0.9)).
  unfold legScore. rewrite angle_thigh_level_left, angle_thigh_level_right.
  cbn [lm_x lm_y].
  rewrite (Rabs_eval (0.8 - 0.6) 0.2) by lra.
  rewrite (Rabs_eval (0.8 - 0.8) 0) by lra.
  rewrite (Rabs_eval (0.2 - 0.4) 0.2) by lra.
  rewrite (Rabs_eval (0.2 - 0.2) 0) by lra.
  rewrite (Rabs_eval (90 - 180) 90) by lra.
  f_equal. f_equal; lra.
Qed.

Lemma detectActiveLeg_positive_scores_witness :
  detectActiveLeg (mkRender None true Left) thighsLevel = Some Left.
Proof.
  apply (proj1 (detectActiveLeg_positive_scores (mkRender None true Left)
                  thighsLevel 89.8 89.8 legScores_thighsLevel
                  ltac:(lra) ltac:(lra))); lra.
Defined.

Lemma armScores_armOut :
  armScores Samples.armOutLowVisibility = Some (70.7, 19.1).
Proof.
  unfold armScores.
  destruct armOutLowVisibility_at as (-> & -> & -> & -> & -> & -> & -> & ->).
  cbn [orElse]. rewrite score_arm_out, score_arm_hanging. reflexivity.
Qed.

(** X13. With a positive average of the two arm scores the arm detector
    has the hysteresis of its comments: it keeps the side it was set up
    with when the scores differ by at most 15 percent of their average,
    and otherwise returns the side of the larger score. *)
Theorem detectActiveArm_positive_scores
    (rd : Render) (landmarks : Landmarks) (l r : R) :
  armScores landmarks = Some (l, r) -> 0 < (l + r) / 2 ->
  (Rabs (l - r) / ((l + r) / 2) <= 0.15 ->
   detectActiveArm rd landmarks = detectedArm rd)
  /\ (Rabs (l - r) / ((l + r) / 2) > 0.15 -> r > l ->
      detectActiveArm rd landmarks = Right)
  /\ (Rabs (l - r) / ((l + r) / 2) > 0.15 -> l > r ->
      detectActiveArm rd landmarks = Left).
Proof.
  intros Hs Havg. unfold detectActiveArm. rewrite Hs.
  unfold chooseArm, switchThreshold. cbv zeta.
  set (avg := (l + r) / 2) in *. set (d := Rabs (l - r)) in *.
  assert (Eq : d = d / avg * avg) by (field; lra).
  repeat split.
  - intros H.
    replace (num_gt d (avg * 0.15)) with false
      by (symmetry; apply num_gt_false; nra).
    reflexivity.
  - intros H Hlr.
    replace (num_gt d (avg * 0.15)) with true
      by (symmetry; apply num_gt_true; nra).
    replace (num_gt r l) with true by (symmetry; apply num_gt_true; lra).
    reflexivity.
  - intros H Hlr.
    replace (num_gt d (avg * 0.15)) with true
      by (symmetry; apply num_gt_true; nra).
    replace (num_gt r l) with false by (symmetry; apply num_gt_false; lra).
    reflexivity.
Qed.

Lemma detectActiveArm_positive_scores_witness :
  detectActiveArm (mkRender None true Right) Samples.armOutLowVisibility = Left.
Proof.
  assert (Hd : Rabs (70.7 - 19.1) = 51.6) by (apply Rabs_eval; lra).
  apply (proj2 (proj2 (detectActiveArm_positive_scores
                         (mkRender None true Right) Samples.armOutLowVisibility
                         70.7 19.1 armScores_armOut ltac:(lra)))).
  - rewrite Hd. lra.
  - lra.
Defined.

(** ** The side on display and the side analysed *)

Lemma analyzeExerciseForm_keeps_side rd currentTime angle landmarks exercise side s :
  detectedArmState
    (analyzeExerciseForm rd currentTime angle landmarks exercise side s)
  = detectedArmState s.
Proof.
  unfold analyzeExerciseForm, rearm, countRep.
  destruct (negb (exerciseStarted rd)); [reflexivity|].
  cbv zeta.
  repeat match goal with
  | |- context [let '(_, _) := ?p in _] => destruct p
  | |- context [if ?b then _ else _] => destruct b
  end; reflexivity.
Qed.

(** X14. The effect is not set up again when the detected side changes,
    so the detector of a frame compares against the side of the set-up,
    not against the side on display.  When the three points are in the
    frame, the side on display becomes the detected side if that differs
    from the side of the set-up and is left alone otherwise, even when it
    shows the other side; the frame is analysed on the detected side. *)
Theorem displayed_side_follows_setup_side
    (rd : Render) (currentTime : Z) (landmarks : Landmarks) (s : Session)
    (point1 vertex point2 : Landmark) :
  let detectedArmLocal := detectActiveArm rd landmarks in
  let pts := Resolve.armPoints
               (points (primaryAngle (angleCalculations (exerciseInUse rd))))
               detectedArmLocal in
  landmark_of_point landmarks pts 0 = Some point1 ->
  landmark_of_point landmarks pts 1 = Some vertex ->
  landmark_of_point landmarks pts 2 = Some point2 ->
  detectedArmState (analyzeArmExercise rd currentTime landmarks s)
  = (if Side_eqb detectedArmLocal (detectedArm rd)
     then detectedArmState s else detectedArmLocal)
  /\ exists s0,
       analyzeArmExercise rd currentTime landmarks s
       = analyzeExerciseForm rd currentTime
           (calculateAngle point1 vertex point2) landmarks (exerciseInUse rd)
           detectedArmLocal s0.
Proof.
  cbv zeta. intros H0 H1 H2.
  unfold analyzeArmExercise, analyzeWithPoints. cbv zeta.
  rewrite H0, H1, H2. split.
  - rewrite analyzeExerciseForm_keeps_side.
    destruct (Side_eqb (detectActiveArm rd landmarks) (detectedArm rd));
      reflexivity.
  - eexists. reflexivity.
Qed.

Lemma displayed_side_follows_setup_side_witness :
  detectActiveArm (mkRender (Some Samples.lateralRaise) true Left)
    Samples.armOutLowVisibility = Left
  /\ detectedArmState
       (analyzeArmExercise (mkRender (Some Samples.lateralRaise) true Left) 5000
          Samples.armOutLowVisibility (setDetectedArm Right initialSession))
     = Right.
Proof.
  assert (E : detectActiveArm (mkRender (Some Samples.lateralRaise) true Left)
                Samples.armOutLowVisibility = Left)
    by apply detectActiveArm_armOut.
  split; [exact E|].
  pose proof (proj1 (displayed_side_follows_setup_side
                (mkRender (Some Samples.lateralRaise) true Left) 5000
                Samples.armOutLowVisibility (setDetectedArm Right initialSession)
                (mkLandmark 0.6 0.7 0.9) (mkLandmark 0.6 0.4 0.1)
                (mkLandmark 0.8 0.4 0.9)
                ltac:(rewrite E; reflexivity) ltac:(rewrite E; reflexivity)
                ltac:(rewrite E; reflexivity))) as H.
  rewrite E in H. exact H.
Defined.

(** ** The leg route *)

Lemma legPoint_leftToRight idx :
  idx <> 13%Z -> idx <> 15%Z -> Resolve.legPoint idx = Resolve.leftToRight idx.
Proof.
  intros H13 H15. unfold Resolve.legPoint, Resolve.leftToRight. cbn [existsb].
  repeat match goal with
  | |- context [(idx =? ?k)%Z] =>
      destruct (Z.eqb_spec idx k); [subst; first [reflexivity | contradiction]|]
  end.
  reflexivity.
Qed.

Lemma legPoint_cases idx :
  Resolve.legPoint idx
  = (if (idx =? 13)%Z || (idx =? 15)%Z then idx else Resolve.leftToRight idx).
Proof.
  destruct (Z.eqb_spec idx 13) as [-> | H13]; [reflexivity|].
  destruct (Z.eqb_spec idx 15) as [-> | H15]; [reflexivity|].
  apply legPoint_leftToRight; assumption.
Qed.

Lemma legPoint_armPoint idx :
  Resolve.legPoint idx = Resolve.armPoint idx
  <-> idx <> 13%Z /\ idx <> 15%Z /\ idx <> 27%Z.
Proof.
  unfold Resolve.legPoint, Resolve.armPoint.
  repeat match goal with
  | |- context [(idx =? ?k)%Z] =>
      destruct (Z.eqb_spec idx k);
        [subst; split; [intros H; try discriminate H; repeat split; discriminate
                       | intros (H1 & H2 & H3); try reflexivity; contradiction]|]
  end.
  split; [intros _; repeat split; assumption | reflexivity].
Qed.

(** X15. On the leg route the points of the primary angle stay as they
    are on the left side; on the right side each index is moved on its
    own: the elbow 13 and the wrist 15 are kept, every other index is
    moved like a form-check keypoint (23 to 24, 25 to 26, 27 to 28, 11
    to 12, the rest kept).  The result is that of the arm route exactly
    when none of 13, 15 and 27 is among the points. *)
Theorem legPoints_left_to_right (indices : list Z) :
  Resolve.legPoints indices Left = indices
  /\ Resolve.legPoints indices Right
     = map (fun idx => if (idx =? 13)%Z || (idx =? 15)%Z then idx
                       else Resolve.leftToRight idx) indices
  /\ (Resolve.legPoints indices Right = Resolve.armPoints indices Right
      <-> ~ In 13%Z indices /\ ~ In 15%Z indices /\ ~ In 27%Z indices).
Proof.
  split; [reflexivity|]. split.
  - cbn [Resolve.legPoints]. apply map_ext. apply legPoint_cases.
  - cbn [Resolve.legPoints Resolve.armPoints]. rewrite map_ext_in_iff. split.
    + intros H. repeat split; intros Hin;
        apply H in Hin; apply legPoint_armPoint in Hin; tauto.
    + intros (H13 & H15 & H27) idx Hin. apply legPoint_armPoint.
      repeat split; intros ->; contradiction.
Qed.

Lemma legPoints_left_to_right_witness :
  Resolve.legPoints [23; 11; 13]%Z Right = [24; 12; 13]%Z
  /\ Resolve.legPoints [23; 11; 13]%Z Right
     <> Resolve.armPoints [23; 11; 13]%Z Right.
Proof.
  split.
  - rewrite (proj1 (proj2 (legPoints_left_to_right [23; 11; 13]%Z))).
    reflexivity.
  - intros H.
    apply (proj2 (proj2 (legPoints_left_to_right [23; 11; 13]%Z))) in H.
    destruct H as (H13 & _). apply H13. cbn [In]. auto.
Defined.

(** X16. With no exercise loaded every frame takes the leg route, since
    the built-in exercise lists keypoint 23; and when the leg detector
    returns the right side, the angle analysed is the one at the right
    shoulder 12 between the right hip 24 and the left elbow 13. *)
Theorem builtin_exercise_right_side_points
    (started : bool) (side : Side) (currentTime : Z) (landmarks : Landmarks)
    (s : Session) (point1 vertex point2 : Landmark) :
  detectActiveLeg (mkRender None started side) landmarks = Some Right ->
  landmark_at landmarks 24 = Some point1 ->
  landmark_at landmarks 12 = Some vertex ->
  landmark_at landmarks 13 = Some point2 ->
  getExerciseBodyPart (exerciseInUse (mkRender None started side)) = Legs
  /\ exists s0,
       onResults (mkRender None started side) currentTime (Some landmarks) s
       = analyzeExerciseForm (mkRender None started side) currentTime
           (calculateAngle point1 vertex point2) landmarks defaultExercise
           Right s0.
Proof.
  intros Hleg H24 H12 H13. split; [reflexivity|].
  unfold onResults.
  change (getExerciseBodyPart (exerciseInUse (mkRender None started side)))
    with Legs.
  cbv iota. unfold analyzeLegExercise. rewrite Hleg. cbv zeta.
  unfold analyzeWithPoints.
  change (landmark_of_point landmarks
            (Resolve.legPoints
               (points (primaryAngle
                          (angleCalculations
                             (exerciseInUse (mkRender None started side)))))
               Right) 0)
    with (landmark_at landmarks 24).
  change (landmark_of_point landmarks
            (Resolve.legPoints
               (points (primaryAngle
                          (angleCalculations
                             (exerciseInUse (mkRender None started side)))))
               Right) 1)
    with (landmark_at landmarks 12).
  change (landmark_of_point landmarks
            (Resolve.legPoints
               (points (primaryAngle
                          (angleCalculations
                             (exerciseInUse (mkRender None started side)))))
               Right) 2)
    with (landmark_at landmarks 13).
  rewrite H24, H12, H13. eexists. reflexivity.
Qed.

Lemma detectActiveLeg_standingStill rd :
  detectActiveLeg rd standingStill = Some Right.
Proof.
  rewrite (detectActiveLeg_scores rd standingStill (-0.7) (-0.7)
             legScores_standingStill).
  replace (num_gt (-0.7) (-0.7 * (1 + 0.3))) with true
    by (symmetry; apply num_gt_true; lra).
  reflexivity.
Qed.

Lemma builtin_exercise_right_side_points_witness :
  exists s0,
    onResults (mkRender None true Left) 5000 (Some standingStill) initialSession
    = analyzeExerciseForm (mkRender None true Left) 5000
        (calculateAngle (mkLandmark 0.4 0.6 0.9) (mkLandmark 0.4 0.3 0.9)
           Samples.elsewhere)
        standingStill defaultExercise Right s0.
Proof.
  apply (proj2 (builtin_exercise_right_side_points true Left 5000 standingStill
                  initialSession (mkLandmark 0.4 0.6 0.9)
                  (mkLandmark 0.4 0.3 0.9) Samples.elsewhere
                  (detectActiveLeg_standingStill _) eq_refl eq_refl eq_refl)).
Defined.

(** ** Phases of the other kinds of exercise *)

Lemma curl_phase_state exercise :
  isCurlingExercise exercise = true ->
  isLegExercise exercise = false ->
  isLiftingExercise exercise = false ->
  forall angle reps,
    snd (phaseFeedback exercise angle reps)
    = (if inRange angle (optimalPeak (targetRanges exercise))
          || num_lt angle (liftingMin (repThresholds exercise))
       then "curling" else "ready").
Proof.
  intros curling not_leg not_lifting angle reps.
  unfold phaseFeedback, isInOptimalPeak, isInStartingPosition,
    actionVerbGerund, bodyPart.
  rewrite curling, not_leg, not_lifting. cbv zeta. cbn [andb orb].
  destruct (inRange angle (optimalPeak (targetRanges exercise)));
    destruct (num_lt angle (liftingMin (repThresholds exercise)));
    destruct (num_ge angle (fst (startingPosition (targetRanges exercise))));
    reflexivity.
Qed.

Lemma no_check_violated_at_rest landmarks side checks :
  filter (checkViolated landmarks side false) checks = [].
Proof.
  induction checks as [|c cs IH]; [reflexivity|].
  cbn [filter]. rewrite checkViolated_at_rest. exact IH.
Qed.

(** X17. For every exercise that the name marks as a curl (and neither
    as a leg nor as a lifting exercise) a frame resolves to the state
    curling when the angle is inside [optimalPeak] or below [liftingMin],
    and to ready otherwise; the starting-position test is that the angle
    is at least [startingPosition[0]], so that a peak range that ends
    below that bound shares no angle with the starting position. *)
Theorem curl_phase_classification
    (exercise : ExerciseData)
    (curling : isCurlingExercise exercise = true)
    (not_leg : isLegExercise exercise = false)
    (not_lifting : isLiftingExercise exercise = false) :
  (forall angle reps,
     snd (phaseFeedback exercise angle reps)
     = (if inRange angle (optimalPeak (targetRanges exercise))
           || num_lt angle (liftingMin (repThresholds exercise))
        then "curling" else "ready"))
  /\ (forall angle,
        isInStartingPosition exercise angle
        = num_ge angle (fst (startingPosition (targetRanges exercise))))
  /\ (snd (optimalPeak (targetRanges exercise))
      < fst (startingPosition (targetRanges exercise)) ->
      peakAwayFromStart exercise).
Proof.
  split; [|split].
  - apply curl_phase_state; assumption.
  - intros angle. unfold isInStartingPosition.
    rewrite curling, not_leg, not_lifting. reflexivity.
  - intros Hgap angle. unfold isInOptimalPeak, isInStartingPosition, inRange.
    rewrite curling, not_leg, not_lifting. cbv zeta. cbn [andb orb].
    intros H. apply andb_prop in H. destruct H as [_ H].
    apply num_le_true in H. apply num_ge_false. lra.
Qed.

Lemma curl_phase_classification_witness :
  peakAwayFromStart bicepCurl.
Proof.
  apply (proj2 (proj2 (curl_phase_classification bicepCurl
                         eq_refl eq_refl eq_refl))).
  cbn. lra.
Defined.

(** X18. For every exercise that the name marks as a leg exercise a
    frame resolves to the moving state when the angle is inside
    [optimalPeak], or the exercise is a squat and the angle is below
    [optimalPeak], or the angle is above [liftingMin]; and to ready
    otherwise. *)
Theorem leg_phase_classification
    (exercise : ExerciseData) (leg : isLegExercise exercise = true) :
  forall angle reps,
    snd (phaseFeedback exercise angle reps)
    = (if inRange angle (optimalPeak (targetRanges exercise))
          || (isSquat exercise
              && num_lt angle (fst (optimalPeak (targetRanges exercise))))
          || num_gt angle (liftingMin (repThresholds exercise))
       then actionVerbGerund exercise else "ready").
Proof.
  intros angle reps. unfold phaseFeedback. rewrite leg_peak_is_range by exact leg.
  rewrite leg. cbv zeta.
  destruct (inRange angle (optimalPeak (targetRanges exercise)));
    [reflexivity|].
  destruct (isSquat exercise
            && num_lt angle (fst (optimalPeak (targetRanges exercise))));
    [reflexivity|].
  destruct (num_gt angle (liftingMin (repThresholds exercise))); reflexivity.
Qed.

Lemma leg_phase_classification_witness :
  snd (phaseFeedback Samples.legRaise 150 0) = "lifting".
Proof.
  rewrite (leg_phase_classification Samples.legRaise eq_refl 150 0).
  unfold inRange. cbn [fst snd targetRanges optimalPeak repThresholds liftingMin
                       Samples.legRaise].
  num_decide. rewrite orb_true_r. reflexivity.
Defined.

(** X19. For every exercise whose name marks it neither as a leg, nor as
    a lifting, nor as a curling exercise, every frame of a started
    exercise leaves the counter as it was, resolves to ready with the
    message to start the movement, violates no form check and sets
    [formOk] to true. *)
Theorem unrecognised_exercise_never_counts
    (exercise : ExerciseData)
    (not_leg : isLegExercise exercise = false)
    (not_lifting : isLiftingExercise exercise = false)
    (not_curling : isCurlingExercise exercise = false)
    (rd : Render) (started : exerciseStarted rd = true) :
  forall side currentTime angle landmarks s,
    let s' := analyzeExerciseForm rd currentTime angle landmarks exercise side s in
    counterView s' = counterView s
    /\ repCount s' = repCount s
    /\ lastStateRef s' = "ready"
    /\ feedback s' = glyph_progress ++ " Start your movement"
    /\ isCorrectForm s' = Some true.
Proof.
  intros side t a l s. cbv zeta.
  assert (Hpeak : isInOptimalPeak exercise a = false).
  { unfold isInOptimalPeak. rewrite not_leg, not_lifting, not_curling.
    reflexivity. }
  assert (Hstart : isInStartingPosition exercise a = false).
  { unfold isInStartingPosition. rewrite not_leg, not_lifting, not_curling.
    reflexivity. }
  assert (Hphase : forall n,
             phaseFeedback exercise a n
             = (glyph_progress ++ " Start your movement", "ready")).
  { intros n. unfold phaseFeedback. rewrite Hpeak, Hstart, not_leg,
      not_lifting, not_curling. reflexivity. }
  destruct (analyze_counts rd exercise side started t a l s)
    as (E1 & E2 & E3 & E4).
  unfold countsRep in *. rewrite Hpeak in *. rewrite Hstart in *.
  cbn [andb] in *.
  split; [unfold counterView; congruence|]. split; [exact E2|].
  split.
  { rewrite analyze_lastState by exact started. rewrite Hphase. reflexivity. }
  pose proof (analyze_feedback rd exercise side t a l s started) as H.
  cbv zeta in H. rewrite runFormChecks_last in H.
  assert (Hmoving : movingAt exercise a = false).
  { unfold movingAt. rewrite Hphase. cbn [snd].
    apply String.eqb_neq.
    pose proof (actionVerbGerund_values exercise) as Hin.
    cbn [In] in Hin. intros Heq. rewrite <- Heq in Hin.
    repeat destruct Hin as [Hin | Hin]; try discriminate Hin. exact Hin. }
  rewrite Hmoving in H.
  rewrite no_check_violated_at_rest, Hphase in H. cbn [fst] in H.
  injection H as Hf Hok. split; assumption.
Qed.

Lemma unrecognised_exercise_never_counts_witness :
  isCorrectForm
    (analyzeExerciseForm (mkRender (Some Samples.pendulumSwing) true Left)
       5000 100 [] Samples.pendulumSwing Left initialSession) = Some true.
Proof.
  apply (unrecognised_exercise_never_counts Samples.pendulumSwing
           eq_refl eq_refl eq_refl
           (mkRender (Some Samples.pendulumSwing) true Left) eq_refl
           Left 5000 100 [] initialSession).
Defined.

(** ** Form checks that cannot fail, and one that always does *)

Lemma includes_known_false check :
  (forall phrase, In phrase knownConditions ->
     includes (condition check) phrase = false) ->
  includes (condition check) "wrist higher than shoulder" = false
  /\ includes (condition check) "elbow below shoulder" = false
  /\ includes (condition check) "knee alignment" = false
  /\ includes (condition check) "back straight" = false
  /\ includes (condition check) "Elbow moving off thigh" = false.
Proof.
  intros H. repeat split; apply H; cbn; auto 10.
Qed.

(** X20. A form check is never violated when its condition holds none of
    the five phrases that the code knows, or when fewer than two of its
    keypoints (moved to the detected side) are in the frame, or when the
    frame is not in the moving state. *)
Theorem inert_form_checks
    (landmarks : Landmarks) (side : Side) (moving : bool) (check : FormCheck) :
  (forall phrase, In phrase knownConditions ->
     includes (condition check) phrase = false)
  \/ (presentKeypoints landmarks side check < 2)%nat
  \/ moving = false ->
  checkViolated landmarks side moving check = false.
Proof.
  intros [H | [H | H]].
  - destruct (includes_known_false check H) as (H1 & H2 & H3 & H4 & H5).
    unfold checkViolated. cbv zeta. rewrite H1, H2, H3, H4, H5. cbn [andb].
    destruct (2 <=? _)%nat; reflexivity.
  - unfold checkViolated, presentKeypoints in *. cbv zeta.
    replace (2 <=? _)%nat with false; [reflexivity|].
    symmetry. apply Nat.leb_gt. exact H.
  - subst moving. apply checkViolated_at_rest.
Qed.

Lemma inert_form_checks_witness :
  checkViolated Samples.elbowLowWristHigh Left true
    (mkFormCheck "keep shoulders relaxed" "Relax your shoulders" [11; 12]%Z)
  = false.
Proof.
  apply (inert_form_checks Samples.elbowLowWristHigh Left true
           (mkFormCheck "keep shoulders relaxed" "Relax your shoulders"
              [11; 12]%Z)).
  left. intros phrase Hin. cbn [knownConditions In] in Hin.
  repeat destruct Hin as [<- | Hin]; try reflexivity. contradiction.
Defined.

(** X21. A form check whose condition holds the phrase of the elbow on
    the thigh (and none of the four phrases tested before it) has no
    geometric test: it is violated in every frame in the moving state in
    which two of its keypoints are present, and a started exercise that
    lists it has [formOk] false in every such frame. *)
Theorem thigh_check_always_violated
    (rd : Render) (started : exerciseStarted rd = true)
    (exercise : ExerciseData) (check : FormCheck)
    (side : Side) (currentTime : Z) (angle : R) (landmarks : Landmarks)
    (s : Session) :
  In check (formChecks exercise) ->
  includes (condition check) "Elbow moving off thigh" = true ->
  includes (condition check) "wrist higher than shoulder" = false ->
  includes (condition check) "elbow below shoulder" = false ->
  includes (condition check) "knee alignment" = false ->
  includes (condition check) "back straight" = false ->
  (2 <= presentKeypoints landmarks side check)%nat ->
  movingAt exercise angle = true ->
  checkViolated landmarks side true check = true
  /\ isCorrectForm
       (analyzeExerciseForm rd currentTime angle landmarks exercise side s)
     = Some false.
Proof.
  intros Hin H5 H1 H2 H3 H4 Hkp Hmoving.
  assert (Hv : checkViolated landmarks side true check = true).
  { unfold checkViolated, presentKeypoints in *. cbv zeta.
    replace (2 <=? _)%nat with true by (symmetry; apply Nat.leb_le; exact Hkp).
    rewrite H1, H2, H3, H4, H5. reflexivity. }
  split; [exact Hv|].
  pose proof (analyze_feedback rd exercise side currentTime angle landmarks s
                started) as H.
  cbv zeta in H. rewrite runFormChecks_last, Hmoving in H.
  assert (Hne : filter (checkViolated landmarks side true) (formChecks exercise)
                <> []).
  { intros E.
    assert (Hf : In check (filter (checkViolated landmarks side true)
                             (formChecks exercise)))
      by (apply filter_In; split; assumption).
    rewrite E in Hf. exact Hf. }
  destruct (filter (checkViolated landmarks side true) (formChecks exercise))
    as [|c cs]; [contradiction|].
  injection H as _ Hok. exact Hok.
Qed.

Lemma bicepCurl_moving angle : angle < 120 -> movingAt bicepCurl angle = true.
Proof.
  intros H. unfold movingAt.
  rewrite (curl_phase_state bicepCurl eq_refl eq_refl eq_refl).
  replace (num_lt angle (liftingMin (repThresholds bicepCurl))) with true
    by (symmetry; apply num_lt_true; cbn; lra).
  rewrite orb_true_r. reflexivity.
Qed.

Lemma thigh_check_always_violated_witness :
  isCorrectForm
    (analyzeExerciseForm (mkRender (Some bicepCurl) true Left) 5000 100
       Samples.elbowLowWristHigh bicepCurl Left initialSession)
  = Some false.
Proof.
  apply (proj2 (thigh_check_always_violated
                  (mkRender (Some bicepCurl) true Left) eq_refl bicepCurl
                  (mkFormCheck "Elbow moving off thigh"
                     "Keep your elbow on your thigh" [13; 25]%Z)
                  Left 5000 100 Samples.elbowLowWristHigh initialSession
                  (or_introl eq_refl) eq_refl eq_refl eq_refl eq_refl eq_refl
                  (le_n 2) (bicepCurl_moving 100 ltac:(lra)))).
Defined.

(** ** The correction of the route, as a whole *)

Lemma correctThresholds_idle t :
  Route.ascending t -> Route.correctThresholds t = t.
Proof.
  unfold Route.ascending, Route.correctThresholds. intros [H1 H2]. cbv zeta.
  replace (num_ge (liftingMin t) (loweringMax t)) with false
    by (symmetry; apply num_ge_false; lra).
  replace (num_ge (loweringMax t) (restMax t)) with false
    by (symmetry; apply num_ge_false; lra).
  reflexivity.
Qed.

Lemma correctThresholds_twice t :
  Route.correctThresholds (Route.correctThresholds t)
  = Route.correctThresholds t.
Proof.
  destruct t as [a b c].
  assert (Hdec : Route.ascending (mkRepThresholds a b c)
                 \/ ~ Route.ascending (mkRepThresholds a b c)).
  { unfold Route.ascending. cbn. destruct (Rlt_dec a b), (Rlt_dec b c);
      [left | right | right | right]; lra. }
  destruct Hdec as [Hasc | Hnot].
  - rewrite !(correctThresholds_idle _ Hasc). reflexivity.
  - rewrite (correctThresholds_fires _ Hnot).
    cbn [liftingMin loweringMax restMax].
    set (lo := Rmin a (Rmin b c)). set (mid := Rmax (Rmin a b) (Rmin b c)).
    set (hi := Rmax a (Rmax b c)).
    assert (H1 : lo <= mid) by (subst lo mid; minmax_decide).
    assert (H2 : mid <= hi) by (subst mid hi; minmax_decide).
    destruct (Rlt_dec lo mid) as [L1 | L1]; destruct (Rlt_dec mid hi) as [L2 | L2];
      try (apply correctThresholds_idle; split; assumption);
      (rewrite correctThresholds_fires
        by (unfold Route.ascending; cbn; lra);
       cbn [liftingMin loweringMax restMax];
       apply repThresholds_eq; minmax_decide).
Qed.

(** X22. Whatever the three thresholds are, the correction returns them
    in weak ascending order, with the smallest of the three as
    [liftingMin] and the largest as [restMax]; and correcting a second
    time changes nothing. *)
Theorem correctThresholds_orders (t : RepThresholds) :
  weaklyAscending (Route.correctThresholds t)
  /\ liftingMin (Route.correctThresholds t)
     = Rmin (liftingMin t) (Rmin (loweringMax t) (restMax t))
  /\ restMax (Route.correctThresholds t)
     = Rmax (liftingMin t) (Rmax (loweringMax t) (restMax t))
  /\ Route.correctThresholds (Route.correctThresholds t)
     = Route.correctThresholds t.
Proof.
  split; [|split; [|split; [|apply correctThresholds_twice]]];
    destruct t as [a b c];
    (assert (Hdec : Route.ascending (mkRepThresholds a b c)
                    \/ ~ Route.ascending (mkRepThresholds a b c))
      by (unfold Route.ascending; cbn; destruct (Rlt_dec a b), (Rlt_dec b c);
          [left | right | right | right]; lra));
    destruct Hdec as [Hasc | Hnot];
    [ rewrite (correctThresholds_idle _ Hasc)
    | rewrite (correctThresholds_fires _ Hnot)
    | rewrite (correctThresholds_idle _ Hasc)
    | rewrite (correctThresholds_fires _ Hnot)
    | rewrite (correctThresholds_idle _ Hasc)
    | rewrite (correctThresholds_fires _ Hnot) ];
    unfold weaklyAscending, Route.ascending in *;
    cbn [liftingMin loweringMax restMax] in *;
    minmax_decide.
Qed.

Lemma templateFor_values exerciseData template :
  Route.templateFor exerciseData = Some template ->
  In template [ Route.shoulderAbduction; Route.shoulderFlexion; Route.pendulum;
                Route.armCurl; Route.legRaise ].
Proof.
  unfold Route.templateFor. cbv zeta.
  repeat match goal with
  | |- context [if ?b then _ else _] => destruct b
  end; intros H; try discriminate H; injection H as <-; cbn; auto 10.
Qed.

Lemma template_thresholds_corrected template :
  In template [ Route.shoulderAbduction; Route.shoulderFlexion; Route.pendulum;
                Route.armCurl; Route.legRaise ] ->
  Route.ascending (Route.correctThresholds (Route.t_repThresholds template)).
Proof.
  cbn [In]. intros H.
  repeat destruct H as [<- | H]; try contradiction;
    cbn [Route.t_repThresholds Route.shoulderAbduction Route.shoulderFlexion
         Route.pendulum Route.armCurl Route.legRaise].
  1,2: rewrite correctThresholds_descending; unfold Route.ascending; cbn; lra.
  all: rewrite correctThresholds_idle; unfold Route.ascending; cbn; lra.
Qed.

(** X23. When the name of the exercise selects a template, the exercise
    that [validateAndCorrectExercise] returns has the points and the
    ranges of the template, whatever the input had, and thresholds in
    strict ascending order; name, description, steps, target keypoints
    and form checks are those of the input. *)
Theorem template_overrides_input
    (exerciseData : ExerciseData) (template : Route.Template) :
  Route.templateFor exerciseData = Some template ->
  let result := Route.validateAndCorrectExercise exerciseData in
  points (primaryAngle (angleCalculations result)) = Route.anglePoints template
  /\ targetRanges result = Route.t_targetRanges template
  /\ repThresholds result
     = Route.correctThresholds (Route.t_repThresholds template)
  /\ Route.ascending (repThresholds result)
  /\ exerciseName result = exerciseName exerciseData
  /\ targetKeypoints result = targetKeypoints exerciseData
  /\ formChecks result = formChecks exerciseData.
Proof.
  intros Ht. cbv zeta.
  unfold Route.validateAndCorrectExercise, Route.applyTemplate. rewrite Ht.
  cbn [angleCalculations primaryAngle points targetRanges repThresholds
       exerciseName targetKeypoints formChecks].
  split; [reflexivity|]. split; [reflexivity|]. split; [reflexivity|].
  split; [|repeat split].
  apply template_thresholds_corrected.
  apply (templateFor_values exerciseData). exact Ht.
Qed.

Lemma template_overrides_input_witness :
  repThresholds (Route.validateAndCorrectExercise defaultExercise)
  = Route.correctThresholds (Route.t_repThresholds Route.shoulderAbduction).
Proof.
  apply (template_overrides_input defaultExercise Route.shoulderAbduction
           eq_refl).
Defined.

Lemma templateFor_validated exerciseData :
  Route.templateFor (Route.validateAndCorrectExercise exerciseData)
  = Route.templateFor exerciseData.
Proof.
  unfold Route.templateFor, Route.validateAndCorrectExercise, Route.applyTemplate.
  destruct (Route.templateFor exerciseData); reflexivity.
Qed.

(** X24. [validateAndCorrectExercise] is idempotent; and an exercise
    whose name selects no template and whose thresholds are in strict
    ascending order is returned as it is. *)
Theorem validateAndCorrectExercise_idempotent (exerciseData : ExerciseData) :
  Route.validateAndCorrectExercise (Route.validateAndCorrectExercise exerciseData)
  = Route.validateAndCorrectExercise exerciseData
  /\ (Route.templateFor exerciseData = None ->
      Route.ascending (repThresholds exerciseData) ->
      Route.validateAndCorrectExercise exerciseData = exerciseData).
Proof.
  split.
  - pose proof (templateFor_validated exerciseData) as Hv.
    remember (Route.validateAndCorrectExercise exerciseData) as V eqn:HV.
    unfold Route.validateAndCorrectExercise, Route.applyTemplate.
    rewrite Hv.
    unfold Route.validateAndCorrectExercise, Route.applyTemplate in HV.
    destruct (Route.templateFor exerciseData) as [t|]; subst V;
      cbn [angleCalculations primaryAngle points targetRanges repThresholds
           exerciseName targetKeypoints formChecks description steps angleName];
      rewrite ?correctThresholds_twice; reflexivity.
  - intros Hnone Hasc.
    unfold Route.validateAndCorrectExercise, Route.applyTemplate.
    rewrite Hnone, (correctThresholds_idle _ Hasc).
    destruct exerciseData; reflexivity.
Qed.

Lemma validateAndCorrectExercise_idempotent_witness :
  Route.validateAndCorrectExercise kneeBendInOrder = kneeBendInOrder.
Proof.
  apply (proj2 (validateAndCorrectExercise_idempotent kneeBendInOrder)).
  - reflexivity.
  - unfold Route.ascending. cbn. lra.
Defined.
(** ** The curated videos of the search route *)

Lemma prefix_append (p s : string) :
  String.prefix p s = true <-> exists t, s = p ++ t.
Proof.
  revert s. induction p as [|a p IH]; intros s.
  - split; [intros _; exists s; reflexivity | destruct s; reflexivity].
  - destruct s as [|b s]; cbn.
    + split; [discriminate | intros [t Ht]; discriminate].
    + destruct (Ascii.ascii_dec a b) as [-> | Hne].
      * rewrite IH. split; intros [t Ht]; exists t; [rewrite Ht | injection Ht as Ht]; auto.
      * split; [discriminate | intros [t Ht]; injection Ht as Ht _; congruence].
Qed.

Lemma includes_nil (sub : string) :
  includes EmptyString sub = String.prefix sub EmptyString.
Proof.
  change (includes EmptyString sub)
    with (if String.prefix sub EmptyString then true else false).
  destruct (String.prefix sub EmptyString); reflexivity.
Qed.

Lemma includes_cons (c : ascii) (s sub : string) :
  includes (String c s) sub
  = if String.prefix sub (String c s) then true else includes s sub.
Proof. reflexivity. Qed.

Lemma includes_spec (s sub : string) :
  includes s sub = true <-> exists a b, s = a ++ sub ++ b.
Proof.
  induction s as [|c s IH].
  - rewrite includes_nil, prefix_append. split.
    + intros [t Ht]. exists EmptyString, t. exact Ht.
    + intros [a [b H]]. destruct a; [|discriminate]. exists b. exact H.
  - rewrite includes_cons.
    destruct (String.prefix sub (String c s)) eqn:P.
    + split; [intros _ | reflexivity].
      apply prefix_append in P as [t Ht]. exists EmptyString, t. exact Ht.
    + rewrite IH. split.
      * intros [a [b H]]. exists (String c a), b. cbn. rewrite H. reflexivity.
      * intros [a [b H]]. destruct a as [|c' a].
        -- cbn in H.
           assert (String.prefix sub (String c s) = true)
             by (apply prefix_append; exists b; exact H).
           congruence.
        -- cbn in H. injection H as _ H. exists a, b. exact H.
Qed.

Lemma append_assoc' (a b c : string) : (a ++ b) ++ c = a ++ b ++ c.
Proof. induction a as [|x a IH]; cbn; [reflexivity | rewrite IH; reflexivity]. Qed.

Lemma includes_suffix (s a b : string) :
  includes s (a ++ b) = true -> includes s b = true.
Proof.
  rewrite !includes_spec. intros [x [y H]].
  exists (x ++ a), y. rewrite H, !append_assoc'. reflexivity.
Qed.

Lemma includes_prefix (s a b : string) :
  includes s (a ++ b) = true -> includes s a = true.
Proof.
  rewrite !includes_spec. intros [x [y H]].
  exists x, (b ++ y). rewrite H, !append_assoc'. reflexivity.
Qed.

Ltac by_hits_in hit keys fin :=
  lazymatch keys with
  | nil => fin
  | cons ?k ?rest => destruct (hit k) eqn:?; [ fin | by_hits_in hit rest fin ]
  end.

Ltac by_hits hit keys fin :=
  let ks := eval cbv in keys in by_hits_in hit ks fin.

Lemma firstMatch_eq (hit : string -> bool) :
  Videos.firstMatch hit
  = if hit "shoulder abduction" then "x5F5kW8qj3U"
    else if hit "shoulder flexion" then "mGj8HQ0_HYc"
    else if hit "lateral raise" then "x5F5kW8qj3U"
    else if hit "side raise" then "x5F5kW8qj3U"
    else if hit "forward raise" then "mGj8HQ0_HYc"
    else if hit "bicep curl" then "ykJG6cHPB_M"
    else if hit "biceps curl" then "ykJG6cHPB_M"
    else if hit "arm curl" then "ykJG6cHPB_M"
    else if hit "hammer curl" then "zC3nLlEvin4"
    else if hit "pendulum" then "FhCCl0qsB4E"
    else if hit "pendulum swing" then "FhCCl0qsB4E"
    else if hit "shoulder pendulum" then "FhCCl0qsB4E"
    else if hit "leg raise" then "JeWkFhVKSx4"
    else if hit "hip flexion" then "JeWkFhVKSx4"
    else if hit "straight leg raise" then "JeWkFhVKSx4"
    else if hit "knee extension" then "yK3QBUaFdTQ"
    else if hit "squat" then "6A2V9Bu80J4"
    else if hit "wall squat" then "y0wWKOhQwQo"
    else if hit "back extension" then "ph3pddpKzzw"
    else if hit "spinal extension" then "ph3pddpKzzw"
    else if hit "neck flexion" then "L_xrDAtykMM"
    else if hit "neck extension" then "L_xrDAtykMM"
    else if hit "default" then "x5F5kW8qj3U"
    else "x5F5kW8qj3U".
Proof.
  unfold Videos.firstMatch, Videos.exerciseVideos. cbn [find fst snd].
  by_hits hit (map fst Videos.exerciseVideos) ltac:(reflexivity).
Qed.

Lemma partialMatch_keywords (hit : string -> bool) (matchedVideoId : string) :
  Videos.partialMatch hit Videos.keywords matchedVideoId
  = if hit "shoulder" then "x5F5kW8qj3U"
    else if hit "bicep" then "ykJG6cHPB_M"
    else if hit "leg" then "JeWkFhVKSx4"
    else if hit "arm" then "ykJG6cHPB_M"
    else if hit "pendulum" then "FhCCl0qsB4E"
    else if hit "curl" then "ykJG6cHPB_M"
    else if hit "raise" then "x5F5kW8qj3U"
    else if hit "squat" then "6A2V9Bu80J4"
    else matchedVideoId.
Proof. reflexivity. Qed.

Ltac video_leaf := solve [ vm_compute; tauto ].

Lemma curatedWith_range (hit : string -> bool) :
  (hit "wall squat" = true -> hit "squat" = true) ->
  In (Videos.curatedWith hit)
     [ "x5F5kW8qj3U"; "mGj8HQ0_HYc"; "ykJG6cHPB_M"; "zC3nLlEvin4";
       "FhCCl0qsB4E"; "JeWkFhVKSx4"; "yK3QBUaFdTQ"; "6A2V9Bu80J4";
       "ph3pddpKzzw"; "L_xrDAtykMM" ].
Proof.
  intros Hsquat. unfold Videos.curatedWith. cbv zeta.
  rewrite partialMatch_keywords, firstMatch_eq.
  by_hits hit (map fst Videos.exerciseVideos)
    ltac:(first
      [ video_leaf
      | discriminate (Hsquat eq_refl)
      | change (String.eqb "x5F5kW8qj3U" (Videos.videoOf "default")) with true;
        cbv iota;
        by_hits hit Videos.keywords ltac:(first [video_leaf | congruence]) ]).
Qed.

(** X25. Whatever the query, the curated fall-back of the search
    route answers with a video of its table, and never with the wall
    squat video: a query that includes "wall squat" includes "squat",
    which comes first in the table, and no keyword of the second loop
    leads to it. *)
Theorem curated_never_wall_squat (query : string) :
  In (Videos.curatedVideoId query) (map snd Videos.exerciseVideos)
  /\ Videos.curatedVideoId query <> Videos.videoOf "wall squat".
Proof.
  assert (H : In (Videos.curatedVideoId query)
                [ "x5F5kW8qj3U"; "mGj8HQ0_HYc"; "ykJG6cHPB_M"; "zC3nLlEvin4";
                  "FhCCl0qsB4E"; "JeWkFhVKSx4"; "yK3QBUaFdTQ"; "6A2V9Bu80J4";
                  "ph3pddpKzzw"; "L_xrDAtykMM" ]).
  { apply curatedWith_range. apply (includes_suffix _ "wall "). }
  cbv [In] in H.
  repeat (destruct H as [H | H]; [rewrite <- H; split; [vm_compute; tauto | discriminate] |]).
  contradiction.
Qed.

(** X26. A query that includes "lateral raise" or "side raise", whose
    video is also the default one, is handed to the keyword loop as if
    nothing had matched: when it also includes "leg", and neither
    "shoulder" nor "bicep", the answer is the leg raise video. *)
Theorem default_video_match_overridden (query : string) :
  let lowerQuery := toLowerCase query in
  includes lowerQuery "lateral raise" = true
  \/ includes lowerQuery "side raise" = true ->
  includes lowerQuery "shoulder" = false ->
  includes lowerQuery "bicep" = false ->
  includes lowerQuery "leg" = true ->
  Videos.curatedVideoId query = Videos.videoOf "leg raise"
  /\ Videos.videoOf "leg raise" <> Videos.videoOf "lateral raise"
  /\ Videos.videoOf "leg raise" <> Videos.videoOf "side raise".
Proof.
  intros lowerQuery Hraise Hshoulder Hbicep Hleg.
  split; [|split; discriminate].
  unfold Videos.curatedVideoId, Videos.curatedWith. fold lowerQuery. cbv zeta.
  rewrite partialMatch_keywords, firstMatch_eq.
  rewrite Hshoulder, Hbicep, Hleg.
  assert (Habd : includes lowerQuery "shoulder abduction" = false).
  { destruct (includes lowerQuery "shoulder abduction") eqn:E; [|reflexivity].
    apply (includes_prefix _ "shoulder" " abduction") in E. congruence. }
  assert (Hflex : includes lowerQuery "shoulder flexion" = false).
  { destruct (includes lowerQuery "shoulder flexion") eqn:E; [|reflexivity].
    apply (includes_prefix _ "shoulder" " flexion") in E. congruence. }
  rewrite Habd, Hflex.
  destruct Hraise as [H | H].
  - rewrite H. reflexivity.
  - rewrite H. destruct (includes lowerQuery "lateral raise"); reflexivity.
Qed.

Lemma default_video_match_overridden_witness :
  Videos.curatedVideoId "Side Raise with one leg" = Videos.videoOf "leg raise".
Proof.
  apply (default_video_match_overridden "Side Raise with one leg");
    [right|..]; reflexivity.
Defined.
(** ** drawPose *)

Lemma landmark_at_nat (landmarks : Landmarks) (k : nat) (p : Landmark) :
  landmark_at landmarks (Z.of_nat k) = Some p
  <-> nth_error landmarks k = Some (Some p).
Proof.
  unfold landmark_at.
  destruct (Z.ltb_spec (Z.of_nat k) 0) as [Hneg | _]; [lia|].
  rewrite Nat2Z.id.
  destruct (nth_error landmarks k) as [[q|]|]; split; congruence.
Qed.

Lemma landmark_at_some (landmarks : Landmarks) (i : Z) (p : Landmark) :
  landmark_at landmarks i = Some p ->
  (0 <= i)%Z /\ nth_error landmarks (Z.to_nat i) = Some (Some p).
Proof.
  unfold landmark_at.
  destruct (Z.ltb_spec i 0) as [Hneg | Hpos]; [discriminate|].
  destruct (nth_error landmarks (Z.to_nat i)) as [[q|]|];
    intros H; try discriminate. split; [lia | congruence].
Qed.

Lemma visible_true (p : Landmark) : visible p = true <-> visibility p > 0.5.
Proof. unfold visible. apply num_gt_true. Qed.

Lemma drawLandmark_disc width height index point c x y r :
  In (Disc c x y r) (drawLandmark width height index point)
  <-> exists p, point = Some p /\ visibility p > 0.5 /\ (10 < index)%Z
                /\ c = fillStyleOf index
                /\ x = lm_x p * width /\ y = lm_y p * height
                /\ r = radiusOf index.
Proof.
  unfold drawLandmark. destruct point as [p|].
  - destruct (visible p) eqn:V; destruct (Z.ltb_spec 10 index) as [L | L];
      cbn [andb In]; split.
    + intros [H | []]. injection H as <- <- <- <-.
      exists p. apply visible_true in V. repeat split; auto.
    + intros [q [E [_ [_ [-> [-> [-> ->]]]]]]]. injection E as <-. left. reflexivity.
    + intros [].
    + intros [q [_ [_ [H _]]]]. lia.
    + intros [].
    + intros [q [E [H _]]]. injection E as <-. apply visible_true in H. congruence.
    + intros [].
    + intros [q [_ [_ [H _]]]]. lia.
  - cbn. split; [intros [] | intros [q [E _]]; discriminate].
Qed.

Lemma drawLandmark_no_stroke width height index point c x1 y1 x2 y2 :
  ~ In (Stroke c x1 y1 x2 y2) (drawLandmark width height index point).
Proof.
  unfold drawLandmark. destruct point as [p|]; [|intros []].
  destruct (visible p && (10 <? index)%Z); [intros [H | []]; discriminate | intros []].
Qed.

Lemma drawLandmarksFrom_disc width height landmarks : forall from c x y r,
  In (Disc c x y r) (drawLandmarksFrom width height from landmarks)
  <-> exists k p, nth_error landmarks k = Some (Some p)
                  /\ visibility p > 0.5 /\ (10 < from + Z.of_nat k)%Z
                  /\ c = fillStyleOf (from + Z.of_nat k)
                  /\ x = lm_x p * width /\ y = lm_y p * height
                  /\ r = radiusOf (from + Z.of_nat k).
Proof.
  induction landmarks as [|point rest IH]; intros from c x y r;
    cbn [drawLandmarksFrom].
  - split; [intros [] | intros [k [p [H _]]]; destruct k; discriminate].
  - rewrite in_app_iff, drawLandmark_disc, IH. split.
    + intros [[p [-> H]] | [k [p [Hk H]]]].
      * exists 0%nat, p. rewrite Z.add_0_r. split; [reflexivity | exact H].
      * exists (S k), p.
        replace (from + Z.of_nat (S k))%Z with (from + 1 + Z.of_nat k)%Z by lia.
        split; [exact Hk | exact H].
    + intros [k [p [Hk H]]]. destruct k as [|k].
      * left. exists p. rewrite Z.add_0_r in H. cbn in Hk.
        split; [congruence | exact H].
      * right. exists k, p.
        replace (from + Z.of_nat (S k))%Z with (from + 1 + Z.of_nat k)%Z in H by lia.
        split; [exact Hk | exact H].
Qed.

Lemma drawLandmarksFrom_no_stroke width height landmarks : forall from c x1 y1 x2 y2,
  ~ In (Stroke c x1 y1 x2 y2) (drawLandmarksFrom width height from landmarks).
Proof.
  induction landmarks as [|point rest IH]; intros from c x1 y1 x2 y2;
    cbn [drawLandmarksFrom]; [intros []|].
  rewrite in_app_iff. intros [H | H].
  - exact (drawLandmark_no_stroke _ _ _ _ _ _ _ _ _ H).
  - exact (IH _ _ _ _ _ _ H).
Qed.

Lemma drawConnection_stroke width height landmarks start end_ c x1 y1 x2 y2 :
  In (Stroke c x1 y1 x2 y2)
     (drawConnection width height landmarks (start, end_))
  <-> exists p q, landmark_at landmarks start = Some p
                  /\ landmark_at landmarks end_ = Some q
                  /\ visibility p > 0.5 /\ visibility q > 0.5
                  /\ c = strokeStyleOf start end_
                  /\ x1 = lm_x p * width /\ y1 = lm_y p * height
                  /\ x2 = lm_x q * width /\ y2 = lm_y q * height.
Proof.
  unfold drawConnection.
  destruct (landmark_at landmarks start) as [p|];
    [destruct (landmark_at landmarks end_) as [q|]|].
  - destruct (visible p) eqn:Vp; [destruct (visible q) eqn:Vq|]; cbn [andb In]; split.
    + intros [H | []]. injection H as <- <- <- <- <-.
      exists p, q. apply visible_true in Vp, Vq. repeat split; auto.
    + intros [p' [q' [E1 [E2 [_ [_ [-> [-> [-> [-> ->]]]]]]]]]].
      injection E1 as <-. injection E2 as <-. left. reflexivity.
    + intros [].
    + intros [p' [q' [_ [E2 [_ [H _]]]]]]. injection E2 as <-.
      apply visible_true in H. congruence.
    + intros [].
    + intros [p' [q' [E1 [_ [H _]]]]]. injection E1 as <-.
      apply visible_true in H. congruence.
  - split; [intros [] | intros [p' [q' [_ [E _]]]]; discriminate].
  - split; [intros [] | intros [p' [q' [E _]]]; discriminate].
Qed.

Lemma drawConnection_no_disc width height landmarks connection c x y r :
  ~ In (Disc c x y r) (drawConnection width height landmarks connection).
Proof.
  destruct connection as [start end_]. unfold drawConnection.
  destruct (landmark_at landmarks start) as [p|]; [|intros []].
  destruct (landmark_at landmarks end_) as [q|]; [|intros []].
  destruct (visible p && visible q); [intros [H | []]; discriminate | intros []].
Qed.

Lemma connections_not_gold (start end_ : Z) :
  In (start, end_) connections ->
  strokeStyleOf start end_ <> "#FFD700"
  /\ (10 < start)%Z /\ (10 < end_)%Z.
Proof.
  unfold connections. cbv [In].
  intros H.
  repeat (destruct H as [H | H];
          [injection H as <- <-; split; [vm_compute; discriminate | lia] |]).
  contradiction.
Qed.

(** X27. The filled circles that [drawPose] draws are exactly those of
    the landmarks that are present, have visibility above 0.5 and an
    index above 10 (the face landmarks 0 to 10 are never drawn), at
    the landmark's position scaled to the canvas, with the colour and
    the radius of the index. *)
Theorem drawPose_discs (width height : R) (landmarks : Landmarks)
    (c : string) (x y r : R) :
  In (Disc c x y r) (drawPose width height landmarks)
  <-> exists index point,
        (10 < index)%Z
        /\ landmark_at landmarks index = Some point
        /\ visibility point > 0.5
        /\ c = fillStyleOf index
        /\ x = lm_x point * width /\ y = lm_y point * height
        /\ r = radiusOf index /\ (r = 6 \/ r = 3).
Proof.
  unfold drawPose. rewrite in_app_iff, in_flat_map, drawLandmarksFrom_disc.
  assert (Hr : forall index, radiusOf index = 6 \/ radiusOf index = 3).
  { intros index. unfold radiusOf.
    destruct (between 11 16 index || between 23 28 index); auto. }
  split.
  - intros [[connection [_ H]] | [k [p [Hk [V [L [-> [-> [-> ->]]]]]]]]].
    + destruct (drawConnection_no_disc _ _ _ _ _ _ _ _ H).
    + cbn [Z.add] in *. exists (Z.of_nat k), p.
      rewrite landmark_at_nat. repeat split; auto.
  - intros [index [p [L [Hp [V [-> [-> [-> [-> _]]]]]]]]].
    right. apply landmark_at_some in Hp as [Hpos Hp].
    exists (Z.to_nat index), p. cbn [Z.add]. rewrite Z2Nat.id by lia.
    repeat split; auto.
Qed.

(** X28. The strokes that [drawPose] draws are exactly those of the
    connections whose two end landmarks are present with visibility
    above 0.5; no stroke has the face colour [#FFD700], since every
    connection joins indices above 10. *)
Theorem drawPose_strokes (width height : R) (landmarks : Landmarks)
    (c : string) (x1 y1 x2 y2 : R) :
  In (Stroke c x1 y1 x2 y2) (drawPose width height landmarks)
  <-> exists start end_ p q,
        In (start, end_) connections
        /\ landmark_at landmarks start = Some p
        /\ landmark_at landmarks end_ = Some q
        /\ visibility p > 0.5 /\ visibility q > 0.5
        /\ c = strokeStyleOf start end_ /\ c <> "#FFD700"
        /\ x1 = lm_x p * width /\ y1 = lm_y p * height
        /\ x2 = lm_x q * width /\ y2 = lm_y q * height.
Proof.
  unfold drawPose. rewrite in_app_iff, in_flat_map. split.
  - intros [[[start end_] [Hin H]] | H].
    + apply drawConnection_stroke in H
        as [p [q [Hp [Hq [Vp [Vq [-> [-> [-> [-> ->]]]]]]]]]].
      exists start, end_, p, q.
      destruct (connections_not_gold _ _ Hin) as [Hgold _].
      repeat split; auto.
    + destruct (drawLandmarksFrom_no_stroke _ _ _ _ _ _ _ _ _ H).
  - intros [start [end_ [p [q [Hin [Hp [Hq [Vp [Vq [Hc [_ Hxy]]]]]]]]]]].
    left. exists (start, end_). split; [exact Hin|].
    apply drawConnection_stroke. exists p, q. repeat split; tauto.
Qed.

Lemma drawLandmarksFrom_nil width height landmarks : forall from,
  (forall k p, nth_error landmarks k = Some (Some p) -> visibility p <= 0.5) ->
  drawLandmarksFrom width height from landmarks = [].
Proof.
  induction landmarks as [|point rest IH]; intros from H;
    cbn [drawLandmarksFrom]; [reflexivity|].
  rewrite IH by (intros k p Hk; exact (H (S k) p Hk)).
  rewrite app_nil_r. unfold drawLandmark.
  destruct point as [p|]; [|reflexivity].
  assert (V : visible p = false)
    by (apply num_gt_false; exact (H 0%nat p eq_refl)).
  rewrite V. reflexivity.
Qed.

(** X29. When no landmark that is present has visibility above 0.5,
    [drawPose] draws nothing. *)
Theorem drawPose_nothing_visible (width height : R) (landmarks : Landmarks) :
  (forall index point,
     landmark_at landmarks index = Some point -> visibility point <= 0.5) ->
  drawPose width height landmarks = [].
Proof.
  intros H. unfold drawPose.
  rewrite drawLandmarksFrom_nil, app_nil_r.
  - induction connections as [|[start end_] rest IH]; [reflexivity|].
    cbn [flat_map]. rewrite IH, app_nil_r. unfold drawConnection.
    destruct (landmark_at landmarks start) as [p|] eqn:Hp; [|reflexivity].
    destruct (landmark_at landmarks end_) as [q|]; [|reflexivity].
    assert (V : visible p = false)
      by (apply num_gt_false; exact (H start p Hp)).
    rewrite V. reflexivity.
  - intros k p Hk. apply (H (Z.of_nat k)). apply landmark_at_nat. exact Hk.
Qed.

Lemma landmark_at_repeat (p q : Landmark) (n : nat) (index : Z) :
  landmark_at (repeat (Some q) n) index = Some p -> p = q.
Proof.
  intros H. apply landmark_at_some in H as [_ H].
  apply nth_error_In, repeat_spec in H. congruence.
Qed.

Lemma drawPose_nothing_visible_witness :
  drawPose 640 480 (repeat (Some (mkLandmark 0.5 0.5 0.3)) 33) = [].
Proof.
  apply drawPose_nothing_visible.
  intros index point H. apply landmark_at_repeat in H. subst point.
  cbn [visibility]. lra.
Defined.
(** ** The built-in exercise and the threshold correction *)

Lemma defaultCorrected_thresholds :
  repThresholds Samples.defaultCorrected
  = {| liftingMin := 45; loweringMax := 60; restMax := 75 |}.
Proof.
  unfold Samples.defaultCorrected. cbn [repThresholds].
  rewrite correctThresholds_fires
    by (unfold Route.ascending; cbn; lra).
  cbn [defaultExercise repThresholds liftingMin loweringMax restMax].
  apply repThresholds_eq; minmax_decide.
Qed.

(** The state that a frame of the built-in exercise resolves to, with
    the exercise as it is and with its thresholds corrected. *)
Lemma builtin_phase_state angle n :
  snd (phaseFeedback defaultExercise angle n)
  = (if inRange angle (90, 120) || num_gt angle 60 then "lifting" else "ready")
  /\ snd (phaseFeedback Samples.defaultCorrected angle n)
     = (if inRange angle (90, 120) || num_gt angle 45
        then "lifting" else "ready").
Proof.
  split.
  - rewrite (lifting_phase_state defaultExercise eq_refl eq_refl eq_refl).
    reflexivity.
  - rewrite (lifting_phase_state Samples.defaultCorrected eq_refl eq_refl eq_refl).
    rewrite defaultCorrected_thresholds. reflexivity.
Qed.

Lemma atan_three_quarters : PI / 5 < atan (3 / 4) < PI / 4.
Proof.
  pose proof PI_RGT_0 as HPI. destruct atan_third_bounds as [Hlo _].
  assert (Hdouble : atan (3 / 4) = atan (/ 3) + atan (/ 3)).
  { apply atan_sub_positive; [lra | lra | unfold atan_sub; field]. }
  assert (Hup : atan (3 / 4) < atan 1) by (apply atan_increasing; lra).
  rewrite atan_1 in Hup. lra.
Qed.

(** The angle at the right shoulder between the right hip and the left
    elbow in the frame [elbowHalfRaised]. *)
Lemma angle_elbowHalfRaised :
  45 < calculateAngle (mkLandmark 0.4 0.6 0.9) (mkLandmark 0.4 0.3 0.9)
         (mkLandmark 0.8 0.6 0.9) < 60.
Proof.
  pose proof PI_RGT_0 as HPI. destruct atan_three_quarters as [Hlo Hhi].
  set (q := atan (3 / 4) * 180 / PI).
  assert (E : atan (3 / 4) = q * (PI / 180)) by (unfold q; field; lra).
  assert (Hq : 36 < q < 45) by (split; nra).
  rewrite (calculateAngle_eval _ _ _ (atan (3 / 4) - PI / 2) (90 - q)).
  - lra.
  - cbn [lm_x lm_y]. rewrite atan2_right by lra. rewrite atan2_up by lra.
    replace ((0.6 - 0.3) / (0.8 - 0.4)) with (3 / 4) by lra. reflexivity.
  - replace ((atan (3 / 4) - PI / 2) * 180 / PI) with (- (90 - q))
      by (unfold q; field; lra).
    rewrite Rabs_Ropp. apply Rabs_pos_eq. lra.
  - lra.
Qed.

Lemma legScores_elbowHalfRaised :
  legScores elbowHalfRaised = Some (-0.7, -0.7).
Proof.
  unfold legScores.
  change (landmark_at elbowHalfRaised 23) with (Some (mkLandmark 0.6 0.6 0.9)).
  change (landmark_at elbowHalfRaised 25) with (Some (mkLandmark 0.6 0.8 0.9)).
  change (landmark_at elbowHalfRaised 27) with (Some (mkLandmark 0.6 0.95 0.9)).
  change (landmark_at elbowHalfRaised 24) with (Some (mkLandmark 0.4 0.6 0.9)).
  change (landmark_at elbowHalfRaised 26) with (Some (mkLandmark 0.4 0.8 0.9)).
  change (landmark_at elbowHalfRaised 28) with (Some (mkLandmark 0.4 0.95 0.9)).
  change (landmark_at elbowHalfRaised 11) with (Some (mkLandmark 0.6 0.3 0.9)).
  change (landmark_at elbowHalfRaised 12) with (Some (mkLandmark 0.4 0.3 0.9)).
  unfold legScore. rewrite !angle_leg_straight. cbn [lm_x lm_y].
  rewrite (Rabs_eval (0.6 - 0.6) 0) by lra.
  rewrite (Rabs_eval (0.4 - 0.4) 0) by lra.
  rewrite (Rabs_eval (180 - 180) 0) by lra.
  f_equal. f_equal; lra.
Qed.

Lemma detectActiveLeg_elbowHalfRaised rd :
  detectActiveLeg rd elbowHalfRaised = Some Right.
Proof.
  rewrite (detectActiveLeg_scores rd elbowHalfRaised (-0.7) (-0.7)
             legScores_elbowHalfRaised).
  replace (num_gt (-0.7) (-0.7 * (1 + 0.3))) with true
    by (symmetry; apply num_gt_true; lra).
  reflexivity.
Qed.

(** [onResults] on a started frame of the leg route in which the three
    points are present. *)
Lemma onResults_leg_state rd currentTime landmarks s detected
    point1 vertex point2 :
  exerciseStarted rd = true ->
  getExerciseBodyPart (exerciseInUse rd) = Legs ->
  detectActiveLeg rd landmarks = Some detected ->
  let pts := Resolve.legPoints
               (points (primaryAngle (angleCalculations (exerciseInUse rd))))
               detected in
  landmark_of_point landmarks pts 0 = Some point1 ->
  landmark_of_point landmarks pts 1 = Some vertex ->
  landmark_of_point landmarks pts 2 = Some point2 ->
  lastStateRef (onResults rd currentTime (Some landmarks) s)
  = snd (phaseFeedback (exerciseInUse rd)
           (calculateAngle point1 vertex point2) 0).
Proof.
  intros started Hlegs Hdet pts H0 H1 H2.
  unfold onResults, analyzeLegExercise. rewrite Hlegs, Hdet. cbv zeta.
  unfold analyzeWithPoints. fold pts. rewrite H0, H1, H2.
  apply analyze_lastState. exact started.
Qed.

(** C10. The built-in exercise, which is the one in use whenever no
    generated configuration is loaded, has the thresholds
    [{liftingMin:60, loweringMax:75, restMax:45}]; they are not in
    ascending order, and the per-frame analysis consumes them as they
    are: [onResults] hands the built-in exercise to the analysis
    unchanged (its keypoint 23 sends it down the leg route), and every
    started frame that is analysed leaves the state lifting exactly when
    the angle is inside [optimalPeak] or above 60, the uncorrected
    [liftingMin].  The ordering correction of the route would give
    [{45, 60, 75}]; with the corrected exercise loaded the same frame is
    lifting exactly when the angle is inside [optimalPeak] or above 45.
    So every angle above 45 and up to 60 is ready with the built-in
    exercise and lifting with the corrected one: the angle 50, and the
    frame [elbowHalfRaised], whose angle is between 45 and 60. *)
Theorem default_exercise_thresholds_uncorrected :
  repThresholds defaultExercise
  = {| liftingMin := 60; loweringMax := 75; restMax := 45 |}
  /\ ~ Route.ascending (repThresholds defaultExercise)
  /\ (forall started side,
        exerciseInUse (mkRender None started side) = defaultExercise)
  /\ (forall started side currentTime landmarks s,
        onResults (mkRender None started side) currentTime (Some landmarks) s
        = match detectActiveLeg (mkRender None started side) landmarks with
          | Some detectedLegLocal =>
              analyzeWithPoints (mkRender None started side) currentTime
                landmarks defaultExercise
                (Resolve.legPoints [23; 11; 13]%Z detectedLegLocal)
                detectedLegLocal s
          | None => s
          end)
  /\ Route.correctThresholds (repThresholds defaultExercise)
     = {| liftingMin := 45; loweringMax := 60; restMax := 75 |}
  /\ (forall side currentTime landmarks s detected point1 vertex point2,
        detectActiveLeg (mkRender None true side) landmarks = Some detected ->
        let pts := Resolve.legPoints [23; 11; 13]%Z detected in
        landmark_of_point landmarks pts 0 = Some point1 ->
        landmark_of_point landmarks pts 1 = Some vertex ->
        landmark_of_point landmarks pts 2 = Some point2 ->
        let angle := calculateAngle point1 vertex point2 in
        lastStateRef
          (onResults (mkRender None true side) currentTime (Some landmarks) s)
        = (if inRange angle (90, 120) || num_gt angle 60
           then "lifting" else "ready")
        /\ lastStateRef
             (onResults (mkRender (Some Samples.defaultCorrected) true side)
                currentTime (Some landmarks) s)
           = (if inRange angle (90, 120) || num_gt angle 45
              then "lifting" else "ready"))
  /\ (forall rd side currentTime landmarks s,
        exerciseStarted rd = true ->
        lastStateRef
          (analyzeExerciseForm rd currentTime 50 landmarks defaultExercise side s)
        = "ready"
        /\ lastStateRef
             (analyzeExerciseForm rd currentTime 50 landmarks
                Samples.defaultCorrected side s)
           = "lifting")
  /\ (forall side currentTime s,
        lastStateRef
          (onResults (mkRender None true side) currentTime
             (Some elbowHalfRaised) s) = "ready"
        /\ lastStateRef
             (onResults (mkRender (Some Samples.defaultCorrected) true side)
                currentTime (Some elbowHalfRaised) s) = "lifting").
Proof.
  assert (Hna : ~ Route.ascending (repThresholds defaultExercise))
    by (unfold Route.ascending; cbn; lra).
  assert (Hcorr : Route.correctThresholds (repThresholds defaultExercise)
                  = {| liftingMin := 45; loweringMax := 60; restMax := 75 |})
    by exact defaultCorrected_thresholds.
  assert (Hgen : forall side currentTime landmarks s detected point1 vertex point2,
        detectActiveLeg (mkRender None true side) landmarks = Some detected ->
        let pts := Resolve.legPoints [23; 11; 13]%Z detected in
        landmark_of_point landmarks pts 0 = Some point1 ->
        landmark_of_point landmarks pts 1 = Some vertex ->
        landmark_of_point landmarks pts 2 = Some point2 ->
        let angle := calculateAngle point1 vertex point2 in
        lastStateRef
          (onResults (mkRender None true side) currentTime (Some landmarks) s)
        = (if inRange angle (90, 120) || num_gt angle 60
           then "lifting" else "ready")
        /\ lastStateRef
             (onResults (mkRender (Some Samples.defaultCorrected) true side)
                currentTime (Some landmarks) s)
           = (if inRange angle (90, 120) || num_gt angle 45
              then "lifting" else "ready")).
  { intros side t l s detected p1 v p2 Hdet pts H0 H1 H2 angle. split.
    - rewrite (onResults_leg_state (mkRender None true side) t l s detected
                 p1 v p2 eq_refl eq_refl Hdet H0 H1 H2).
      apply builtin_phase_state.
    - rewrite (onResults_leg_state
                 (mkRender (Some Samples.defaultCorrected) true side) t l s
                 detected p1 v p2 eq_refl eq_refl Hdet H0 H1 H2).
      apply builtin_phase_state. }
  split; [reflexivity|]. split; [exact Hna|].
  split; [reflexivity|].
  split.
  { intros started side t l s. unfold onResults, analyzeLegExercise.
    change (getExerciseBodyPart (exerciseInUse (mkRender None started side)))
      with Legs.
    cbv iota beta zeta.
    destruct (detectActiveLeg (mkRender None started side) l); reflexivity. }
  split; [exact Hcorr|].
  split; [exact Hgen|].
  split.
  - intros rd side t l s started.
    rewrite !analyze_lastState by exact started.
    destruct (builtin_phase_state 50 0) as [-> ->].
    unfold inRange. cbn [fst snd]. num_decide. split; reflexivity.
  - intros side t s.
    destruct angle_elbowHalfRaised as [Hlo Hhi].
    destruct (Hgen side t elbowHalfRaised s Right
                (mkLandmark 0.4 0.6 0.9) (mkLandmark 0.4 0.3 0.9)
                (mkLandmark 0.8 0.6 0.9)
                (detectActiveLeg_elbowHalfRaised _) eq_refl eq_refl eq_refl)
      as [-> ->].
    set (angle := calculateAngle _ _ _) in *.
    unfold inRange. cbn [fst snd].
    replace (num_ge angle 90) with false by (symmetry; apply num_ge_false; lra).
    replace (num_gt angle 60) with false by (symmetry; apply num_gt_false; lra).
    replace (num_gt angle 45) with true by (symmetry; apply num_gt_true; lra).
    split; reflexivity.
Qed.
